(** * Sklearn_NestedCV: a shallow embedding of the radiomics pipeline

    The development follows the four Python modules of the repository:
    - [Radiomics_gliomas_article/modeling_pipeline_article.py]
      ([format_feature_name], [get_dataset], [get_best_index]);
    - [Radiomics_gliomas_article/local_intensity_features.py];
    - [Statistical_analysis/data_harmonization.py]
      ([neuroComBat], [before_after_comparison]);
    - [Statistical_analysis/feature_selection.py]
      ([FeatureSelection], [FilterFeatureSelection]).

    Python exceptions are values of [exn]; a call that may raise returns
    [result A].  Floating-point scores are represented by rationals; the
    statistical routines of SciPy / scikit-learn / pandas that the code only
    calls are section variables. *)

From Stdlib Require Import String Ascii.
From Stdlib Require Import List Bool Arith ZArith QArith Lia Permutation Sorted.
Import ListNotations.

Set Implicit Arguments.

(** ** Python runtime: exceptions and results *)

Module Py.

Inductive exn : Type :=
| ValueError (msg : string)
| TypeError (msg : string)
| IndexError (msg : string)
| KeyError (key : string)
| NameError (name : string)
| AttributeError (msg : string)
| NotFittedError (msg : string)
| External (what : string).

Inductive result (A : Type) : Type :=
| Ok (a : A)
| Raise (e : exn).

Arguments Ok {A} a.
Arguments Raise {A} e.

Definition bind {A B : Type} (r : result A) (k : A -> result B) : result B :=
  match r with
  | Ok a => k a
  | Raise e => Raise e
  end.

Definition is_ok {A : Type} (r : result A) : bool :=
  match r with Ok _ => true | Raise _ => false end.

(** The spec's error kind InvalidInput: a [ValueError] or a [TypeError]. *)
Definition InvalidInput (e : exn) : Prop :=
  match e with
  | ValueError _ | TypeError _ => True
  | _ => False
  end.

(** The spec's error kind NotFitted. *)
Definition NotFitted (e : exn) : Prop :=
  match e with
  | NotFittedError _ => True
  | _ => False
  end.

End Py.

Export Py.

Declare Scope py_scope.
Delimit Scope py_scope with py.
Notation "x <- c ;; k" := (bind c (fun x => k))
  (at level 61, c at next level, right associativity) : py_scope.
Notation "c ;;; k" := (bind c (fun _ => k))
  (at level 61, right associativity) : py_scope.
Open Scope py_scope.

(** ** Python [str] methods used by the sources *)

Module PyStr.

Open Scope string_scope.

(** [s.startswith(p)] *)
Fixpoint startswith (p s : string) : bool :=
  match p with
  | EmptyString => true
  | String a p' =>
      match s with
      | EmptyString => false
      | String b s' => Ascii.eqb a b && startswith p' s'
      end
  end.

(** [sub in s] *)
Fixpoint contains (sub s : string) : bool :=
  startswith sub s ||
  match s with
  | EmptyString => false
  | String _ s' => contains sub s'
  end.

Fixpoint drop (n : nat) (s : string) : string :=
  match n with
  | O => s
  | S n' => match s with
            | EmptyString => EmptyString
            | String _ s' => drop n' s'
            end
  end.

(** [s.endswith(suf)] *)
Definition endswith (suf s : string) : bool :=
  (String.length suf <=? String.length s)%nat &&
  String.eqb (drop (String.length s - String.length suf) s) suf.

(** Scan for the non-overlapping occurrences of a non-empty [old], left to
    right; [skip] counts the characters of the current occurrence that are
    still to be jumped over. *)
Fixpoint replace_scan (old new : string) (skip : nat) (s : string) : string :=
  match s with
  | EmptyString => EmptyString
  | String c s' =>
      match skip with
      | S k => replace_scan old new k s'
      | O =>
          if startswith old s
          then new ++ replace_scan old new (String.length old - 1) s'
          else String c (replace_scan old new 0 s')
      end
  end.

(** With an empty [old] Python inserts [new] before every character and at
    the end. *)
Fixpoint replace_empty (new s : string) : string :=
  match s with
  | EmptyString => new
  | String c s' => new ++ String c (replace_empty new s')
  end.

(** [s.replace(old, new)] *)
Definition replace (old new s : string) : string :=
  match old with
  | EmptyString => replace_empty new s
  | _ => replace_scan old new 0 s
  end.

(** [s.split(sep)] for a non-empty separator: [cur] is the piece being
    read, kept reversed. *)
Fixpoint rev_string (acc s : string) : string :=
  match s with
  | EmptyString => acc
  | String c s' => rev_string (String c acc) s'
  end.

Fixpoint split_scan (sep : string) (skip : nat) (cur : string) (s : string)
  : list string :=
  match s with
  | EmptyString => [rev_string "" cur]
  | String c s' =>
      match skip with
      | S k => split_scan sep k cur s'
      | O =>
          if startswith sep s
          then rev_string "" cur :: split_scan sep (String.length sep - 1) "" s'
          else split_scan sep 0 (String c cur) s'
      end
  end.

(** [s.split(sep)]; an empty separator raises [ValueError]. *)
Definition split (sep s : string) : result (list string) :=
  match sep with
  | EmptyString => Raise (ValueError "empty separator")
  | _ => Ok (split_scan sep 0 "" s)
  end.

(** [sep.join(parts)] *)
Fixpoint join (sep : string) (parts : list string) : string :=
  match parts with
  | [] => ""
  | [p] => p
  | p :: rest => p ++ sep ++ join sep rest
  end.

(** [s[-1]]: the last character, [IndexError] on the empty string. *)
Fixpoint last_char (s : string) : option ascii :=
  match s with
  | EmptyString => None
  | String c EmptyString => Some c
  | String _ s' => last_char s'
  end.

Definition index_last (s : string) : result ascii :=
  match last_char s with
  | Some c => Ok c
  | None => Raise (IndexError "string index out of range")
  end.

(** [s[:-1]] *)
Fixpoint drop_last (s : string) : string :=
  match s with
  | EmptyString => EmptyString
  | String _ EmptyString => EmptyString
  | String c s' => String c (drop_last s')
  end.

(** [c.lower()] on ASCII letters, and [s.lower()]. *)
Definition lower_ascii (c : ascii) : ascii :=
  let n := nat_of_ascii c in
  if ((65 <=? n) && (n <=? 90))%nat then ascii_of_nat (n + 32) else c.

Fixpoint lower (s : string) : string :=
  match s with
  | EmptyString => EmptyString
  | String c s' => String (lower_ascii c) (lower s')
  end.

(** [x in l] for a list of strings, and [l.index(x)]. *)
Definition mem (x : string) (l : list string) : bool :=
  existsb (String.eqb x) l.

Fixpoint list_index (x : string) (l : list string) : option nat :=
  match l with
  | [] => None
  | y :: l' => if String.eqb y x then Some O
               else option_map S (list_index x l')
  end.

End PyStr.

(** ** modeling_pipeline_article.py: [format_feature_name] *)

Module FeatureName.

Import PyStr.
Open Scope string_scope.

(** Lines 105-113: the substrings to delete, in order. *)
Definition del_substrings (feature_name : string) : list string :=
  ["original_"]
  ++ (if endswith "TBR" feature_name then ["TBR"] else [])
  ++ (if contains "ratio" feature_name then ["_ratio"] else [])
  ++ (if contains "merged" feature_name then ["_.3D._merged._"]
      else ["_.3D._"]).

(** Lines 114-116. *)
Definition strip_substrings (feature_name : string) : string :=
  let deleted :=
    fold_left (fun name substring => replace substring "" name)
              (del_substrings feature_name) feature_name in
  replace "." "_" deleted.

(** Lines 119-128: the abbreviation of the texture matrix. *)
Definition abbreviate (matrix_name : string) : string :=
  if contains "occurrence" matrix_name then "GLCM"
  else if contains "Run_length" matrix_name then "GLRLM"
  else if contains "Size_zone" matrix_name then "GLSZM"
  else if contains "Neighbourhood_grey_tone_difference" matrix_name then "NGTDM"
  else if contains "Neighbouring_grey_level_dependence" matrix_name then "NGLDM"
  else matrix_name.

Definition nth_piece (pieces : list string) (i : nat) : result string :=
  match nth_error pieces i with
  | Some p => Ok p
  | None => Raise (IndexError "list index out of range")
  end.

(** Lines 117-129. *)
Definition rename_matrix (feature_name : string) : result string :=
  if contains "matrix" feature_name then
    pieces <- split "matrix" feature_name ;;
    left <- nth_piece pieces 0 ;;
    right <- nth_piece pieces 1 ;;
    Ok (join "_" [abbreviate left; right])
  else Ok feature_name.

(** Lines 130-133.  Line 130, [feature_name.replace('__', '_')], builds a
    new string and drops it: [feature_name] is not rebound. *)
Definition strip_trailing (feature_name : string) : result string :=
  let _ignored := replace "__" "_" feature_name in
  c <- index_last feature_name ;;
  if Ascii.eqb c "_"%char then Ok (drop_last feature_name)
  else Ok feature_name.

Definition format_feature_name (feature_name : string) : result string :=
  renamed <- rename_matrix (strip_substrings feature_name) ;;
  strip_trailing renamed.

End FeatureName.

(** ** NumPy arrays, as far as the sources use them *)

Module Np.

(** Values of a batch or label vector: integers or strings. *)
Inductive label : Type :=
| LInt (z : Z)
| LStr (s : string).

Definition label_compare (a b : label) : comparison :=
  match a, b with
  | LInt x, LInt y => Z.compare x y
  | LInt _, LStr _ => Lt
  | LStr _, LInt _ => Gt
  | LStr x, LStr y => String.compare x y
  end.

Definition label_eqb (a b : label) : bool :=
  match label_compare a b with Eq => true | _ => false end.

(** An array with its shape: 0-d, 1-d, 2-d (row major, [n_cols] kept for
    the empty matrix) or of higher dimension. *)
Inductive ndarray (A : Type) : Type :=
| Scalar (a : A)
| Vec (v : list A)
| Mat (n_cols : nat) (rows : list (list A))
| Tensor (d1 d2 d3 : nat) (more : list nat) (flat : list A).

Arguments Scalar {A} a.
Arguments Vec {A} v.
Arguments Mat {A} n_cols rows.
Arguments Tensor {A} d1 d2 d3 more flat.

(** [a.shape] *)
Definition shape {A : Type} (a : ndarray A) : list nat :=
  match a with
  | Scalar _ => []
  | Vec v => [length v]
  | Mat n_cols rows => [length rows; n_cols]
  | Tensor d1 d2 d3 more _ => d1 :: d2 :: d3 :: more
  end.

Definition ndim {A : Type} (a : ndarray A) : nat := length (shape a).

(** The elements in row-major order. *)
Definition ravel {A : Type} (a : ndarray A) : list A :=
  match a with
  | Scalar x => [x]
  | Vec v => v
  | Mat _ rows => concat rows
  | Tensor _ _ _ _ flat => flat
  end.

(** [np.unique]: the sorted distinct values. *)
Fixpoint insert_unique (x : label) (l : list label) : list label :=
  match l with
  | [] => [x]
  | y :: l' =>
      match label_compare x y with
      | Lt => x :: l
      | Eq => l
      | Gt => y :: insert_unique x l'
      end
  end.

Definition unique_list (l : list label) : list label :=
  fold_right insert_unique [] l.

Definition unique (a : ndarray label) : list label := unique_list (ravel a).

(** [X[:, i]] on rows of a matrix; a short row contributes the default. *)
Definition column {A : Type} (d : A) (rows : list (list A)) (i : nat)
  : list A :=
  map (fun row => nth i row d) rows.

(** [v[mask]] with a 1-d boolean mask: the lengths must agree. *)
Fixpoint compress {A : Type} (mask : list bool) (v : list A) : list A :=
  match mask, v with
  | b :: mask', x :: v' =>
      if b then x :: compress mask' v' else compress mask' v'
  | _, _ => []
  end.

Definition bool_index {A : Type} (v : list A) (mask : ndarray bool)
  : result (list A) :=
  match mask with
  | Vec m =>
      if (length m =? length v)%nat then Ok (compress m v)
      else Raise (IndexError "boolean index did not match indexed array")
  | _ => Raise (IndexError "too many indices for array")
  end.

(** [a == x], element by element, keeping the shape of [a]. *)
Definition map_array {A B : Type} (f : A -> B) (a : ndarray A) : ndarray B :=
  match a with
  | Scalar x => Scalar (f x)
  | Vec v => Vec (map f v)
  | Mat n rows => Mat n (map (map f) rows)
  | Tensor d1 d2 d3 more flat => Tensor d1 d2 d3 more (map f flat)
  end.

Definition equal_to (a : ndarray label) (x : label) : ndarray bool :=
  map_array (fun y => label_eqb y x) a.

(** What a caller may pass where an array is expected. *)
Inductive arg (A : Type) : Type :=
| Seq (a : A)        (* list, tuple or numpy array *)
| Pandas (a : A)     (* pandas DataFrame or Series *)
| Dict (a : A)       (* a Mapping *)
| Other.             (* anything else *)

Arguments Seq {A} a.
Arguments Pandas {A} a.
Arguments Dict {A} a.
Arguments Other {A}.

(** Traversal of a list with a fallible body. *)
Fixpoint mapM {A B : Type} (f : A -> result B) (l : list A)
  : result (list B) :=
  match l with
  | [] => Ok []
  | x :: l' => y <- f x ;; ys <- mapM f l' ;; Ok (y :: ys)
  end.

(** A loop that threads a value through a fallible body. *)
Fixpoint foldM {A S : Type} (f : S -> A -> result S) (l : list A) (s : S)
  : result S :=
  match l with
  | [] => Ok s
  | x :: l' => s' <- f s x ;; foldM f l' s'
  end.

End Np.

(** ** local_intensity_features.py *)

Module LocalIntensity.

Import PyStr.
Open Scope string_scope.

Definition dquote : string := String (ascii_of_nat 34) "".

(** The message of line 8. *)
Definition target_message : string :=
  "target must be one of [" ++ dquote ++ "min" ++ dquote ++ ", "
  ++ dquote ++ "max" ++ dquote ++ ", " ++ dquote ++ "minimum" ++ dquote
  ++ ", " ++ dquote ++ "maximum" ++ dquote ++ "]".

(** The list of line 7. *)
Definition accepted_targets : list string :=
  ["min"; "max"; "minimum"; "maximum"].

(** The statistic read off the label filter: lines 10-13. *)
Inductive target_func : Type := GetMinimum | GetMaximum.

Record peaks (F : Type) : Type := {
  local_intensity_peak : F;
  global_intensity_peak : F
}.

Section Extractor.

Variables (image mask F : Type).

(** Lines 15-43: kernel construction, the two convolutions and the three
    label statistics, all SimpleITK / SciPy computations on floats. *)
Variable intensity_peaks : image -> mask -> target_func -> result (peaks F).

Definition select_target (target : string) : result target_func :=
  if negb (mem target accepted_targets) then
    Raise (ValueError target_message)
  else if mem target ["min"; "minimum"] then Ok GetMinimum
  else Ok GetMaximum.

Definition local_intensity_features (img : image) (msk : mask)
  (target : string) : result (peaks F) :=
  target_func <- select_target target ;;
  intensity_peaks img msk target_func.

End Extractor.

End LocalIntensity.

(** ** data_harmonization.py *)

Module Harmonization.

Import PyStr Np.
Open Scope string_scope.

(** The [num_covs] argument: [None], an [int], a list / tuple / array of
    [int], or anything else. *)
Inductive num_covs_arg : Type :=
| NoCovs
| OneCov (i : Z)
| ManyCovs (l : list Z)
| BadCovs.

(** The [columns=] argument of [pd.DataFrame]: a bare [str] or a list. *)
Inductive columns_arg : Type :=
| ColumnsName (s : string)
| ColumnsList (names : list string).

(** The one-column frame that holds the batch vector. *)
Record batch_frame : Type := {
  bf_columns : list string;
  bf_values : ndarray label
}.

(** [pd.DataFrame(data, columns=...)] on an array: pandas turns [columns]
    into the column index with [Index(columns)], and [Index] refuses a
    scalar, a [str] included, with a [TypeError]; only a collection of
    names builds the frame. *)
Definition DataFrame_of_array (data : ndarray label) (columns : columns_arg)
  : result batch_frame :=
  match columns with
  | ColumnsName s =>
      Raise (TypeError ("Index(...) must be called with a collection of some kind, '"
                        ++ s ++ "' was passed"))
  | ColumnsList names => Ok {| bf_columns := names; bf_values := data |}
  end.

(** Lines 63-76 and 115-128: the checks on the batch vector.  The
    [batch.reshape(-1)] of a column vector is computed and dropped. *)
Definition check_batch (batch : arg (ndarray label)) : result (ndarray label) :=
  b <- match batch with
       | Seq a | Pandas a => Ok a
       | _ => Raise (TypeError
                "batch array must be an array like or pandas Dataframe/Series")
       end ;;
  (if negb (ndim b =? 1)%nat then
     if ((ndim b =? 2)%nat && (nth 1 (shape b) 0 =? 1)%nat)%bool then Ok tt
     else Raise (ValueError
            "batch array must be 1D or 2D with second dimension equal to 1")
   else Ok tt) ;;;
  if (length (unique b) <=? 1)%nat then
    Raise (ValueError "batch array must have at least 2 classes")
  else Ok b.

Section NeuroComBat.

(** [frame] stands for a pandas DataFrame; the payload of a [Seq] or a
    [Dict] argument is the frame [pd.DataFrame] builds from it. *)
Variable frame : Type.
Variable DataFrame_empty : frame.
Variable frame_columns : frame -> list string.
(** [covariate.index[np.array(num_covs)].to_list()] *)
Variable index_take : frame -> list Z -> result (list string).
(** [pd.concat([covariate, batch], axis=1)] *)
Variable concat_columns : frame -> batch_frame -> frame.
(** The external harmonisation: [neuroCombat(...)['data']]. *)
Variable neuroCombat :
  frame -> frame -> list string -> option (list string) -> option label ->
  bool -> bool -> bool -> result frame.

(** Lines 33-39. *)
Definition check_X (X : arg frame) : result frame :=
  match X with
  | Pandas df => Ok df
  | Seq df | Dict df => Ok df
  | Other => Raise (TypeError
      "X must be an array-like object, dictionary or pandas Dataframe/Series")
  end.

(** Lines 42-49: the test is made on [X], not on [covariate]; with a
    tabular [X] the covariate is left as it was passed, [None] below when
    that is no DataFrame. *)
Definition check_covariate (X : arg frame) (covariate : option (arg frame))
  : result (option frame) :=
  match covariate with
  | None => Ok (Some DataFrame_empty)
  | Some c =>
      match X with
      | Pandas _ =>
          match c with
          | Pandas f => Ok (Some f)
          | _ => Ok None
          end
      | Seq _ | Dict _ =>
          match c with
          | Seq f | Dict f | Pandas f => Ok (Some f)
          | Other => Raise (ValueError "DataFrame constructor not properly called!")
          end
      | Other => Raise (TypeError
          "covariate array must be an array like or pandas Dataframe/Series")
      end
  end.

Definition as_frame (covariate : option frame) (attribute : string)
  : result frame :=
  match covariate with
  | Some f => Ok f
  | None => Raise (AttributeError ("object has no attribute '" ++ attribute ++ "'"))
  end.

(** Lines 52-60: returns [(num_covs, cat_covs)]. *)
Definition check_num_covs (covariate : option frame) (num_covs : num_covs_arg)
  : result (option (list string) * list string) :=
  match num_covs with
  | NoCovs =>
      cov <- as_frame covariate "columns" ;;
      Ok (None, frame_columns cov)
  | BadCovs => Raise (TypeError
      "num_covs must be an int or array like of int equal to the index of numerical covariates")
  | OneCov _ | ManyCovs _ =>
      let idx := match num_covs with OneCov i => [i] | ManyCovs l => l | _ => [] end in
      cov <- as_frame covariate "index" ;;
      names <- index_take cov idx ;;
      Ok (Some names,
          filter (fun c => negb (mem c names)) (frame_columns cov))
  end.

(** The harmonised table and the file written, if any. *)
Definition neuroComBat (X : arg frame) (batch : arg (ndarray label))
  (ref_batch : option label) (covariate : option (arg frame))
  (num_covs : num_covs_arg) (parametric empirical_bayes mean_only : bool)
  (save_dir : option string) : result (frame * option string) :=
  df <- check_X X ;;
  covariate' <- check_covariate X covariate ;;
  covs <- check_num_covs covariate' num_covs ;;
  let '(num_names, cat_covs) := covs in
  b <- check_batch batch ;;
  (* line 77 *)
  bframe <- DataFrame_of_array b (ColumnsName "batch") ;;
  (* lines 80-82 *)
  cov <- as_frame covariate' "reset_index" ;;
  let cov_batch := concat_columns cov bframe in
  (* lines 84-85 *)
  (match ref_batch with
   | Some r =>
       if negb (existsb (label_eqb r) (unique (bf_values bframe))) then
         Raise (ValueError "ref_batch must be one of np.unique(batch) values")
       else Ok tt
   | None => Ok tt
   end) ;;;
  results <- neuroCombat df cov_batch cat_covs num_names ref_batch
                         parametric empirical_bayes mean_only ;;
  match save_dir with
  | Some dir => Ok (results, Some (dir ++ "/Feature_MComBat.xlsx"))
  | None => Ok (results, None)
  end.

End NeuroComBat.

Section BeforeAfter.

(** [scipy.stats.mannwhitneyu(a, b, alternative='two-sided')] and
    [scipy.stats.kruskal( *groups )]: statistic and p-value. *)
Variable mannwhitneyu : list Q -> list Q -> result (Q * Q).
Variable kruskal : list (list Q) -> result (Q * Q).

(** Lines 105-113, for [key] in [before], [after]. *)
Definition check_table (key : string) (X : arg (ndarray Q))
  : result (ndarray Q) :=
  a <- match X with
       | Seq a | Pandas a => Ok a
       | _ => Raise (TypeError ("X_" ++ key ++
                " array must be an array like or pandas Dataframe/Series"))
       end ;;
  if negb (ndim a =? 2)%nat then
    Raise (ValueError ("X_" ++ key ++ " array must 2D"))
  else Ok a.

(** Line 139: every group is cut out with [batch == i], [i] being the
    index of the feature; the label bound by the comprehension is unused. *)
Definition kruskal_groups (col : list Q) (batch : ndarray label) (i : nat)
  (labels : list label) : result (list (list Q)) :=
  mapM (fun _ => bool_index col (equal_to batch (LInt (Z.of_nat i)))) labels.

(** The groups as the docstring and the spec word them: one group per
    distinct batch value. *)
Definition groups_by_batch_label (col : list Q) (batch : ndarray label)
  (labels : list label) : result (list (list Q)) :=
  mapM (fun l => bool_index col (equal_to batch l)) labels.

(** Lines 135-140: the p-value of feature [i]. *)
Definition feature_pvalue (rows : list (list Q)) (batch : ndarray label)
  (labels : list label) (i : nat) : result Q :=
  let col := column 0%Q rows i in
  match labels with
  | [l0; l1] =>
      g0 <- bool_index col (equal_to batch l0) ;;
      g1 <- bool_index col (equal_to batch l1) ;;
      r <- mannwhitneyu g0 g1 ;;
      Ok (snd r)
  | _ =>
      X_by_label <- kruskal_groups col batch i labels ;;
      r <- kruskal X_by_label ;;
      Ok (snd r)
  end.

(** Lines 132-141 for one table. *)
Definition table_pvalues (a : ndarray Q) (batch : ndarray label)
  : result (list Q) :=
  match a with
  | Mat n_features rows =>
      mapM (feature_pvalue rows batch (unique batch)) (seq 0 n_features)
  | _ => Raise (ValueError "not enough values to unpack")
  end.

(** The frame with the columns [pvalue_before] and [pvalue_after]. *)
Definition before_after_comparison (X_before X_after : arg (ndarray Q))
  (batch : arg (ndarray label)) : result (list Q * list Q) :=
  before <- check_table "before" X_before ;;
  after <- check_table "after" X_after ;;
  b <- check_batch batch ;;
  pvalue_before <- table_pvalues before b ;;
  pvalue_after <- table_pvalues after b ;;
  if (length pvalue_before =? length pvalue_after)%nat then
    Ok (pvalue_before, pvalue_after)
  else Raise (ValueError "All arrays must be of the same length").

End BeforeAfter.

End Harmonization.

(** ** modeling_pipeline_article.py: [get_dataset] and [get_best_index] *)

Module Pipeline.

Import PyStr Np.
Open Scope string_scope.

(** A Python [dict] with string keys, in insertion order. *)
Definition dict (V : Type) : Type := list (string * V).

Fixpoint lookup {V : Type} (k : string) (d : dict V) : option V :=
  match d with
  | [] => None
  | (k', v) :: d' => if String.eqb k' k then Some v else lookup k d'
  end.

(** [d[k]] *)
Definition getitem {V : Type} (d : dict V) (k : string) : result V :=
  match lookup k d with
  | Some v => Ok v
  | None => Raise (KeyError k)
  end.

Definition keys {V : Type} (d : dict V) : list string := map fst d.

Section GetDataset.

Variable frame : Type.
Variable batch_t covariates_t : Type.
(** [pd.read_excel(path, index_col=0)] *)
Variable read_excel : string -> result frame.
(** [MComBat] and [ComBat] are called by [get_dataset] and defined nowhere
    in the repository; they are taken as parameters. *)
Variable MComBat : frame -> batch_t -> string -> covariates_t -> result frame.
Variable ComBat : frame -> batch_t -> covariates_t -> result frame.
(** [pd.concat([a, b], axis=1)] *)
Variable concat_columns : frame -> frame -> frame.

(** The harmonisation step shared by the four branches. *)
Definition harmonize (harmonization : string) (t : frame) (batch : batch_t)
  (covariates : covariates_t) : result frame :=
  if String.eqb harmonization "MComBat" then
    let ref_batch := "Vereos" in
    MComBat t batch ref_batch covariates
  else ComBat t batch covariates.

Definition load (dataset_dic : dict string) (key : string) : result frame :=
  path <- getitem dataset_dic key ;;
  read_excel path.

Definition get_dataset (dataset : string) (dataset_dic : dict string)
  (batch : batch_t) (harmonization : string) (covariates : covariates_t)
  : result (dict frame) :=
  if String.eqb dataset "S+D" then
    stat <- load dataset_dic "S" ;;
    dyn <- load dataset_dic "D" ;;
    stat <- harmonize harmonization stat batch covariates ;;
    Ok [("S+D", concat_columns stat dyn)]
  else if String.eqb dataset "S+D+OR" then
    stat <- load dataset_dic "S" ;;
    dyn <- load dataset_dic "D" ;;
    text <- load dataset_dic "OR" ;;
    let stat_text := concat_columns stat text in
    stat_text <- harmonize harmonization stat_text batch covariates ;;
    Ok [("S+D+OR", concat_columns stat_text dyn)]
  else if String.eqb dataset "S" then
    stat <- load dataset_dic "S" ;;
    stat <- harmonize harmonization stat batch covariates ;;
    Ok [("S", stat)]
  else if String.eqb dataset "S+OR" then
    stat <- load dataset_dic "S" ;;
    text <- load dataset_dic "OR" ;;
    let stat_text := concat_columns stat text in
    stat_text <- harmonize harmonization stat_text batch covariates ;;
    Ok [("S+OR", stat_text)]
  else Raise (ValueError "").

(** *** [get_features_dic] *)

(** [features_dic.update(d)]: a key already present keeps its place and
    takes the new value, a new key goes last. *)
Fixpoint setitem {V : Type} (d : dict V) (k : string) (v : V) : dict V :=
  match d with
  | [] => [(k, v)]
  | (k', v') :: d' =>
      if String.eqb k' k then (k', v) :: d' else (k', v') :: setitem d' k v
  end.

Definition update {V : Type} (d other : dict V) : dict V :=
  fold_left (fun acc kv => setitem acc (fst kv) (snd kv)) other d.

(** The [dataset_list] argument: one id as a [str], or a list of ids. *)
Inductive dataset_list_arg : Type :=
| OneDataset (dataset : string)
| Datasets (dataset_list : list string).

(** Lines 247-248. *)
Definition as_dataset_list (dataset_list : dataset_list_arg) : list string :=
  match dataset_list with
  | OneDataset dataset => [dataset]
  | Datasets l => l
  end.

(** Lines 250-251: the loop, [features_dic] being the mapping built so
    far. *)
Fixpoint features_loop (dataset_list : list string) (dataset_dic : dict string)
  (batch : batch_t) (harmonization : string) (covariates : covariates_t)
  (features_dic : dict frame) : result (dict frame) :=
  match dataset_list with
  | [] => Ok features_dic
  | dataset :: rest =>
      d <- get_dataset dataset dataset_dic batch harmonization covariates ;;
      features_loop rest dataset_dic batch harmonization covariates
                    (update features_dic d)
  end.

Definition get_features_dic (dataset_list : dataset_list_arg)
  (dataset_dic : dict string) (batch : batch_t) (harmonization : string)
  (covariates : covariates_t) : result (dict frame) :=
  features_loop (as_dataset_list dataset_list) dataset_dic batch harmonization
                covariates [].

End GetDataset.

(** *** [save_results]: the inner search trace, lines 60-66 *)

Section InnerResults.

(** What the inner search records for a candidate under a key: its
    hyperparameters, a mean or a standard deviation. *)
Variable V : Type.

(** An entry of the flattened table: a fold index or a recorded value. *)
Inductive entry : Type :=
| Fold (i : nat)
| Recorded (v : V).

(** The columns of line 60. *)
Definition inner_columns : list string :=
  ["inner_Fold"; "params"; "mean_test_score"; "std_test_score";
   "mean_train_score"; "std_train_score"].

Definition inner_results_empty : dict (list entry) :=
  map (fun key => (key, [])) inner_columns.

(** [table[key].append(x)] *)
Definition append (table : dict (list entry)) (key : string) (x : entry)
  : result (dict (list entry)) :=
  column <- getitem table key ;;
  Ok (setitem table key (column ++ [x])%list).

(** [fold_results[key][j]] *)
Definition candidate_value (fold_results : dict (list V)) (key : string)
  (j : nat) : result V :=
  column <- getitem fold_results key ;;
  match nth_error column j with
  | Some v => Ok v
  | None => Raise (IndexError "list index out of range")
  end.

(** Lines 64-66: the row of candidate [j] of fold [i]. *)
Definition append_candidate (i : nat) (fold_results : dict (list V))
  (table : dict (list entry)) (j : nat) : result (dict (list entry)) :=
  table <- append table "inner_Fold" (Fold i) ;;
  foldM (fun table key =>
           v <- candidate_value fold_results key j ;;
           append table key (Recorded v))
        (keys fold_results) table.

(** Lines 63-66: the rows of fold [i]. *)
Definition append_fold (table : dict (list entry))
  (fold : nat * dict (list V)) : result (dict (list entry)) :=
  let '(i, fold_results) := fold in
  candidates <- getitem fold_results "params" ;;
  foldM (append_candidate i fold_results) (seq 0 (length candidates)) table.

(** Lines 60-66: [inner_results_reformated]. *)
Definition reformat_inner_results (inner_results : list (dict (list V)))
  : result (dict (list entry)) :=
  foldM append_fold (combine (seq 0 (length inner_results)) inner_results)
        inner_results_empty.

(** The candidates of a fold, and the part of a column they reach. *)
Definition candidates (fold_results : dict (list V)) : list V :=
  match lookup "params" fold_results with
  | Some c => c
  | None => []
  end.

Definition recorded (fold_results : dict (list V)) (key : string)
  : list entry :=
  match lookup key fold_results with
  | Some column =>
      map Recorded (firstn (length (candidates fold_results)) column)
  | None => []
  end.

End InnerResults.

Arguments Fold {V} i.
Arguments Recorded {V} v.

(** The set the specification names, and the set the dispatch accepts. *)
Definition specified_ids : list string :=
  ["S"; "D"; "OR"; "S+D"; "S+D+OR"; "S+OR"].

Definition dispatched_ids : list string :=
  ["S+D"; "S+D+OR"; "S"; "S+OR"].

(** A file system on which every table loads, for concrete runs: a frame
    is the list of its column groups. *)
Definition demo_read_excel (path : string) : result (list string) :=
  Ok [path].

Definition demo_MComBat (t : list string) (_ : unit) (ref_batch : string)
  (_ : unit) : result (list string) := Ok t.

Definition demo_ComBat (t : list string) (_ _ : unit)
  : result (list string) := Ok t.

Definition demo_dataset_dic : dict string :=
  [("OR", "OR_tumor.xlsx"); ("S", "S.xlsx"); ("D", "D.xlsx")].

Definition demo_get_dataset (dataset : string) : result (dict (list string)) :=
  get_dataset demo_read_excel demo_MComBat demo_ComBat (@app string)
              dataset demo_dataset_dic tt "MComBat" tt.

Definition demo_get_features_dic (dataset_list : dataset_list_arg)
  : result (dict (list string)) :=
  get_features_dic demo_read_excel demo_MComBat demo_ComBat (@app string)
                   dataset_list demo_dataset_dic tt "MComBat" tt.

(** *** [get_best_index] *)

(** Hyperparameter values: [None], an integer or a float. *)
Inductive value : Type :=
| VNone
| VInt (z : Z)
| VFloat (q : Q).

Definition number (v : value) : option Q :=
  match v with
  | VNone => None
  | VInt z => Some (inject_Z z)
  | VFloat q => Some q
  end.

(** Python [==] on these values. *)
Definition value_eqb (a b : value) : bool :=
  match number a, number b with
  | None, None => true
  | Some x, Some y => Qeq_bool x y
  | _, _ => false
  end.

(** [d1 == d2] on dicts: same keys, equal values, whatever the order. *)
Definition included (d1 d2 : dict value) : bool :=
  forallb (fun kv => match lookup (fst kv) d2 with
                     | Some v => value_eqb (snd kv) v
                     | None => false
                     end) d1.

Definition dict_eqb (d1 d2 : dict value) : bool :=
  included d1 d2 && included d2 d1.

Record cv_results : Type := {
  rank_test_score : list Z;
  params : list (dict value)
}.

(** [a.min()] on an integer array. *)
Definition array_min (a : list Z) : result Z :=
  match a with
  | [] => Raise (ValueError
      "zero-size array to reduction operation minimum which has no identity")
  | x :: a' => Ok (fold_left Z.min a' x)
  end.

(** [min(values)] on numbers; comparing with [None] is a [TypeError]. *)
Fixpoint numbers (vs : list value) : result (list Q) :=
  match vs with
  | [] => Ok []
  | v :: vs' =>
      match number v with
      | Some q => qs <- numbers vs' ;; Ok (q :: qs)
      | None => Raise (TypeError
          "'<' not supported between instances of 'NoneType' and 'int'")
      end
  end.

Definition Qmin_list (q : Q) (qs : list Q) : Q :=
  fold_left (fun m x => if Qle_bool m x then m else x) qs q.

Definition value_min (vs : list value) : result value :=
  qs <- numbers vs ;;
  match qs with
  | [] => Raise (ValueError "min() arg is an empty sequence")
  | q :: qs' => Ok (VFloat (Qmin_list q qs'))
  end.

Definition first {A : Type} (l : list A) : result A :=
  match l with
  | x :: _ => Ok x
  | [] => Raise (IndexError "index 0 is out of bounds for axis 0 with size 0")
  end.

Definition fs_key : string := "FeatureSelection__n_selected_features".

Definition params_of_interest : list string :=
  ["classifier__C"; "classifier__base_estimator__C";
   "classifier__max_features"; "classifier__alpha"].

(** Lines 277-278: the configurations tied for the best rank. *)
Definition best_rank_params (cv : cv_results) : result (list (dict value)) :=
  best <- array_min (rank_test_score cv) ;;
  bool_index (params cv) (Vec (map (fun r => Z.eqb r best) (rank_test_score cv))).

(** Lines 280-286. *)
Definition narrow_selected_features (params_name : list string)
  (params_best_score : list (dict value)) : result (list (dict value)) :=
  if mem fs_key params_name then
    fs_params <- mapM (fun p => getitem p fs_key) params_best_score ;;
    best_fs <- (if existsb (value_eqb VNone) fs_params then Ok VNone
                else value_min fs_params) ;;
    Ok (compress (map (fun v => value_eqb v best_fs) fs_params)
                 params_best_score)
  else Ok params_best_score.

(** Lines 287-296: [params_of_interest != 'classifier__alpha'] compares a
    list with a string and always holds, so the minimum is always taken. *)
Definition narrow_classifier (params_name : list string)
  (params_best_score : list (dict value)) : result (list (dict value)) :=
  let classifier_params_names :=
    filter (contains "classifier") params_name in
  let param_chosen :=
    filter (fun k => mem k params_of_interest) classifier_params_names in
  match param_chosen with
  | [] => Ok params_best_score
  | chosen :: _ =>
      classifier_params <- mapM (fun p => getitem p chosen) params_best_score ;;
      smallest <- value_min classifier_params ;;
      Ok (compress (map (fun v => value_eqb v smallest) classifier_params)
                   params_best_score)
  end.

(** Line 298: [np.where(np.array(params) == best_params)[0][0]]. *)
Fixpoint where_first (best_params : dict value) (ps : list (dict value))
  : option nat :=
  match ps with
  | [] => None
  | p :: ps' =>
      if dict_eqb p best_params then Some O
      else option_map S (where_first best_params ps')
  end.

(** A configuration whose number of selected features is [None]. *)
Definition selects_all (p : dict value) : bool :=
  match lookup fs_key p with
  | Some v => value_eqb VNone v
  | None => false
  end.

Definition get_best_index (cv : cv_results) : result nat :=
  params_best_score <- best_rank_params cv ;;
  first_params <- first params_best_score ;;
  let params_name := keys first_params in
  params_best_score <- narrow_selected_features params_name params_best_score ;;
  params_best_score <- narrow_classifier params_name params_best_score ;;
  best_params <- first params_best_score ;;
  match where_first best_params (params cv) with
  | Some i => Ok i
  | None => Raise (IndexError "index 0 is out of bounds for axis 0 with size 0")
  end.

End Pipeline.

(** ** SciPy's [rankdata], Python's [sorted], [list.index] and slices *)

Module Ranking.

Import Np.

Section Sorting.

Variable A : Type.
Variable leb : A -> A -> bool.

(** Insertion in front of the first element that is not smaller: with
    [fold_right] the earlier of two equal elements stays first, as in a
    stable sort. *)
Fixpoint insert_sorted (x : A) (l : list A) : list A :=
  match l with
  | [] => [x]
  | y :: l' => if leb x y then x :: l else y :: insert_sorted x l'
  end.

(** [sorted(l)] *)
Definition sorted (l : list A) : list A := fold_right insert_sorted [] l.

End Sorting.

(** [enumerate(l)] *)
Definition enumerate {A : Type} (l : list A) : list (nat * A) :=
  combine (seq 0 (length l)) l.

(** [np.argsort(a, kind='mergesort')]: a stable sort of the positions. *)
Definition argsort {A : Type} (leb : A -> A -> bool) (a : list A) : list nat :=
  map fst (sorted (fun x y => leb (snd x) (snd y)) (enumerate a)).

(** The position of the first element satisfying [p]. *)
Fixpoint find_index {A : Type} (p : A -> bool) (l : list A) : option nat :=
  match l with
  | [] => None
  | x :: l' => if p x then Some O else option_map S (find_index p l')
  end.

Definition position (i : nat) (l : list nat) : nat :=
  match find_index (Nat.eqb i) l with
  | Some p => p
  | None => length l
  end.

(** [rankdata(a, method='ordinal')]: [inv[sorter] = arange(n)], then
    [inv + 1]. *)
Definition rankdata_ordinal {A : Type} (leb : A -> A -> bool) (a : list A)
  : list nat :=
  let sorter := argsort leb a in
  map (fun i => S (position i sorter)) (seq 0 (length a)).

(** [rankdata(a)], the default method 'average': the mean of the ordinal
    ranks of the elements equal to [x]. *)
Definition rankdata_average (a : list Q) : list Q :=
  map (fun x =>
         let less := length (filter (fun y => negb (Qle_bool x y)) a) in
         let same := length (filter (fun y => Qeq_bool x y) a) in
         (inject_Z (Z.of_nat less)
          + (inject_Z (Z.of_nat same) + 1) / 2)%Q) a.

(** [list(ranks).index(r)] *)
Definition list_index (ranks : list Q) (r : Q) : result nat :=
  match find_index (fun x => Qeq_bool x r) ranks with
  | Some i => Ok i
  | None => Raise (ValueError "value is not in list")
  end.

(** [[list(ranks).index(_) for _ in sorted(ranks)]] *)
Definition ranking_index (ranks : list Q) : result (list nat) :=
  mapM (list_index ranks) (sorted Qle_bool ranks).

(** [l[:k]] for any integer [k]. *)
Definition slice_to {A : Type} (l : list A) (k : Z) : list A :=
  if (0 <=? k)%Z then firstn (Z.to_nat k) l
  else firstn (length l - Z.to_nat (- k)) l.

(** The length of [l[:k]] for a list of length [n]. *)
Definition slice_length (n : nat) (k : Z) : nat :=
  if (0 <=? k)%Z then Nat.min (Z.to_nat k) n else n - Z.to_nat (- k).

(** [l[idx]] with a list of positions. *)
Definition take {A : Type} (l : list A) (idx : list nat) : result (list A) :=
  mapM (fun i => match nth_error l i with
                 | Some x => Ok x
                 | None => Raise (IndexError "index is out of bounds")
                 end) idx.

(** [mask = np.zeros(n, dtype=bool); mask[idx] = True] *)
Definition support_mask (n : nat) (idx : list nat) : result (list bool) :=
  if forallb (fun i => i <? n) idx then
    Ok (map (fun j => existsb (Nat.eqb j) idx) (seq 0 n))
  else Raise (IndexError "index is out of bounds").

Definition count_true (mask : list bool) : nat :=
  length (filter (fun b => b) mask).

(** Floats extended with the [np.inf] of [importance_score]. *)
Inductive xfloat : Type :=
| Finite (q : Q)
| Infinity.

Definition xle_bool (a b : xfloat) : bool :=
  match a, b with
  | Finite x, Finite y => Qle_bool x y
  | _, Infinity => true
  | Infinity, Finite _ => false
  end.

Definition ranks_to_Q (ranks : list nat) : list Q :=
  map (fun r => inject_Z (Z.of_nat r)) ranks.

End Ranking.

(** ** feature_selection.py *)

Module FeatureSelection.

Import PyStr Np Ranking.
Open Scope string_scope.

(** What a scoring or ranking function returns: a NumPy array, or a plain
    Python list or tuple of numbers.  [list(r)], [sorted(r)], [np.array(r)]
    and [rankdata(r)] read the values of both alike; [r *= -1] does not. *)
Inductive returned : Type :=
| Array (v : list Q)
| Sequence (v : list Q).

Definition values (r : returned) : list Q :=
  match r with
  | Array v | Sequence v => v
  end.

(** A scoring or ranking function: [(X, y)] with [X] given by its number
    of columns and its rows; [y] is [None] when [fit] got no labels. *)
Definition score_fn : Type :=
  nat -> list (list Q) -> option (ndarray label) -> result returned.

(** The numbers a library routine computes on [(X, y)], and the method
    that returns them in a NumPy array. *)
Definition array_fn : Type :=
  nat -> list (list Q) -> option (ndarray label) -> result (list Q).

Definition as_array (f : array_fn) : score_fn := fun n rows y =>
  score <- f n rows y ;;
  Ok (Array score).

(** The [method] argument: a name, a callable, anything else. *)
Inductive method_arg : Type :=
| MethodName (name : string)
| MethodCallable (f : score_fn)
| MethodOther.

(** The [ranking_aggregation] argument: [None], a name, a callable (never
    called: see [_get_aggregation_method]), anything else. *)
Inductive aggregation_arg : Type :=
| AggNone
| AggName (name : string)
| AggCallable
| AggOther.

(** The [n_selected_features] argument: [None], an integer, anything
    else. *)
Inductive n_selected_arg : Type :=
| NSelNone
| NSelInt (k : Z)
| NSelOther.

(** The attributes of a [FilterFeatureSelection] instance: the
    constructor's, then those [fit] and [transform] add. *)
Record selector : Type := {
  method : method_arg;
  ranking_done : bool;
  score_indicator_lower : option bool;
  bootstrap : bool;
  n_bsamples : Z;
  n_selected_features : n_selected_arg;
  ranking_aggregation : aggregation_arg;
  classification : bool;
  random_state : option Z;
  n_samples : option nat;
  n_features : option nat;
  n_classes : option nat;
  accepted_features_index_ : option (list nat);
  selected_features : option (ndarray Q)
}.

(** [FilterFeatureSelection.__init__] with every argument given. *)
Definition init (method : method_arg) (bootstrap : bool) (n_bsamples : Z)
  (n_selected_features : n_selected_arg) (ranking_aggregation : aggregation_arg)
  (ranking_done : bool) (score_indicator_lower : option bool)
  (classification : bool) (random_state : option Z) : selector :=
  {| method := method; ranking_done := ranking_done;
     score_indicator_lower := score_indicator_lower;
     bootstrap := bootstrap; n_bsamples := n_bsamples;
     n_selected_features := n_selected_features;
     ranking_aggregation := ranking_aggregation;
     classification := classification; random_state := random_state;
     n_samples := None; n_features := None; n_classes := None;
     accepted_features_index_ := None; selected_features := None |}.

(** The defaults of [__init__]: [method='mrmr'], [bootstrap=False],
    [n_bsamples=100], [n_selected_features=20]. *)
Definition init_default : selector :=
  init (MethodName "mrmr") false 100 (NSelInt 20) AggNone false None true None.

Definition set_shape (s : selector) (samples features classes : nat)
  : selector :=
  {| method := method s; ranking_done := ranking_done s;
     score_indicator_lower := score_indicator_lower s;
     bootstrap := bootstrap s; n_bsamples := n_bsamples s;
     n_selected_features := n_selected_features s;
     ranking_aggregation := ranking_aggregation s;
     classification := classification s; random_state := random_state s;
     n_samples := Some samples; n_features := Some features;
     n_classes := Some classes;
     accepted_features_index_ := accepted_features_index_ s;
     selected_features := selected_features s |}.

Definition set_ranking (s : selector) (done : bool) (lower : option bool)
  : selector :=
  {| method := method s; ranking_done := done;
     score_indicator_lower := lower;
     bootstrap := bootstrap s; n_bsamples := n_bsamples s;
     n_selected_features := n_selected_features s;
     ranking_aggregation := ranking_aggregation s;
     classification := classification s; random_state := random_state s;
     n_samples := n_samples s; n_features := n_features s;
     n_classes := n_classes s;
     accepted_features_index_ := accepted_features_index_ s;
     selected_features := selected_features s |}.

Definition set_n_selected_features (s : selector) (k : Z) : selector :=
  {| method := method s; ranking_done := ranking_done s;
     score_indicator_lower := score_indicator_lower s;
     bootstrap := bootstrap s; n_bsamples := n_bsamples s;
     n_selected_features := NSelInt k;
     ranking_aggregation := ranking_aggregation s;
     classification := classification s; random_state := random_state s;
     n_samples := n_samples s; n_features := n_features s;
     n_classes := n_classes s;
     accepted_features_index_ := accepted_features_index_ s;
     selected_features := selected_features s |}.

Definition set_accepted (s : selector) (idx : list nat) : selector :=
  {| method := method s; ranking_done := ranking_done s;
     score_indicator_lower := score_indicator_lower s;
     bootstrap := bootstrap s; n_bsamples := n_bsamples s;
     n_selected_features := n_selected_features s;
     ranking_aggregation := ranking_aggregation s;
     classification := classification s; random_state := random_state s;
     n_samples := n_samples s; n_features := n_features s;
     n_classes := n_classes s;
     accepted_features_index_ := Some idx;
     selected_features := selected_features s |}.

Definition set_selected (s : selector) (X : ndarray Q) : selector :=
  {| method := method s; ranking_done := ranking_done s;
     score_indicator_lower := score_indicator_lower s;
     bootstrap := bootstrap s; n_bsamples := n_bsamples s;
     n_selected_features := n_selected_features s;
     ranking_aggregation := ranking_aggregation s;
     classification := classification s; random_state := random_state s;
     n_samples := n_samples s; n_features := n_features s;
     n_classes := n_classes s;
     accepted_features_index_ := accepted_features_index_ s;
     selected_features := Some X |}.

(** *** [FeatureSelection._check_X_Y] *)

Definition check_X (X : arg (ndarray Q)) : result (ndarray Q) :=
  a <- match X with
       | Seq a | Pandas a => Ok a
       | _ => Raise (TypeError
                "X array must be an array like or pandas Dataframe/Series")
       end ;;
  if negb (ndim a =? 2)%nat then Raise (ValueError "X array must 2D")
  else Ok a.

(** Lines 34-49; [y.reshape(-1)] is computed and dropped. *)
Definition check_y (y : arg (ndarray label)) : result (ndarray label) :=
  a <- match y with
       | Seq a | Pandas a => Ok a
       | _ => Raise (TypeError
                "y array must be an array like or pandas Dataframe/Series")
       end ;;
  (if negb (ndim a =? 1)%nat then
     if ((ndim a =? 2)%nat && (nth 1 (shape a) 0 =? 1)%nat)%bool then Ok tt
     else Raise (ValueError
            "y array must be 1D or 2D with second dimension equal to 1")
   else Ok tt) ;;;
  if (length (unique a) <=? 1)%nat then
    Raise (ValueError "y array must have at least 2 classes")
  else Ok a.

Definition _check_X_Y (X : arg (ndarray Q)) (y : option (arg (ndarray label)))
  : result (ndarray Q * option (ndarray label)) :=
  X' <- check_X X ;;
  match y with
  | None => Ok (X', None)
  | Some y0 => y' <- check_y y0 ;; Ok (X', Some y')
  end.

(** *** The class tables *)

Definition scoring_names : list string :=
  ["auc_roc"; "pearson_corr"; "spearman_corr"; "mi"; "wlcx_score"].

Definition scoring_lower : list bool := [false; false; false; false; false].

Definition ranking_methods : list string := ["mrmr"].

Definition ranking_aggregation_methods : list string :=
  ["enhanced_borda"; "borda"; "importance_score"; "mean";
   "stability_selection_aggregation"; "exponential_weighting"].

Definition method_message (method_name : string) : string :=
  "If string method must be one of : ['auc_roc', 'pearson_corr', 'spearman_corr', 'mi', 'wlcx_score', 'mrmr']. "
  ++ method_name ++ " was passed".

(** [len(np.unique(y))], [np.unique(None)] being the one-element array. *)
Definition count_classes (y : option (ndarray label)) : nat :=
  match y with
  | Some a => length (unique a)
  | None => 1
  end.

(** [_check_n_selected_feature] *)
Definition _check_n_selected_feature (n_cols : nat) (n : n_selected_arg)
  : result Z :=
  match n with
  | NSelOther => Raise (TypeError "n_selected_feature must be int or None")
  | NSelNone => Ok (Z.of_nat n_cols)
  | NSelInt k => Ok k
  end.

(** The built-in aggregation functions. *)
Inductive aggregator : Type :=
| EnhancedBorda
| Borda
| ImportanceScore
| Mean
| StabilitySelection
| ExponentialWeighting.

(** [getattr(FilterFeatureSelection, name)] for the names of
    [ranking_aggregation_methods]. *)
Definition aggregator_of_name (name : string) : option aggregator :=
  if String.eqb name "enhanced_borda" then Some EnhancedBorda
  else if String.eqb name "borda" then Some Borda
  else if String.eqb name "importance_score" then Some ImportanceScore
  else if String.eqb name "mean" then Some Mean
  else if String.eqb name "stability_selection_aggregation"
       then Some StabilitySelection
  else if String.eqb name "exponential_weighting"
       then Some ExponentialWeighting
  else None.

(** [np.sum(R, axis=0)]: the column sums of a matrix.  Without any
    bootstrap sample [R] is the empty 1-d array and the sum is the scalar
    0, which [rankdata] ranks as a single value. *)
Definition Qsum (l : list Q) : Q := fold_right Qplus 0%Q l.

Definition sum_axis0 (R : list (list Q)) : list Q :=
  match R with
  | [] => [0%Q]
  | r :: _ => map (fun j => Qsum (column 0%Q R j)) (seq 0 (length r))
  end.

(** [R.shape[1]] *)
Definition shape1 (R : list (list Q)) : result nat :=
  match R with
  | [] => Raise (IndexError "tuple index out of range")
  | r :: _ => Ok (length r)
  end.

Definition Qofnat (n : nat) : Q := inject_Z (Z.of_nat n).

(** [R <= k] as 0 / 1. *)
Definition within (k : Z) (r : Q) : Q :=
  if Qle_bool r (inject_Z k) then 1%Q else 0%Q.

(** The contract the docstring asks of a method: one score or rank per
    feature, in the order of the columns. *)
Definition per_feature (f : score_fn) : Prop :=
  forall n rows y out, f n rows y = Ok out -> length (values out) = n.

(** A ranking function whose ranks are pairwise different numbers. *)
Definition distinct_ranks (f : score_fn) : Prop :=
  forall n rows y out, f n rows y = Ok out -> NoDup (map Qred (values out)).

(** A function that returns a NumPy array. *)
Definition returns_array (f : score_fn) : Prop :=
  forall n rows y out, f n rows y = Ok out -> exists v, out = Array v.

Section Filter.

(** SciPy, scikit-learn and scikit-feature routines.  The methods
    [auc_roc], [pearson_corr] and [spearman_corr] fill [np.zeros(n_features)]
    with the numbers these routines compute, and [mi] returns the array of
    [mutual_info_classif]. *)
Variable kruskal : list (list Q) -> result (Q * Q).
Variables auc_roc pearson_corr spearman_corr : array_fn.
Variable mi : option Z -> array_fn.
(** [skfeature]'s [mrmr(X, y, n_selected_features=n)]: the ordering. *)
Variable skfeature_mrmr :
  nat -> list (list Q) -> option (ndarray label) -> nat -> result (list nat).
(** [np.exp] and [np.sqrt]. *)
Variables np_exp np_sqrt : Q -> Q.
(** [sklearn.utils.resample(range(n_samples), random_state=seed)] *)
Variable resample : nat -> nat -> list nat.

(** *** Scoring and ranking methods *)

Definition wlcx_score : score_fn := fun n_features rows y =>
  score <-
    mapM (fun i =>
            let col := column 0%Q rows i in
            X_by_label <-
              match y with
              | Some a =>
                  mapM (fun l => bool_index col (equal_to a l)) (unique a)
              | None => Ok [col]
              end ;;
            r <- kruskal X_by_label ;;
            Ok (fst r))
         (seq 0 n_features) ;;
  Ok (Array score).

Definition mrmr : score_fn := fun n_features rows y =>
  rank_index <- skfeature_mrmr n_features rows y n_features ;;
  ranks <-
    mapM (fun i =>
            match find_index (Nat.eqb i) rank_index with
            | Some p => Ok (Qofnat (p + 1))
            | None => Raise (ValueError "value is not in list")
            end)
         (seq 0 (length rank_index)) ;;
  Ok (Array ranks).

(** [getattr(self, method_name)] *)
Definition builtin (random_state : option Z) (method_name : string)
  : result score_fn :=
  if String.eqb method_name "auc_roc" then Ok (as_array auc_roc)
  else if String.eqb method_name "pearson_corr" then Ok (as_array pearson_corr)
  else if String.eqb method_name "spearman_corr" then
    Ok (as_array spearman_corr)
  else if String.eqb method_name "mi" then Ok (as_array (mi random_state))
  else if String.eqb method_name "wlcx_score" then Ok wlcx_score
  else if String.eqb method_name "mrmr" then Ok mrmr
  else Raise (AttributeError
         "'FilterFeatureSelection' object has no attribute"%string).

(** [_get_fs_func]: the function, and [self] with [ranking_done] and
    [score_indicator_lower] set for a built-in method. *)
Definition _get_fs_func (s : selector) : result (selector * score_fn) :=
  match method s with
  | MethodCallable f => Ok (s, f)
  | MethodName name =>
      let method_name := lower name in
      if negb (mem method_name (scoring_names ++ ranking_methods)) then
        Raise (ValueError (method_message method_name))
      else
        s' <- (if mem method_name ranking_methods then
                 Ok (set_ranking s true (score_indicator_lower s))
               else if mem method_name scoring_names then
                 match PyStr.list_index name scoring_names with
                 | Some i =>
                     Ok (set_ranking s false
                           (Some (nth i scoring_lower false)))
                 | None => Raise (ValueError "value is not in list")
                 end
               else Raise (ValueError (method_message method_name))) ;;
        f <- builtin (random_state s) method_name ;;
        Ok (s', f)
  | MethodOther =>
      Raise (TypeError "method argument must be a callable or a string")
  end.

(** [_get_aggregation_method]: a callable falls through every branch and
    the method returns [None]. *)
Definition _get_aggregation_method (s : selector)
  : result (option aggregator) :=
  match ranking_aggregation s with
  | AggNone | AggOther =>
      Raise (TypeError
        "ranking_aggregation option must be a callable or a string")
  | AggCallable => Ok None
  | AggName name =>
      if negb (mem name ranking_aggregation_methods) then
        Raise (ValueError
          "If string ranking_aggregation must be one of : ['enhanced_borda', 'borda', 'importance_score', 'mean', 'stability_selection_aggregation', 'exponential_weighting']. %s was passed")
      else
        match aggregator_of_name name with
        | Some a => Ok (Some a)
        | None => Raise (AttributeError
            "type object 'FilterFeatureSelection' has no attribute")
        end
  end.

(** [y[sample]] *)
Definition take_labels (y : option (ndarray label)) (sample : list nat)
  : result (ndarray label) :=
  match y with
  | None => Raise (TypeError "'NoneType' object is not subscriptable")
  | Some (Vec v) => v' <- take v sample ;; Ok (Vec v')
  | Some (Mat n rows) => rows' <- take rows sample ;; Ok (Mat n rows')
  | Some _ => Raise (IndexError "too many indices for array")
  end.

(** [_get_bsamples_index]: the [while] loop, [fuel] bounding the number of
    draws; [n] is the seed of the next draw. *)
Fixpoint bsamples_loop (s : selector) (y : option (ndarray label))
  (samples classes : nat) (fuel n : nat) (bsamples_index : list (list nat))
  : result (list (list nat)) :=
  if (Z.of_nat (length bsamples_index) <? n_bsamples s)%Z then
    match fuel with
    | O => Raise (External "bootstrap draws exhausted")
    | S fuel' =>
        let bootstrap_sample := resample samples n in
        drawn <- take_labels y bootstrap_sample ;;
        if (length (unique drawn) =? classes)%nat then
          bsamples_loop s y samples classes fuel' (n + 1)
                        (bsamples_index ++ [bootstrap_sample])
        else
          bsamples_loop s y samples classes fuel' (n + 1) bsamples_index
    end
  else Ok bsamples_index.

Definition _get_bsamples_index (s : selector) (y : option (ndarray label))
  (samples classes : nat) (fuel : nat) : result (list (list nat)) :=
  bsamples_loop s y samples classes fuel 0 [].

(** *** Ranking aggregation methods: the values handed to [rankdata] *)

Definition borda_count (R : list (list Q)) : result (list Q) :=
  n <- shape1 R ;;
  Ok (sum_axis0 (map (map (fun r => (Qofnat n - r)%Q)) R)).

Definition stability_count (R : list (list Q)) (k : Z) : list Q :=
  sum_axis0 (map (map (within k)) R).

Definition aggregate (a : aggregator) (R : list (list Q)) (k : Z)
  : result (list nat) :=
  match a with
  | Borda =>
      b <- borda_count R ;;
      Ok (rankdata_ordinal Qle_bool (map Qopp b))
  | Mean =>
      let m := match R with
               | [] => [0%Q]
               | _ => map (fun x => (x / Qofnat (length R))%Q) (sum_axis0 R)
               end in
      Ok (rankdata_ordinal Qle_bool m)
  | StabilitySelection =>
      Ok (rankdata_ordinal Qle_bool (map Qopp (stability_count R k)))
  | ExponentialWeighting =>
      let w := sum_axis0
                 (map (map (fun r => np_exp (- r / inject_Z k)%Q)) R) in
      Ok (rankdata_ordinal Qle_bool (map Qopp w))
  | EnhancedBorda =>
      b <- borda_count R ;;
      let st := stability_count R k in
      Ok (rankdata_ordinal Qle_bool
            (map (fun bs => (- (fst bs * snd bs))%Q) (combine b st)))
  | ImportanceScore =>
      let occurence := map (fun c => (c * c)%Q) (stability_count R k) in
      let roots := sum_axis0 (map (map np_sqrt) R) in
      let importance :=
        map (fun ro => if Qeq_bool (snd ro) 0 then Infinity
                       else Finite (fst ro / snd ro)%Q)
            (combine roots occurence) in
      Ok (rankdata_ordinal xle_bool importance)
  end.

(** Calling what [_get_aggregation_method] returned. *)
Definition call_aggregation (aggregation_method : option aggregator)
  (R : list (list Q)) (k : Z) : result (list nat) :=
  match aggregation_method with
  | Some a => aggregate a R k
  | None => Raise (TypeError "'NoneType' object is not callable")
  end.

(** Lines 414-415: [boostrap_scores *= -1] on the array that [np.array]
    built from the scores of the samples. *)
Definition negate_unless (lower : bool) (score : list Q) : list Q :=
  if negb lower then map Qopp score else score.

(** Line 429: [score *= -1] on what the method returned.  An array is
    negated element by element; a list or a tuple is repeated minus one
    times, which leaves it empty. *)
Definition times_minus_one (score : returned) : returned :=
  match score with
  | Array v => Array (map Qopp v)
  | Sequence _ => Sequence []
  end.

Definition lower_flag (s : selector) : result bool :=
  match score_indicator_lower s with
  | Some b => Ok b
  | None => Raise (ValueError
      "score_indicator_lower option must be given if a user scoring function is used")
  end.

(** Lines 403-419: the bootstrapped ranking. *)
Definition bootstrap_ranking (s : selector) (fs_func : score_fn)
  (aggregation_method : option aggregator) (n_cols : nat)
  (rows : list (list Q)) (y : option (ndarray label)) (k : Z) (fuel : nat)
  : result (list nat) :=
  match ranking_aggregation s with
  | AggNone => Raise (ValueError
      "ranking_aggregation option must be given if bootstrap is True")
  | _ =>
      bsamples_index <-
        _get_bsamples_index s y (length rows) (count_classes y) fuel ;;
      let on_sample := fun sample =>
        Xb <- take rows sample ;;
        yb <- take_labels y sample ;;
        r <- fs_func n_cols Xb (Some yb) ;;
        Ok (values r) in
      bootstrap_ranks <-
        (if ranking_done s then mapM on_sample bsamples_index
         else
           lower <- lower_flag s ;;
           boostrap_scores <- mapM on_sample bsamples_index ;;
           Ok (map (fun sc => rankdata_average (negate_unless lower sc))
                   boostrap_scores)) ;;
      aggregated <- call_aggregation aggregation_method bootstrap_ranks k ;;
      ranking_index (ranks_to_Q aggregated)
  end.

(** Lines 420-431: the direct ranking. *)
Definition direct_ranking (s : selector) (fs_func : score_fn) (n_cols : nat)
  (rows : list (list Q)) (y : option (ndarray label)) : result (list nat) :=
  ranks <-
    (if ranking_done s then
       ranks <- fs_func n_cols rows y ;;
       Ok (values ranks)
     else
       lower <- lower_flag s ;;
       score <- fs_func n_cols rows y ;;
       let score := if negb lower then times_minus_one score else score in
       Ok (ranks_to_Q (rankdata_ordinal Qle_bool (values score)))) ;;
  ranking_index ranks.

(** [FilterFeatureSelection.fit] *)
Definition fit (s : selector) (X : arg (ndarray Q))
  (y : option (arg (ndarray label))) (fuel : nat) : result selector :=
  checked <- _check_X_Y X y ;;
  let '(X', y') := checked in
  match X' with
  | Mat n_cols rows =>
      let s := set_shape s (length rows) n_cols (count_classes y') in
      resolved <- _get_fs_func s ;;
      let '(s, fs_func) := resolved in
      aggregation_method <-
        match ranking_aggregation s with
        | AggNone => Ok None
        | _ => _get_aggregation_method s
        end ;;
      k <- _check_n_selected_feature n_cols (n_selected_features s) ;;
      let s := set_n_selected_features s k in
      ranking <-
        (if bootstrap s then
           bootstrap_ranking s fs_func aggregation_method n_cols rows y' k fuel
         else direct_ranking s fs_func n_cols rows y') ;;
      Ok (set_accepted s (slice_to ranking k))
  | _ => Raise (ValueError "not enough values to unpack")
  end.

(** *** [_get_support_mask], [transform], [fit_transform] *)

Definition _get_support_mask (s : selector) : result (list bool) :=
  match n_features s, accepted_features_index_ s with
  | Some n, Some idx => support_mask n idx
  | _, _ => Raise (AttributeError
      "'FilterFeatureSelection' object has no attribute")
  end.

(** [sklearn.utils.validation.check_is_fitted(self)]: raises
    [NotFittedError] unless the instance has an attribute whose name ends
    with an underscore ([accepted_features_index_] is the only one), and
    returns [None] otherwise. *)
Definition check_is_fitted (s : selector) : result unit :=
  match accepted_features_index_ s with
  | Some _ => Ok tt
  | None => Raise (NotFittedError
      "This FilterFeatureSelection instance is not fitted yet. Call 'fit' with appropriate arguments before using this estimator.")
  end.

(** The truth value of [None] in a condition. *)
Definition truth_of_None (_ : unit) : bool := false.

(** [SelectorMixin.transform]: the columns of the support mask. *)
Definition SelectorMixin_transform (s : selector) (X : ndarray Q)
  : result (ndarray Q) :=
  mask <- _get_support_mask s ;;
  match X with
  | Mat n_cols rows =>
      if negb (existsb (fun b => b) mask) then Ok (Mat 0 (map (fun _ => []) rows))
      else if negb (length mask =? n_cols)%nat then
        Raise (ValueError "X has a different shape than during fitting.")
      else Ok (Mat (count_true mask) (map (compress mask) rows))
  | _ => Raise (ValueError "Expected 2D array")
  end.

(** [FeatureSelection.transform], lines 93-98: the instance after the call
    and the selected columns. *)
Definition transform (s : selector) (X : arg (ndarray Q))
  : result (selector * ndarray Q) :=
  checked <- _check_X_Y X None ;;
  let X' := fst checked in
  fitted <- check_is_fitted s ;;
  if truth_of_None fitted then
    selected <- SelectorMixin_transform s X' ;;
    Ok (set_selected s selected, selected)
  else Raise (NotFittedError "Fit method must be used before calling transform").

(** [FeatureSelection.fit_transform]: [self.fit(X, y).transform(X)]. *)
Definition fit_transform (s : selector) (X : arg (ndarray Q))
  (y : option (arg (ndarray label))) (fuel : nat)
  : result (selector * ndarray Q) :=
  fitted <- fit s X y fuel ;;
  transform fitted X.

(** What the contract of [transform] asks for on a fitted instance: the
    matrix restricted to the retained columns. *)
Definition restricted_to_support (s : selector) (X : ndarray Q)
  : result (ndarray Q) :=
  SelectorMixin_transform s X.

End Filter.

(** *** [BorutaShapFeatureSelection] *)

(** The attributes [fit] sets; [settings] holds the arguments of the
    constructor, which are handed to [BorutaShap] unchanged. *)
Record boruta_selector (settings : Type) : Type := {
  boruta_settings : settings;
  boruta_n_samples : option nat;
  boruta_n_features : option nat;
  boruta_n_classes : option nat;
  boruta_accepted_features_index_ : option (list Z)
}.

Section Boruta.

Variable settings : Type.
(** Lines 524-533: [BorutaShap(...).fit] on the frame whose columns are
    named [str(0)], [str(1)], ..., then [TentativeRoughFix()] when features
    stay tentative; the result is [feature_selector.accepted], a list of
    column names. *)
Variable BorutaShap_accepted :
  settings -> nat -> list (list Q) -> option (ndarray label) ->
  result (list string).
(** [int(name)] *)
Variable int_of_name : string -> result Z.

(** [BorutaShapFeatureSelection.fit]: the instance after the call.  The
    method ends at line 534 without a [return]: its value is [None]. *)
Definition boruta_fit (s : boruta_selector settings) (X : arg (ndarray Q))
  (y : option (arg (ndarray label))) : result (boruta_selector settings) :=
  checked <- _check_X_Y X y ;;
  let '(X', y') := checked in
  match X' with
  | Mat n_cols rows =>
      accepted <- BorutaShap_accepted (boruta_settings s) n_cols rows y' ;;
      index <- mapM int_of_name accepted ;;
      Ok {| boruta_settings := boruta_settings s;
            boruta_n_samples := Some (length rows);
            boruta_n_features := Some n_cols;
            boruta_n_classes := Some (count_classes y');
            boruta_accepted_features_index_ := Some index |}
  | _ => Raise (ValueError "not enough values to unpack")
  end.

(** The inherited [fit_transform], line 118: [self.fit(X, y).transform(X)]
    with [self.fit(X, y)] being [None]. *)
Definition boruta_fit_transform (s : boruta_selector settings)
  (X : arg (ndarray Q)) (y : option (arg (ndarray label)))
  : result (boruta_selector settings * ndarray Q) :=
  boruta_fit s X y ;;;
  Raise (AttributeError "'NoneType' object has no attribute 'transform'").

End Boruta.

End FeatureSelection.

(** ** Concrete inputs and stand-ins for the external routines *)

Module Examples.

Import PyStr Np Ranking.
Open Scope string_scope.

(** The Kruskal-Wallis H statistic with its tie correction, computed on
    rationals as [scipy.stats.kruskal] does on floats; the p-value, a
    chi-square tail, is not represented and reads 0. *)
Definition tiecorrect (ranked : list Q) : Q :=
  let n := Ranking.ranks_to_Q [length ranked] in
  let N := hd 0%Q n in
  let counts :=
    map (fun x => inject_Z (Z.of_nat
                   (length (filter (fun y => Qeq_bool x y) ranked)))) ranked in
  (* every tie group of size t is met t times: sum of (t^2 - 1) *)
  let ties := fold_right Qplus 0%Q (map (fun t => (t * t - 1)%Q) counts) in
  if (length ranked <? 2)%nat then 1%Q
  else (1 - ties / (N * N * N - N))%Q.

Fixpoint regroup (sizes : list nat) (ranked : list Q) : list (list Q) :=
  match sizes with
  | [] => []
  | n :: sizes' => firstn n ranked :: regroup sizes' (skipn n ranked)
  end.

Definition kruskal_H (groups : list (list Q)) : result (Q * Q) :=
  if (length groups <? 2)%nat then
    Raise (ValueError "Need at least two groups in stats.kruskal()")
  else
    let alldata := concat groups in
    let ranked := rankdata_average alldata in
    let T := tiecorrect ranked in
    if Qeq_bool T 0 then
      Raise (ValueError "All numbers are identical in kruskal")
    else
      let N := inject_Z (Z.of_nat (length alldata)) in
      let ssbn :=
        fold_right Qplus 0%Q
          (map (fun g => let sm := fold_right Qplus 0%Q g in
                         (sm * sm / inject_Z (Z.of_nat (length g)))%Q)
               (regroup (map (@length Q) groups) ranked)) in
      let h := (12 / (N * (N + 1)) * ssbn - 3 * (N + 1))%Q in
      Ok (Qred (h / T), 0%Q).

(** Stand-ins for the routines an example does not reach. *)
Definition not_called : FeatureSelection.array_fn :=
  fun _ _ _ => Raise (External "not called").

Definition no_mrmr (n : nat) (rows : list (list Q))
  (y : option (ndarray label)) (k : nat) : result (list nat) :=
  Raise (External "not called").

Definition identity_sample (n_samples seed : nat) : list nat :=
  seq 0 n_samples.

Definition fit := FeatureSelection.fit kruskal_H not_called not_called
  not_called (fun _ => not_called) no_mrmr (fun q => q) (fun q => q)
  identity_sample.

Definition fit_transform := FeatureSelection.fit_transform kruskal_H
  not_called not_called not_called (fun _ => not_called) no_mrmr
  (fun q => q) (fun q => q) identity_sample.

(** Six subjects in two balanced classes, ten features; features 2, 5 and
    7 separate the classes completely. *)
Definition X10 : ndarray Q :=
  Mat 10
    [[1; 5; 1; 3; 2; 1; 4; 1; 6; 2];
     [4; 1; 2; 6; 4; 2; 1; 2; 1; 5];
     [5; 4; 3; 1; 6; 3; 5; 3; 4; 1];
     [2; 2; 7; 5; 1; 8; 2; 9; 2; 6];
     [3; 6; 8; 2; 5; 9; 6; 10; 5; 3];
     [6; 3; 9; 4; 3; 10; 3; 11; 3; 4]]%Q.

Definition y2 : ndarray label :=
  Vec [LInt 0; LInt 0; LInt 0; LInt 1; LInt 1; LInt 1].

Definition wlcx3 : FeatureSelection.selector :=
  FeatureSelection.init (FeatureSelection.MethodName "wlcx_score") false 100
    (FeatureSelection.NSelInt 3) FeatureSelection.AggNone false None true None.

(** The same selection, bootstrapped over two samples and aggregated with
    [importance_score], and the instance [fit] returns for it. *)
Definition wlcx3_bootstrap : FeatureSelection.selector :=
  FeatureSelection.init (FeatureSelection.MethodName "wlcx_score") true 2
    (FeatureSelection.NSelInt 3) (FeatureSelection.AggName "importance_score")
    false None true None.

Definition fitted_or (s : FeatureSelection.selector)
  (r : result FeatureSelection.selector) : FeatureSelection.selector :=
  match r with
  | Ok s' => s'
  | Raise _ => s
  end.

Definition wlcx3_bootstrap_fitted : FeatureSelection.selector :=
  fitted_or wlcx3_bootstrap
    (fit wlcx3_bootstrap (Seq X10) (Some (Seq y2)) 5).

Definition wlcx3_fitted : FeatureSelection.selector :=
  fitted_or wlcx3 (fit wlcx3 (Seq X10) (Some (Seq y2)) 0).

(** A bootstrapped selection configured without aggregation method. *)
Definition wlcx3_no_aggregation : FeatureSelection.selector :=
  FeatureSelection.init (FeatureSelection.MethodName "wlcx_score") true 100
    (FeatureSelection.NSelInt 3) FeatureSelection.AggNone false None true None.

(** The Kruskal-Wallis statistics of the ten features of [X10]. *)
Definition X10_scores : list Q :=
  [1 # 21; 1 # 21; 27 # 7; 1 # 21; 3 # 7; 27 # 7; 1 # 21; 27 # 7; 1 # 21;
   25 # 21]%Q.

(** The labels of [y2] as a column vector, of shape (6, 1). *)
Definition y2_column : ndarray label :=
  Mat 1 [[LInt 0]; [LInt 0]; [LInt 0]; [LInt 1]; [LInt 1]; [LInt 1]].

(** Variants of [wlcx3]: a negative number of features, the method name
    in upper case, a bootstrap with a callable aggregation. *)
Definition wlcx_minus4 : FeatureSelection.selector :=
  FeatureSelection.init (FeatureSelection.MethodName "wlcx_score") false 100
    (FeatureSelection.NSelInt (-4)) FeatureSelection.AggNone false None true
    None.

Definition wlcx_minus4_fitted : FeatureSelection.selector :=
  fitted_or wlcx_minus4 (fit wlcx_minus4 (Seq X10) (Some (Seq y2)) 0).

Definition wlcx3_upper : FeatureSelection.selector :=
  FeatureSelection.init (FeatureSelection.MethodName "WLCX_SCORE") false 100
    (FeatureSelection.NSelInt 3) FeatureSelection.AggNone false None true None.

Definition wlcx3_callable_aggregation : FeatureSelection.selector :=
  FeatureSelection.init (FeatureSelection.MethodName "wlcx_score") true 2
    (FeatureSelection.NSelInt 3) FeatureSelection.AggCallable false None true
    None.

(** An mRMR routine that orders three features as 2, 0, 1. *)
Definition mrmr_201 (n : nat) (rows : list (list Q))
  (y : option (ndarray label)) (k : nat) : result (list nat) :=
  Ok [2; 0; 1]%nat.

(** A user ranking function that returns tied ranks, as [rankdata] does
    with its default method on tied scores. *)
Definition tied_ranks : FeatureSelection.score_fn :=
  fun _ _ _ => Ok (FeatureSelection.Array [1; 1; 2]%Q).

Definition tied_selector : FeatureSelection.selector :=
  FeatureSelection.init (FeatureSelection.MethodCallable tied_ranks) false 100
    (FeatureSelection.NSelInt 2) FeatureSelection.AggNone true None true None.

(** A user scoring function that scores feature [i] with [i] and returns
    a NumPy array, used with [score_indicator_lower=False], and the
    instance [fit] returns for it. *)
Definition index_scores : FeatureSelection.score_fn :=
  fun n _ _ =>
    Ok (FeatureSelection.Array
          (map (fun i => inject_Z (Z.of_nat i)) (seq 0 n))).

Definition index_selector : FeatureSelection.selector :=
  FeatureSelection.init (FeatureSelection.MethodCallable index_scores) false
    100 (FeatureSelection.NSelInt 2) FeatureSelection.AggNone false
    (Some false) true None.

(** A user scoring function that returns its three scores in a Python
    list, used with [score_indicator_lower=False]. *)
Definition list_scores : FeatureSelection.score_fn :=
  fun _ _ _ => Ok (FeatureSelection.Sequence [3; 1; 2]%Q).

Definition list_selector : FeatureSelection.selector :=
  FeatureSelection.init (FeatureSelection.MethodCallable list_scores) false
    100 (FeatureSelection.NSelInt 2) FeatureSelection.AggNone false
    (Some false) true None.

Definition X3 : ndarray Q := Mat 3 [[1; 2; 3]; [4; 5; 6]]%Q.

Definition y01 : ndarray label := Vec [LInt 0; LInt 1].

Definition index_selector_fitted : FeatureSelection.selector :=
  fitted_or index_selector (fit index_selector (Seq X3) (Some (Seq y01)) 0).

(** Three scanners, one feature. *)
Definition one_feature : ndarray Q := Mat 1 [[1]; [2]; [3]; [4]; [5]; [6]]%Q.

Definition three_batches : ndarray label :=
  Vec [LInt 0; LInt 1; LInt 2; LInt 0; LInt 1; LInt 2].

(** Inner search results: two configurations tied for the best rank. *)
Definition config (n : Pipeline.value) (c : Q) : Pipeline.dict Pipeline.value :=
  [("FeatureSelection__n_selected_features", n);
   ("classifier__C", Pipeline.VFloat c)].

Definition cv_10_5 : Pipeline.cv_results :=
  {| Pipeline.rank_test_score := [1; 2; 1]%Z;
     Pipeline.params := [config (Pipeline.VInt 10) 1; config (Pipeline.VInt 3) 1;
                         config (Pipeline.VInt 5) 1] |}.

Definition cv_5_none : Pipeline.cv_results :=
  {| Pipeline.rank_test_score := [1; 1]%Z;
     Pipeline.params := [config (Pipeline.VInt 5) 1; config Pipeline.VNone 1] |}.


(** The inner search trace of two outer folds: two candidates, then
    one. *)
Definition inner_trace : list (Pipeline.dict (list Q)) :=
  [[("params", [1; 2]); ("mean_test_score", [3; 4])];
   [("params", [5]); ("mean_test_score", [6])]]%Q.

(** Two scanners over the six subjects, and a stand-in for the rank test
    of two groups. *)
Definition two_batches : ndarray label :=
  Vec [LInt 0; LInt 1; LInt 0; LInt 1; LInt 0; LInt 1].

Definition mannwhitneyu_half (a b : list Q) : result (Q * Q) :=
  Ok (0, 1 # 2)%Q.

Definition kruskal_none (groups : list (list Q)) : result (Q * Q) :=
  Raise (External "not called").

(** An extractor whose image computations always succeed. *)
Definition constant_peaks (_ _ : unit) (f : LocalIntensity.target_func)
  : result (LocalIntensity.peaks Q) :=
  Ok {| LocalIntensity.local_intensity_peak := 5%Q;
        LocalIntensity.global_intensity_peak := 5%Q |}.

End Examples.

(** * Properties *)

Unset Implicit Arguments.

(** ** The result monad *)

Module PyFacts.

Lemma bind_ok {A B : Type} (r : result A) (k : A -> result B) (b : B) :
  bind r k = Ok b -> exists a, r = Ok a /\ k a = Ok b.
Proof.
  destruct r as [a | e]; simpl; intros H.
  - exists a. split; [reflexivity | exact H].
  - discriminate H.
Qed.

Lemma bind_raise {A B : Type} (r : result A) (k : A -> result B) (e : exn) :
  r = Raise e -> bind r k = Raise e.
Proof. intros ->. reflexivity. Qed.

Lemma mapM_length {A B : Type} (f : A -> result B) (l : list A) :
  forall out, Np.mapM f l = Ok out -> length out = length l.
Proof.
  induction l as [| x l IH]; simpl; intros out H.
  - inversion H. reflexivity.
  - apply bind_ok in H. destruct H as [y [_ H]].
    apply bind_ok in H. destruct H as [ys [Hys H]].
    inversion H. simpl. f_equal. apply IH. exact Hys.
Qed.

Lemma mapM_Forall2 {A B : Type} (f : A -> result B) (l : list A) :
  forall out, Np.mapM f l = Ok out -> Forall2 (fun x y => f x = Ok y) l out.
Proof.
  induction l as [| x l IH]; simpl; intros out H.
  - inversion H. constructor.
  - apply bind_ok in H. destruct H as [y [Hy H]].
    apply bind_ok in H. destruct H as [ys [Hys H]].
    inversion H. constructor; [exact Hy | apply IH; exact Hys].
Qed.

Lemma Forall2_In_l {A B : Type} (R : A -> B -> Prop) (l : list A)
  (l' : list B) (x : A) :
  Forall2 R l l' -> In x l -> exists y, In y l' /\ R x y.
Proof.
  induction 1 as [| a b l l' Hab _ IH]; intros Hin.
  - destruct Hin.
  - destruct Hin as [-> | Hin].
    + exists b. split; [left; reflexivity | exact Hab].
    + destruct (IH Hin) as [y [Hy Hxy]]. exists y. split; [right |]; assumption.
Qed.

Lemma Forall2_In_r {A B : Type} (R : A -> B -> Prop) (l : list A)
  (l' : list B) (y : B) :
  Forall2 R l l' -> In y l' -> exists x, In x l /\ R x y.
Proof.
  induction 1 as [| a b l l' Hab _ IH]; intros Hin.
  - destruct Hin.
  - destruct Hin as [-> | Hin].
    + exists a. split; [left; reflexivity | exact Hab].
    + destruct (IH Hin) as [x [Hx Hxy]]. exists x. split; [right |]; assumption.
Qed.

End PyFacts.

(** Splits a hypothesis [bind r k = Ok b] into its two steps. *)
Ltac bind_inv H :=
  let a := fresh "a" in
  let Ha := fresh "Ha" in
  apply PyFacts.bind_ok in H; destruct H as [a [Ha H]].

(** ** [format_feature_name] *)

Module FeatureNameFacts.

Import PyStr FeatureName.
Open Scope string_scope.

(** When a non-empty separator occurs, [split] yields at least two
    pieces. *)
Lemma split_scan_two (a : ascii) (sep' : string) :
  forall s cur, contains (String a sep') s = true ->
    (2 <= length (split_scan (String a sep') 0 cur s))%nat.
Proof.
  induction s as [| c s IH]; intros cur H.
  - simpl in H. discriminate H.
  - cbn [split_scan]. cbn [contains] in H.
    destruct (startswith (String a sep') (String c s)) eqn:E.
    + cbn [length].
      destruct (split_scan (String a sep') (String.length (String a sep') - 1) "" s)
        eqn:G.
      * exfalso. clear - G. revert G.
        generalize (String.length (String a sep') - 1)%nat, "".
        induction s as [| d s IHs]; intros n cur G.
        -- discriminate G.
        -- destruct n; cbn [split_scan] in G.
           ++ destruct (startswith (String a sep') (String d s)).
              ** discriminate G.
              ** apply IHs in G. exact G.
           ++ apply IHs in G. exact G.
      * simpl; lia.
    + simpl in H. apply IH. exact H.
Qed.

Lemma rename_matrix_ok (s : string) : exists r, rename_matrix s = Ok r.
Proof.
  unfold rename_matrix. destruct (contains "matrix" s) eqn:E.
  - pose proof (split_scan_two "m"%char "atrix" s "" E) as H.
    unfold split. cbn [bind].
    destruct (split_scan "matrix" 0 "" s) as [| p0 [| p1 rest]];
      simpl in H; try lia.
    eexists. reflexivity.
  - eexists. reflexivity.
Qed.

(** [format_feature_name] returns a name or raises the [IndexError] of
    line 131 (the index into an empty string): it has no other outcome. *)
Theorem format_feature_name_outcomes (s : string) :
  (exists name, format_feature_name s = Ok name)
  \/ format_feature_name s = Raise (IndexError "string index out of range").
Proof.
  unfold format_feature_name.
  destruct (rename_matrix_ok (strip_substrings s)) as [r ->]. cbn [bind].
  unfold strip_trailing, index_last.
  destruct (last_char r); cbn [bind].
  - left. destruct (Ascii.eqb a "_"%char); eexists; reflexivity.
  - right. reflexivity.
Qed.

(** C4 (code defect): on ["original_occurrence_matrix_Correlation"] the
    function returns ["GLCM__Correlation"], with the doubled underscore that
    joining ["GLCM"] and ["_Correlation"] creates; the
    [feature_name.replace('__', '_')] of line 130 is not assigned, so the
    name the claim expects, ["GLCM_Correlation"], is not produced. *)
Theorem format_feature_name_correlation :
  format_feature_name "original_occurrence_matrix_Correlation"
    = Ok "GLCM__Correlation"
  /\ PyStr.replace "__" "_" "GLCM__Correlation" = "GLCM_Correlation".
Proof. split; vm_compute; reflexivity. Qed.

(** C8 (code defect): [format_feature_name] raises [IndexError] on the
    empty string and on ["original_"], whose rewritten form is empty: line
    131 reads [feature_name[-1]] without a test for emptiness. *)
Theorem format_feature_name_raises_on_empty :
  format_feature_name "" = Raise (IndexError "string index out of range")
  /\ format_feature_name "original_"
       = Raise (IndexError "string index out of range").
Proof. split; vm_compute; reflexivity. Qed.

End FeatureNameFacts.

(** ** [local_intensity_features] *)

Module LocalIntensityFacts.

Import PyStr LocalIntensity.
Open Scope string_scope.

Lemma mem_In (x : string) (l : list string) : mem x l = true <-> In x l.
Proof.
  unfold mem. rewrite existsb_exists. split.
  - intros [y [Hy E]]. apply String.eqb_eq in E. subst. exact Hy.
  - intros H. exists x. split; [exact H | apply String.eqb_refl].
Qed.

Section Extractor.

Variables (image mask F : Type).
Variable intensity_peaks : image -> mask -> target_func -> result (peaks F).

(** C7 (amended): the target selector is matched case-sensitively against
    ["min"], ["max"], ["minimum"], ["maximum"]: with one of these four
    spellings the call goes on to the image computations, with the minimum
    statistic for ["min"] and ["minimum"] and the maximum one otherwise; with
    any other string, another letter-casing included, it raises the
    [ValueError] of line 8. *)
Theorem local_intensity_features_target (img : image) (msk : mask)
  (target : string) :
  (In target accepted_targets ->
     local_intensity_features intensity_peaks img msk target
     = intensity_peaks img msk
         (if mem target ["min"; "minimum"] then GetMinimum else GetMaximum))
  /\ (~ In target accepted_targets ->
        local_intensity_features intensity_peaks img msk target
        = Raise (ValueError target_message)).
Proof.
  unfold local_intensity_features, select_target. split; intros H.
  - apply mem_In in H. rewrite H. cbn [negb].
    destruct (mem target ["min"; "minimum"]); reflexivity.
  - destruct (mem target accepted_targets) eqn:E.
    + exfalso. apply H. apply mem_In. exact E.
    + reflexivity.
Qed.

End Extractor.

(** C7, the claim as stated fails: ["MAX"] is rejected. *)
Lemma local_intensity_features_MAX_rejected :
  local_intensity_features Examples.constant_peaks tt tt "MAX"
    = Raise (ValueError target_message)
  /\ local_intensity_features Examples.constant_peaks tt tt "Minimum"
    = Raise (ValueError target_message).
Proof. split; vm_compute; reflexivity. Qed.

(** C7, the amended statement at ["max"] and at ["median"]. *)
Lemma local_intensity_features_target_witness :
  local_intensity_features Examples.constant_peaks tt tt "max"
    = Examples.constant_peaks tt tt GetMaximum
  /\ local_intensity_features Examples.constant_peaks tt tt "median"
    = Raise (ValueError target_message).
Proof.
  pose proof (@local_intensity_features_target _ _ _ Examples.constant_peaks tt tt "max")
    as [Hmax _].
  pose proof (@local_intensity_features_target _ _ _ Examples.constant_peaks tt tt "median")
    as [_ Hmedian].
  split.
  - apply Hmax. unfold accepted_targets. simpl. auto.
  - apply Hmedian. unfold accepted_targets. simpl.
    intros [H | [H | [H | [H | []]]]]; discriminate H.
Defined.

End LocalIntensityFacts.

(** ** [neuroComBat] and [before_after_comparison] *)

Module HarmonizationFacts.

Import PyStr Np Harmonization.
Open Scope string_scope.

Section NeuroComBat.

Variable frame : Type.
Variable DataFrame_empty : frame.
Variable frame_columns : frame -> list string.
Variable index_take : frame -> list Z -> result (list string).
Variable concat_columns : frame -> batch_frame -> frame.
Variable neuroCombat :
  frame -> frame -> list string -> option (list string) -> option label ->
  bool -> bool -> bool -> result frame.

(** Line 77 stops every call that passed the checks before it: the
    harmonisation of line 87 is never reached. *)
Lemma neuroComBat_never_returns (X : arg frame) (batch : arg (ndarray label))
  (ref_batch : option label) (covariate : option (arg frame))
  (num_covs : num_covs_arg) (parametric empirical_bayes mean_only : bool)
  (save_dir : option string) :
  is_ok (neuroComBat DataFrame_empty frame_columns index_take concat_columns
           neuroCombat X batch ref_batch covariate num_covs parametric
           empirical_bayes mean_only save_dir) = false.
Proof.
  unfold neuroComBat.
  destruct (check_X X); [| reflexivity]. cbn [bind].
  destruct (check_covariate DataFrame_empty X covariate); [| reflexivity].
  cbn [bind].
  destruct (check_num_covs frame_columns index_take a0 num_covs) as [[n c] |];
    [| reflexivity].
  cbn [bind].
  destruct (check_batch batch); reflexivity.
Qed.

(** C6 (code defect): with the two-valued batch vector [['A', 'B']] and
    [ref_batch='C'], absent from it, [neuroComBat] does not raise the
    [ValueError] of the reference-batch check (lines 84-85): it raises the
    [TypeError] of [pd.DataFrame(batch, columns='batch')] at line 77, where
    the column names are a bare string rather than a list. *)
Theorem neuroComBat_absent_ref_batch (df : frame)
  (parametric empirical_bayes mean_only : bool) (save_dir : option string) :
  neuroComBat DataFrame_empty frame_columns index_take concat_columns
    neuroCombat (Seq df) (Seq (Vec [LStr "A"; LStr "B"])) (Some (LStr "C"))
    None NoCovs parametric empirical_bayes mean_only save_dir
  = Raise (TypeError
      "Index(...) must be called with a collection of some kind, 'batch' was passed")
  /\ existsb (label_eqb (LStr "C")) (unique (Vec [LStr "A"; LStr "B"])) = false.
Proof. split; reflexivity. Qed.

End NeuroComBat.

Section BeforeAfter.

Variable mannwhitneyu : list Q -> list Q -> result (Q * Q).
Variable kruskal : list (list Q) -> result (Q * Q).

(** C3 (code defect): with the three batches [0, 1, 2] over six subjects
    and one feature, the p-value reported, before and after, is that of the
    rank test on three copies of the batch-0 group [[1; 4]]: line 139 cuts
    every group out with [batch == i], [i] being the feature index, while
    the groups by batch value are [[1; 4]], [[2; 5]] and [[3; 6]]. *)
Theorem before_after_comparison_three_batches :
  before_after_comparison mannwhitneyu kruskal
    (Seq Examples.one_feature) (Seq Examples.one_feature)
    (Seq Examples.three_batches)
  = (before <- kruskal [[1; 4]; [1; 4]; [1; 4]]%Q ;;
     after <- kruskal [[1; 4]; [1; 4]; [1; 4]]%Q ;;
     Ok ([snd before], [snd after]))
  /\ groups_by_batch_label [1; 2; 3; 4; 5; 6]%Q Examples.three_batches
       (unique Examples.three_batches)
     = Ok [[1; 4]; [2; 5]; [3; 6]]%Q.
Proof.
  split; [| reflexivity].
  unfold before_after_comparison. cbn.
  destruct (kruskal [[1; 4]; [1; 4]; [1; 4]]%Q) as [[st p] | e]; reflexivity.
Qed.

End BeforeAfter.

End HarmonizationFacts.

(** ** [get_dataset] *)

Module GetDatasetFacts.

Import PyStr Pipeline.
Open Scope string_scope.

Section GetDataset.

Variable frame : Type.
Variable batch_t covariates_t : Type.
Variable read_excel : string -> result frame.
Variable MComBat : frame -> batch_t -> string -> covariates_t -> result frame.
Variable ComBat : frame -> batch_t -> covariates_t -> result frame.
Variable concat_columns : frame -> frame -> frame.

Variable dataset_dic : dict string.
Variable batch : batch_t.
Variable harmonization : string.
Variable covariates : covariates_t.

Local Abbreviation run dataset :=
  (get_dataset read_excel MComBat ComBat concat_columns dataset dataset_dic
               batch harmonization covariates).

(** An id outside the four of the dispatch falls to the final [else]. *)
Lemma get_dataset_unknown (dataset : string) :
  ~ In dataset dispatched_ids -> run dataset = Raise (ValueError "").
Proof.
  intros H. unfold get_dataset.
  destruct (String.eqb_spec dataset "S+D") as [-> |];
    [exfalso; apply H; simpl; auto |].
  destruct (String.eqb_spec dataset "S+D+OR") as [-> |];
    [exfalso; apply H; simpl; auto |].
  destruct (String.eqb_spec dataset "S") as [-> |];
    [exfalso; apply H; simpl; auto |].
  destruct (String.eqb_spec dataset "S+OR") as [-> |];
    [exfalso; apply H; simpl; auto |].
  reflexivity.
Qed.

(** The three tables load and the harmonisation goes through. *)
Hypothesis tables_load :
  forall key, In key ["S"; "D"; "OR"] ->
    exists t, load read_excel dataset_dic key = Ok t.
Hypothesis harmonization_succeeds :
  forall t, exists t',
    harmonize MComBat ComBat harmonization t batch covariates = Ok t'.

Lemma get_dataset_known (dataset : string) :
  In dataset dispatched_ids -> exists t, run dataset = Ok [(dataset, t)].
Proof.
  destruct (@tables_load "S") as [stat HS]; [simpl; auto |].
  destruct (@tables_load "D") as [dyn HD]; [simpl; auto |].
  destruct (@tables_load "OR") as [text HO]; [simpl; auto |].
  unfold get_dataset.
  intros [<- | [<- | [<- | [<- | []]]]]; cbn [String.eqb Ascii.eqb Bool.eqb];
    rewrite ?HS, ?HD, ?HO; cbn [bind].
  - destruct (harmonization_succeeds stat) as [t' ->]. eexists. reflexivity.
  - destruct (harmonization_succeeds (concat_columns stat text)) as [t' ->].
    eexists. reflexivity.
  - destruct (harmonization_succeeds stat) as [t' ->]. eexists. reflexivity.
  - destruct (harmonization_succeeds (concat_columns stat text)) as [t' ->].
    eexists. reflexivity.
Qed.

(** C2 (amended): [get_dataset] dispatches on four ids, ['S+D'],
    ['S+D+OR'], ['S'] and ['S+OR'].  When the tables load and the
    harmonisation succeeds, each of the four returns a single-entry mapping
    from the id to a table, and the call fails with InvalidInput (the bare
    [ValueError] of line 242) exactly when the id is none of the four; ['D']
    and ['OR'] are among the rejected ids. *)
Theorem get_dataset_accepts_four (dataset : string) :
  (In dataset dispatched_ids -> exists t, run dataset = Ok [(dataset, t)])
  /\ ((exists e, run dataset = Raise e /\ InvalidInput e)
      <-> ~ In dataset dispatched_ids).
Proof.
  split; [apply get_dataset_known |].
  split.
  - intros [e [He _]] Hin.
    destruct (get_dataset_known dataset Hin) as [t Ht].
    rewrite Ht in He. discriminate He.
  - intros H. exists (ValueError ""). split.
    + apply get_dataset_unknown. exact H.
    + exact I.
Qed.

End GetDataset.

(** C2, the claim as stated fails: the ids ['D'] and ['OR'] of the
    specified set are rejected. *)
Lemma get_dataset_D_rejected :
  demo_get_dataset "D" = Raise (ValueError "")
  /\ demo_get_dataset "OR" = Raise (ValueError "")
  /\ mem "D" specified_ids = true /\ mem "OR" specified_ids = true.
Proof. repeat split; vm_compute; reflexivity. Qed.

(** C2, the amended statement on a file system where every table loads. *)
Lemma get_dataset_accepts_four_witness :
  (exists t, demo_get_dataset "S+D+OR" = Ok [("S+D+OR", t)])
  /\ (exists e, demo_get_dataset "X" = Raise e /\ InvalidInput e).
Proof.
  assert (Hload : forall key, In key ["S"; "D"; "OR"] ->
            exists t, load demo_read_excel demo_dataset_dic key = Ok t).
  { intros key [<- | [<- | [<- | []]]]; eexists; reflexivity. }
  assert (Hharm : forall t : list string, exists t',
            harmonize demo_MComBat demo_ComBat "MComBat" t tt tt = Ok t').
  { intros t. exists t. reflexivity. }
  split.
  - apply (@get_dataset_accepts_four _ _ _ demo_read_excel demo_MComBat
             demo_ComBat (@app string) demo_dataset_dic tt "MComBat" tt
             Hload Hharm "S+D+OR").
    unfold dispatched_ids. simpl. auto.
  - apply (@get_dataset_accepts_four _ _ _ demo_read_excel demo_MComBat
             demo_ComBat (@app string) demo_dataset_dic tt "MComBat" tt
             Hload Hharm "X").
    unfold dispatched_ids. simpl.
    intros [H | [H | [H | [H | []]]]]; discriminate H.
Defined.

End GetDatasetFacts.

(** ** [FeatureSelection.transform] *)

Module TransformFacts.

Import PyStr Np Ranking FeatureSelection.
Open Scope string_scope.

(** [transform] never returns: [check_is_fitted] either raises or returns
    [None], and line 94 tests that [None]. *)
Lemma transform_never_returns (s : selector) (X : arg (ndarray Q)) :
  is_ok (transform s X) = false.
Proof.
  unfold transform.
  destruct (_check_X_Y X None); [| reflexivity]. cbn [bind].
  destruct (check_is_fitted s); reflexivity.
Qed.

Lemma check_X_2d (X : arg (ndarray Q)) (a : ndarray Q) :
  X = Seq a \/ X = Pandas a -> ndim a = 2%nat -> check_X X = Ok a.
Proof.
  intros [-> | ->] H; unfold check_X; cbn [bind]; rewrite H; reflexivity.
Qed.

(** On a fitted instance and a 2-d matrix the error is that of line 98. *)
Lemma transform_fitted (s : selector) (X : arg (ndarray Q)) (a : ndarray Q)
  (idx : list nat) :
  X = Seq a \/ X = Pandas a -> ndim a = 2%nat ->
  accepted_features_index_ s = Some idx ->
  transform s X
  = Raise (NotFittedError "Fit method must be used before calling transform").
Proof.
  intros HX Hd Hs. unfold transform, _check_X_Y.
  rewrite (check_X_2d _ _ HX Hd). cbn [bind fst].
  unfold check_is_fitted. rewrite Hs. reflexivity.
Qed.

(** C9: on a freshly constructed [FilterFeatureSelection], whatever the
    constructor's arguments, [transform] of a 2-d matrix (a list, a tuple,
    an array, or a DataFrame) fails with NotFitted. *)
Theorem transform_before_fit (method : method_arg) (bootstrap : bool)
  (n_bsamples : Z) (n_selected_features : n_selected_arg)
  (ranking_aggregation : aggregation_arg) (ranking_done : bool)
  (score_indicator_lower : option bool) (classification : bool)
  (random_state : option Z) (X : arg (ndarray Q)) (a : ndarray Q) :
  X = Seq a \/ X = Pandas a -> ndim a = 2%nat ->
  exists e,
    transform (init method bootstrap n_bsamples n_selected_features
                 ranking_aggregation ranking_done score_indicator_lower
                 classification random_state) X = Raise e
    /\ NotFitted e.
Proof.
  intros HX Hd. unfold transform, _check_X_Y.
  rewrite (check_X_2d _ _ HX Hd). cbn [bind fst].
  eexists. split; [reflexivity | exact I].
Qed.

(** C9 on the default instance and a 2 x 3 matrix. *)
Lemma transform_before_fit_witness :
  exists e, transform init_default (Seq Examples.X3) = Raise e /\ NotFitted e.
Proof.
  apply (@transform_before_fit (MethodName "mrmr") false 100 (NSelInt 20)
           AggNone false None true None (Seq Examples.X3) Examples.X3).
  - left. reflexivity.
  - reflexivity.
Defined.

(** C1 (code defect): with [method='wlcx_score'] and
    [n_selected_features=3] on the 2-class, 10-feature matrix [X10], [fit]
    succeeds and retains the features 2, 5 and 7, the three with the
    greatest Kruskal-Wallis statistic; [transform] on the fitted instance,
    and so [fit_transform], then raises [NotFittedError] instead of
    returning the three columns: line 94 tests the value of
    [check_is_fitted(self)], which is [None]. *)
Theorem fit_transform_wlcx_raises :
  Examples.fit Examples.wlcx3 (Seq Examples.X10) (Some (Seq Examples.y2)) 0
    = Ok Examples.wlcx3_fitted
  /\ accepted_features_index_ Examples.wlcx3_fitted = Some [2; 5; 7]%nat
  /\ transform Examples.wlcx3_fitted (Seq Examples.X10)
     = Raise (NotFittedError "Fit method must be used before calling transform")
  /\ Examples.fit_transform Examples.wlcx3 (Seq Examples.X10)
       (Some (Seq Examples.y2)) 0
     = Raise (NotFittedError "Fit method must be used before calling transform")
  /\ restricted_to_support Examples.wlcx3_fitted Examples.X10
     = Ok (Mat 3 [[1; 1; 1]; [2; 2; 2]; [3; 3; 3]; [7; 8; 9]; [8; 9; 10];
                  [9; 10; 11]]%Q).
Proof. repeat split; vm_compute; reflexivity. Qed.

End TransformFacts.

(** ** [get_best_index] *)

Module BestIndexFacts.

Import PyStr Np Pipeline.
Open Scope string_scope.

(** What [compress] keeps comes from the list, with a true mask entry. *)
Lemma compress_In {A B : Type} (R : A -> B -> Prop) (f : B -> bool) :
  forall (ps : list A) (vs : list B) (c : A),
    Forall2 R ps vs -> In c (compress (map f vs) ps) ->
    In c ps /\ exists v, In v vs /\ R c v /\ f v = true.
Proof.
  induction 1 as [| p v ps vs Hpv _ IH]; simpl; intros Hin.
  - destruct Hin.
  - destruct (f v) eqn:E.
    + destruct Hin as [-> | Hin].
      * split; [left; reflexivity |]. exists v. auto.
      * destruct (IH Hin) as [H1 [w [Hw [Hcw Hf]]]].
        split; [right; exact H1 |]. exists w. auto.
    + destruct (IH Hin) as [H1 [w [Hw [Hcw Hf]]]].
      split; [right; exact H1 |]. exists w. auto.
Qed.

Lemma first_In {A : Type} (l : list A) (x : A) : first l = Ok x -> In x l.
Proof.
  destruct l; simpl; intros H; inversion H. left. reflexivity.
Qed.

Lemma where_first_nth (best : dict value) :
  forall ps i, where_first best ps = Some i ->
    exists c, nth_error ps i = Some c /\ dict_eqb c best = true.
Proof.
  induction ps as [| p ps IH]; simpl; intros i H.
  - discriminate H.
  - destruct (dict_eqb p best) eqn:E.
    + inversion H. exists p. split; [reflexivity | exact E].
    + destruct (where_first best ps) as [j |]; simpl in H; inversion H.
      destruct (IH j eq_refl) as [c [Hc Hd]]. exists c. split; assumption.
Qed.

Lemma numbers_Forall2 (vs : list value) :
  forall qs, numbers vs = Ok qs ->
    Forall2 (fun v q => number v = Some q) vs qs.
Proof.
  induction vs as [| v vs IH]; simpl; intros qs H.
  - inversion H. constructor.
  - destruct (number v) as [q |] eqn:E; [| discriminate H].
    bind_inv H. inversion H. constructor; [exact E | apply IH; exact Ha].
Qed.

Lemma Qmin_list_le_init (qs : list Q) :
  forall q, (Qmin_list q qs <= q)%Q.
Proof.
  unfold Qmin_list. induction qs as [| y qs IH]; simpl; intros q.
  - apply Qle_refl.
  - destruct (Qle_bool q y) eqn:E.
    + apply IH.
    + eapply Qle_trans; [apply IH |].
      destruct (Qlt_le_dec y q) as [Hlt | Hle].
      * apply Qlt_le_weak. exact Hlt.
      * apply Qle_bool_iff in Hle. congruence.
Qed.

Lemma Qmin_list_le (qs : list Q) :
  forall q x, In x (q :: qs) -> (Qmin_list q qs <= x)%Q.
Proof.
  induction qs as [| y qs IH]; intros q x Hin.
  - destruct Hin as [<- | []]. apply Qle_refl.
  - change (Qmin_list q (y :: qs))
      with (Qmin_list (if Qle_bool q y then q else y) qs).
    destruct Hin as [<- | [<- | Hin]].
    + eapply Qle_trans; [apply Qmin_list_le_init |].
      destruct (Qle_bool q y) eqn:E; [apply Qle_refl |].
      destruct (Qlt_le_dec y q) as [Hlt | Hle].
      * apply Qlt_le_weak. exact Hlt.
      * apply Qle_bool_iff in Hle. congruence.
    + eapply Qle_trans; [apply Qmin_list_le_init |].
      destruct (Qle_bool q y) eqn:E; [| apply Qle_refl].
      apply Qle_bool_iff. exact E.
    + apply IH. right. exact Hin.
Qed.

Lemma value_eqb_None (v : value) :
  value_eqb v VNone = true -> number v = None.
Proof.
  unfold value_eqb. destruct (number v); simpl; [discriminate | reflexivity].
Qed.

Lemma getitem_lookup {V : Type} (d : dict V) (k : string) (v : V) :
  getitem d k = Ok v <-> lookup k d = Some v.
Proof.
  unfold getitem. destruct (lookup k d); split; intros H; inversion H;
    reflexivity.
Qed.

(** Equal dicts bind a key to equal values. *)
Lemma included_lookup (d1 d2 : dict value) (k : string) (v : value) :
  included d1 d2 = true -> lookup k d1 = Some v ->
  exists v', lookup k d2 = Some v' /\ value_eqb v v' = true.
Proof.
  unfold included. induction d1 as [| [k1 v1] d1 IH]; simpl; intros H Hl.
  - discriminate Hl.
  - apply andb_prop in H. destruct H as [H1 H2].
    destruct (String.eqb_spec k1 k) as [-> | Hne].
    + inversion Hl. subst v1.
      destruct (lookup k d2) as [v' |]; [| discriminate H1].
      exists v'. split; [reflexivity | exact H1].
    + apply IH; assumption.
Qed.

(** The outcome of lines 280-286 on every configuration kept. *)
Lemma narrow_selected_features_kept (names : list string)
  (tied kept : list (dict value)) :
  mem fs_key names = true ->
  narrow_selected_features names tied = Ok kept ->
  forall c, In c kept ->
    In c tied /\
    exists v, lookup fs_key c = Some v /\
      ((exists p, In p tied /\ selects_all p = true) -> number v = None) /\
      ((forall p, In p tied -> selects_all p = false) ->
         exists q, number v = Some q /\
           forall p v', In p tied -> lookup fs_key p = Some v' ->
             exists q', number v' = Some q' /\ (q <= q')%Q).
Proof.
  intros Hmem H c Hc. unfold narrow_selected_features in H. rewrite Hmem in H.
  bind_inv H. rename a into fs_params, Ha into Hfs.
  apply PyFacts.mapM_Forall2 in Hfs.
  bind_inv H. rename a into best_fs, Ha into Hbest.
  inversion H; subst kept; clear H.
  destruct (compress_In _ (fun v => value_eqb v best_fs) _ _ _ Hfs Hc)
    as [Hin [v [Hv [Hcv Heq]]]].
  split; [exact Hin |].
  exists v. apply getitem_lookup in Hcv. split; [exact Hcv |].
  destruct (existsb (value_eqb VNone) fs_params) eqn:E.
  - inversion Hbest; subst best_fs. split.
    + intros _. apply value_eqb_None. exact Heq.
    + intros Hall. exfalso.
      apply existsb_exists in E. destruct E as [w [Hw Hnone]].
      destruct (PyFacts.Forall2_In_r _ _ _ _ Hfs Hw) as [p [Hp Hpw]].
      apply getitem_lookup in Hpw.
      specialize (Hall p Hp). unfold selects_all in Hall.
      rewrite Hpw in Hall. congruence.
  - unfold value_min in Hbest. bind_inv Hbest. rename a into qs, Ha into Hqs.
    apply numbers_Forall2 in Hqs.
    destruct qs as [| q0 qs]; [discriminate Hbest |].
    inversion Hbest; subst best_fs; clear Hbest.
    split.
    + intros [p [Hp Hsel]]. exfalso.
      destruct (PyFacts.Forall2_In_l _ _ _ _ Hfs Hp) as [w [Hw Hpw]].
      apply getitem_lookup in Hpw. unfold selects_all in Hsel.
      rewrite Hpw in Hsel.
      assert (existsb (value_eqb VNone) fs_params = true) as E'.
      { apply existsb_exists. exists w. split; assumption. }
      congruence.
    + intros _.
      unfold value_eqb in Heq. simpl in Heq.
      destruct (number v) as [qv |] eqn:Ev; [| discriminate Heq].
      apply Qeq_bool_iff in Heq.
      exists qv. split; [reflexivity |].
      intros p v' Hp Hpv'.
      destruct (PyFacts.Forall2_In_l _ _ _ _ Hfs Hp) as [w [Hw Hpw]].
      apply getitem_lookup in Hpw. rewrite Hpv' in Hpw.
      inversion Hpw; subst w; clear Hpw.
      destruct (PyFacts.Forall2_In_l _ _ _ _ Hqs Hw) as [q' [Hq' Hv']].
      exists q'. split; [exact Hv' |].
      rewrite Heq. apply Qmin_list_le. exact Hq'.
Qed.

Lemma compress_subset {A : Type} (m : list bool) :
  forall (l : list A) (x : A), In x (compress m l) -> In x l.
Proof.
  induction m as [| b m IH]; intros l x H.
  - destruct H.
  - destruct l as [| y l]; [destruct H |]. cbn [compress] in H.
    destruct b.
    + destruct H as [-> | H]; [left; reflexivity | right; apply IH; exact H].
    + right. apply IH. exact H.
Qed.

Lemma narrow_classifier_subset (names : list string)
  (tied kept : list (dict value)) :
  narrow_classifier names tied = Ok kept ->
  forall c, In c kept -> In c tied.
Proof.
  unfold narrow_classifier. intros H c Hc.
  destruct (filter (fun k => mem k params_of_interest)
                   (filter (contains "classifier") names)).
  - inversion H. subst. exact Hc.
  - bind_inv H. bind_inv H. inversion H. subst kept.
    eapply compress_subset. exact Hc.
Qed.

(** C5 (amended): when the first configuration tied for the best rank
    carries ['FeatureSelection__n_selected_features'], the index returned
    is that of a configuration equal to one of the tied ones whose value of
    the hyperparameter is: [None] as soon as some tied configuration has
    [None] (select all is preferred, not treated as worse); the smallest
    count otherwise. *)
Theorem get_best_index_selected_features (cv : cv_results)
  (tied : list (dict value)) (p0 : dict value) (i : nat) :
  best_rank_params cv = Ok tied ->
  hd_error tied = Some p0 ->
  mem fs_key (keys p0) = true ->
  get_best_index cv = Ok i ->
  exists c c0 v vc,
    nth_error (params cv) i = Some c /\ dict_eqb c c0 = true /\
    In c0 tied /\ lookup fs_key c0 = Some v /\
    lookup fs_key c = Some vc /\ value_eqb v vc = true /\
    ((exists p, In p tied /\ selects_all p = true) -> number v = None) /\
    ((forall p, In p tied -> selects_all p = false) ->
       exists q, number v = Some q /\
         forall p v', In p tied -> lookup fs_key p = Some v' ->
           exists q', number v' = Some q' /\ (q <= q')%Q).
Proof.
  intros Htied Hhd Hkey H. unfold get_best_index in H.
  rewrite Htied in H. cbn [bind] in H.
  destruct tied as [| p tied']; [discriminate Hhd |].
  inversion Hhd; subst p; clear Hhd.
  cbn [first bind] in H.
  bind_inv H. rename a into kept1, Ha into H1.
  bind_inv H. rename a into kept2, Ha into H2.
  bind_inv H. rename a into best_params, Ha into Hbest.
  destruct (where_first best_params (params cv)) as [j |] eqn:Hw;
    [| discriminate H].
  inversion H; subst j; clear H.
  destruct (where_first_nth _ _ _ Hw) as [c [Hc Heq]].
  apply first_In in Hbest.
  pose proof (narrow_classifier_subset _ _ _ H2 _ Hbest) as Hin1.
  destruct (narrow_selected_features_kept _ _ _ Hkey H1 _ Hin1)
    as [Hin [v [Hv [Hnone Hmin]]]].
  unfold dict_eqb in Heq. apply andb_prop in Heq as Heq'.
  destruct Heq' as [_ Hinc].
  destruct (included_lookup _ _ _ _ Hinc Hv) as [vc [Hvc Hvv]].
  exists c, best_params, v, vc. repeat split; assumption.
Qed.

(** C5, the claim as stated fails: with the counts 5 and [None] tied for
    the best rank, the index returned is that of the [None]
    configuration. *)
Lemma get_best_index_prefers_none :
  get_best_index Examples.cv_5_none = Ok 1%nat
  /\ option_map selects_all (nth_error (params Examples.cv_5_none) 1)
     = Some true
  /\ best_rank_params Examples.cv_5_none = Ok (params Examples.cv_5_none)
  /\ option_map (lookup fs_key) (nth_error (params Examples.cv_5_none) 0)
     = Some (Some (VInt 5)).
Proof. repeat split; vm_compute; reflexivity. Qed.

(** The example of the claim: counts 10 and 5 tied, the index is that of
    the configuration with 5. *)
Lemma get_best_index_5_vs_10 :
  get_best_index Examples.cv_10_5 = Ok 2%nat
  /\ option_map (lookup fs_key) (nth_error (params Examples.cv_10_5) 2)
     = Some (Some (VInt 5)).
Proof. split; vm_compute; reflexivity. Qed.

(** C5 (amended) on the results with the counts 10 and 5 tied. *)
Lemma get_best_index_selected_features_witness :
  exists c c0 v vc,
    nth_error (params Examples.cv_10_5) 2 = Some c /\ dict_eqb c c0 = true /\
    In c0 [Examples.config (VInt 10) 1; Examples.config (VInt 5) 1] /\
    lookup fs_key c0 = Some v /\
    lookup fs_key c = Some vc /\ value_eqb v vc = true /\
    ((exists p, In p [Examples.config (VInt 10) 1; Examples.config (VInt 5) 1]
                /\ selects_all p = true) -> number v = None) /\
    ((forall p, In p [Examples.config (VInt 10) 1; Examples.config (VInt 5) 1]
                -> selects_all p = false) ->
       exists q, number v = Some q /\
         forall p v',
           In p [Examples.config (VInt 10) 1; Examples.config (VInt 5) 1] ->
           lookup fs_key p = Some v' ->
           exists q', number v' = Some q' /\ (q <= q')%Q).
Proof.
  apply (get_best_index_selected_features Examples.cv_10_5
           [Examples.config (VInt 10) 1; Examples.config (VInt 5) 1]
           (Examples.config (VInt 10) 1) 2%nat);
    vm_compute; reflexivity.
Defined.

End BestIndexFacts.

(** ** Ranks, rankings and support masks *)

Module RankingFacts.

Import Np Ranking.

Section Sorting.

Variable A : Type.
Variable leb : A -> A -> bool.

Lemma insert_sorted_perm (x : A) (l : list A) :
  Permutation (insert_sorted leb x l) (x :: l).
Proof.
  induction l as [| y l IH]; simpl.
  - apply Permutation_refl.
  - destruct (leb x y).
    + apply Permutation_refl.
    + eapply perm_trans; [apply perm_skip; exact IH | apply perm_swap].
Qed.

Lemma sorted_perm (l : list A) : Permutation (sorted leb l) l.
Proof.
  induction l as [| x l IH]; simpl.
  - apply perm_nil.
  - eapply perm_trans; [apply insert_sorted_perm |].
    apply perm_skip. exact IH.
Qed.

End Sorting.

Lemma map_fst_combine {A B : Type} (l : list A) :
  forall l' : list B, length l = length l' -> map fst (combine l l') = l.
Proof.
  induction l as [| x l IH]; intros [| y l'] H; simpl in *; try discriminate.
  - reflexivity.
  - f_equal. apply IH. lia.
Qed.

(** [argsort] lists every position once. *)
Lemma argsort_perm {A : Type} (leb : A -> A -> bool) (a : list A) :
  Permutation (argsort leb a) (seq 0 (length a)).
Proof.
  unfold argsort.
  eapply perm_trans; [apply Permutation_map; apply sorted_perm |].
  unfold enumerate. rewrite map_fst_combine.
  - apply Permutation_refl.
  - apply length_seq.
Qed.

Lemma find_index_nth {A : Type} (p : A -> bool) (l : list A) :
  forall i, find_index p l = Some i ->
    exists x, nth_error l i = Some x /\ p x = true.
Proof.
  induction l as [| y l IH]; simpl; intros i H.
  - discriminate H.
  - destruct (p y) eqn:E.
    + inversion H. exists y. split; [reflexivity | exact E].
    + destruct (find_index p l) as [j |]; simpl in H; inversion H.
      apply IH. reflexivity.
Qed.

Lemma find_index_In {A : Type} (p : A -> bool) (l : list A) (x : A) :
  In x l -> p x = true -> exists i, find_index p l = Some i.
Proof.
  induction l as [| y l IH]; simpl; intros Hin Hp.
  - destruct Hin.
  - destruct (p y) eqn:E.
    + exists 0%nat. reflexivity.
    + destruct Hin as [-> | Hin]; [congruence |].
      destruct (IH Hin Hp) as [i ->]. exists (S i). reflexivity.
Qed.

(** Two members of a list found at the same place are the same. *)
Lemma position_inj (l : list nat) (i j : nat) :
  In i l -> In j l -> position i l = position j l -> i = j.
Proof.
  intros Hi Hj. unfold position.
  destruct (find_index_In (Nat.eqb i) l i Hi (Nat.eqb_refl i)) as [p Hp].
  destruct (find_index_In (Nat.eqb j) l j Hj (Nat.eqb_refl j)) as [q Hq].
  rewrite Hp, Hq. intros <-.
  destruct (find_index_nth _ _ _ Hp) as [x [Hx Ex]].
  destruct (find_index_nth _ _ _ Hq) as [y [Hy Ey]].
  rewrite Hx in Hy. inversion Hy; subst y.
  apply Nat.eqb_eq in Ex. apply Nat.eqb_eq in Ey. congruence.
Qed.

Lemma NoDup_map_on {A B : Type} (f : A -> B) (l : list A) :
  (forall x y, In x l -> In y l -> f x = f y -> x = y) ->
  NoDup l -> NoDup (map f l).
Proof.
  intros Hinj Hnd. induction Hnd as [| x l Hx Hnd IH]; simpl.
  - constructor.
  - constructor.
    + intros Hin. apply in_map_iff in Hin. destruct Hin as [y [Hy Hin]].
      apply Hx. rewrite (Hinj x y); [exact Hin | left; reflexivity
                                     | right; exact Hin | symmetry; exact Hy].
    + apply IH. intros a b Ha Hb. apply Hinj; right; assumption.
Qed.

(** Ordinal ranks: one per element, all different. *)
Lemma rankdata_ordinal_length {A : Type} (leb : A -> A -> bool) (a : list A) :
  length (rankdata_ordinal leb a) = length a.
Proof. unfold rankdata_ordinal. rewrite length_map. apply length_seq. Qed.

Lemma rankdata_ordinal_NoDup {A : Type} (leb : A -> A -> bool) (a : list A) :
  NoDup (rankdata_ordinal leb a).
Proof.
  unfold rankdata_ordinal. apply NoDup_map_on; [| apply seq_NoDup].
  intros i j Hi Hj H. inversion H as [Hpos].
  pose proof (argsort_perm leb a) as Hperm.
  apply position_inj with (l := argsort leb a).
  - eapply Permutation_in; [apply Permutation_sym; exact Hperm | exact Hi].
  - eapply Permutation_in; [apply Permutation_sym; exact Hperm | exact Hj].
  - exact Hpos.
Qed.

Lemma Qred_inject_Z_inj (x y : Z) :
  Qred (inject_Z x) = Qred (inject_Z y) -> x = y.
Proof.
  intros H. apply Qred_eq_iff in H. unfold Qeq, inject_Z in H. simpl in H. lia.
Qed.

Lemma ranks_to_Q_NoDup (ranks : list nat) :
  NoDup ranks -> NoDup (map Qred (ranks_to_Q ranks)).
Proof.
  intros H. unfold ranks_to_Q. rewrite map_map.
  apply NoDup_map_on; [| exact H].
  intros x y _ _ E. apply Qred_inject_Z_inj in E. lia.
Qed.

Lemma ranks_to_Q_length (ranks : list nat) :
  length (ranks_to_Q ranks) = length ranks.
Proof. unfold ranks_to_Q. apply length_map. Qed.

(** Images of pairwise different elements under a relation that is
    injective up to [g] are pairwise different. *)
Lemma Forall2_NoDup {A B C : Type} (R : A -> B -> Prop) (g : A -> C) :
  (forall a1 a2 b, R a1 b -> R a2 b -> g a1 = g a2) ->
  forall (l : list A) (l' : list B),
    Forall2 R l l' -> NoDup (map g l) -> NoDup l'.
Proof.
  intros Hinj l l' H. induction H as [| a b l l' Hab H IH]; simpl; intros Hnd.
  - constructor.
  - inversion Hnd as [| ? ? Hnotin Hnd']; subst. constructor.
    + intros Hin.
      destruct (PyFacts.Forall2_In_r _ _ _ _ H Hin) as [a' [Ha' Ha'b]].
      apply Hnotin. rewrite (Hinj a a' b Hab Ha'b). apply in_map. exact Ha'.
    + apply IH. exact Hnd'.
Qed.

Lemma Forall2_map_r {A B C : Type} (R : A -> B -> Prop) (g : B -> C)
  (l : list A) (l' : list B) :
  Forall2 R l l' ->
  Forall2 (fun a c => exists b, R a b /\ c = g b) l (map g l').
Proof.
  induction 1 as [| a b l l' Hab _ IH]; simpl; constructor.
  - exists b. split; [exact Hab | reflexivity].
  - exact IH.
Qed.

Lemma list_index_nth (ranks : list Q) (r : Q) (i : nat) :
  list_index ranks r = Ok i ->
  exists x, nth_error ranks i = Some x /\ Qeq_bool x r = true.
Proof.
  unfold list_index. destruct (find_index _ ranks) as [j |] eqn:E; intros H;
    inversion H; subst.
  apply (find_index_nth _ _ _ E).
Qed.

(** With pairwise different ranks, the ranking lists every position
    once. *)
Lemma ranking_index_NoDup (ranks : list Q) (idx : list nat) :
  ranking_index ranks = Ok idx -> NoDup (map Qred ranks) ->
  NoDup idx /\ length idx = length ranks
  /\ Forall (fun i => (i < length ranks)%nat) idx.
Proof.
  unfold ranking_index. intros H Hnd.
  pose proof (sorted_perm _ Qle_bool ranks) as Hperm.
  pose proof (PyFacts.mapM_length _ _ _ H) as Hlen.
  apply PyFacts.mapM_Forall2 in H.
  split; [| split].
  - apply (Forall2_NoDup (fun r i => list_index ranks r = Ok i) Qred)
      with (l := sorted Qle_bool ranks); [| exact H |].
    + intros r1 r2 i H1 H2.
      destruct (list_index_nth _ _ _ H1) as [x [Hx Ex]].
      destruct (list_index_nth _ _ _ H2) as [y [Hy Ey]].
      rewrite Hx in Hy. inversion Hy; subst y.
      apply Qeq_bool_iff in Ex. apply Qeq_bool_iff in Ey.
      apply Qred_complete. rewrite <- Ex. exact Ey.
    + eapply Permutation_NoDup; [| exact Hnd].
      apply Permutation_map. apply Permutation_sym. exact Hperm.
  - rewrite Hlen. apply Permutation_length. exact Hperm.
  - clear Hlen Hperm Hnd. induction H as [| r i l l' Hri _ IH].
    + constructor.
    + constructor; [| exact IH].
      destruct (list_index_nth _ _ _ Hri) as [x [Hx _]].
      apply nth_error_Some. congruence.
Qed.

Lemma NoDup_firstn {A : Type} (n : nat) (l : list A) :
  NoDup l -> NoDup (firstn n l).
Proof.
  intros H. rewrite <- (firstn_skipn n l) in H.
  apply NoDup_app_remove_r in H. exact H.
Qed.

Lemma Forall_firstn {A : Type} (P : A -> Prop) (n : nat) (l : list A) :
  Forall P l -> Forall P (firstn n l).
Proof.
  intros H. rewrite <- (firstn_skipn n l) in H.
  apply Forall_app in H. apply H.
Qed.

Lemma slice_to_firstn {A : Type} (l : list A) (k : Z) :
  (0 <= k)%Z -> slice_to l k = firstn (Z.to_nat k) l.
Proof.
  intros H. unfold slice_to.
  destruct (Z.leb_spec 0 k); [reflexivity | lia].
Qed.

Lemma count_true_map {A : Type} (f : A -> bool) (l : list A) :
  count_true (map f l) = length (filter f l).
Proof.
  unfold count_true. induction l as [| x l IH]; simpl.
  - reflexivity.
  - destruct (f x); simpl; rewrite IH; reflexivity.
Qed.

(** The mask of pairwise different positions below [n] has as many true
    entries as there are positions. *)
Lemma support_mask_count (n : nat) (idx : list nat) :
  NoDup idx -> Forall (fun i => (i < n)%nat) idx ->
  exists mask, support_mask n idx = Ok mask /\ length mask = n
               /\ count_true mask = length idx.
Proof.
  intros Hnd Hlt. unfold support_mask.
  assert (forallb (fun i => i <? n) idx = true) as ->.
  { apply forallb_forall. intros i Hi. apply Nat.ltb_lt.
    rewrite Forall_forall in Hlt. apply Hlt. exact Hi. }
  eexists. split; [reflexivity |]. split.
  - rewrite length_map. apply length_seq.
  - rewrite count_true_map. apply Permutation_length.
    apply NoDup_Permutation.
    + apply NoDup_filter. apply seq_NoDup.
    + exact Hnd.
    + intros j. rewrite filter_In, in_seq, existsb_exists. split.
      * intros [_ [i [Hi E]]]. apply Nat.eqb_eq in E. subst. exact Hi.
      * intros Hj. split.
        -- rewrite Forall_forall in Hlt. specialize (Hlt j Hj). lia.
        -- exists j. split; [exact Hj | apply Nat.eqb_refl].
Qed.

End RankingFacts.

(** ** Order: what [sorted], [argsort] and the ranking preserve *)

Module OrderFacts.

Import Np Ranking RankingFacts.

Section Sorting.

Variable A : Type.
Variable leb : A -> A -> bool.
Hypothesis leb_total : forall x y, leb x y = true \/ leb y x = true.
Hypothesis leb_trans :
  forall x y z, leb x y = true -> leb y z = true -> leb x z = true.

Local Abbreviation le := (fun x y => leb x y = true).

Lemma insert_sorted_sorted (x : A) (l : list A) :
  StronglySorted le l -> StronglySorted le (insert_sorted leb x l).
Proof.
  induction l as [| y l IH]; simpl; intros H.
  - constructor; constructor.
  - apply StronglySorted_inv in H. destruct H as [Hl Hy].
    destruct (leb x y) eqn:E.
    + constructor.
      * constructor; assumption.
      * constructor; [exact E |].
        rewrite Forall_forall in *. intros z Hz.
        apply (leb_trans x y z E). apply Hy. exact Hz.
    + constructor; [apply IH; exact Hl |].
      rewrite Forall_forall in *. intros z Hz.
      apply (Permutation_in z (insert_sorted_perm A leb x l)) in Hz.
      destruct Hz as [<- | Hz]; [| apply Hy; exact Hz].
      destruct (leb_total x y) as [H | H]; [congruence | exact H].
Qed.

(** [sorted] returns its elements in ascending order. *)
Lemma sorted_sorted (l : list A) : StronglySorted le (sorted leb l).
Proof.
  induction l as [| x l IH]; simpl.
  - constructor.
  - apply insert_sorted_sorted. exact IH.
Qed.

End Sorting.

Section Lists.

Variables (A B : Type).

Lemma StronglySorted_nth (R : A -> A -> Prop) (l : list A) :
  StronglySorted R l ->
  forall p q x y, (p < q)%nat -> nth_error l p = Some x ->
    nth_error l q = Some y -> R x y.
Proof.
  induction 1 as [| a l Hl IH Ha]; intros p q x y Hpq Hp Hq.
  - destruct p; discriminate Hp.
  - destruct q as [| q]; [lia |]. simpl in Hq. destruct p as [| p].
    + simpl in Hp. injection Hp as <-.
      rewrite Forall_forall in Ha. apply Ha.
      apply (nth_error_In _ _ Hq).
    + simpl in Hp. apply (IH p q); [lia | assumption ..].
Qed.

Lemma StronglySorted_app (R : A -> A -> Prop) (l1 l2 : list A) :
  StronglySorted R (l1 ++ l2) ->
  forall x y, In x l1 -> In y l2 -> R x y.
Proof.
  induction l1 as [| a l1 IH]; simpl; intros H x y Hx Hy.
  - destruct Hx.
  - apply StronglySorted_inv in H. destruct H as [Hl Ha].
    destruct Hx as [<- | Hx].
    + rewrite Forall_forall in Ha. apply Ha. apply in_or_app. right. exact Hy.
    + apply IH; assumption.
Qed.

(** Order carried along a relation between two lists. *)
Lemma StronglySorted_Forall2 (R : A -> A -> Prop) (R' : B -> B -> Prop)
  (P : A -> B -> Prop) :
  (forall a b a' b', R a b -> P a a' -> P b b' -> R' a' b') ->
  forall l l', Forall2 P l l' -> StronglySorted R l -> StronglySorted R' l'.
Proof.
  intros Hcarry l l' H. induction H as [| a a' l l' Haa H IH]; intros Hs.
  - constructor.
  - apply StronglySorted_inv in Hs. destruct Hs as [Hl Ha]. constructor.
    + apply IH. exact Hl.
    + rewrite Forall_forall in *. intros b' Hb'.
      destruct (PyFacts.Forall2_In_r _ _ _ _ H Hb') as [b [Hb Hbb]].
      apply (Hcarry a b a' b'); [apply Ha; exact Hb | exact Haa | exact Hbb].
Qed.

End Lists.

Lemma combine_seq_nth {A : Type} (a : list A) :
  forall (start i : nat) (x : A),
    In (i, x) (combine (seq start (length a)) a) ->
    (start <= i)%nat /\ nth_error a (i - start) = Some x.
Proof.
  induction a as [| y a IH]; simpl; intros start i x H.
  - destruct H.
  - destruct H as [H | H].
    + injection H as <- <-. split; [lia |]. rewrite Nat.sub_diag. reflexivity.
    + apply IH in H. destruct H as [Hle Hn]. split; [lia |].
      replace (i - start)%nat with (S (i - S start)) by lia. exact Hn.
Qed.

Lemma enumerate_nth {A : Type} (a : list A) (i : nat) (x : A) :
  In (i, x) (enumerate a) -> nth_error a i = Some x.
Proof.
  unfold enumerate. intros H. apply combine_seq_nth in H.
  destruct H as [_ H]. rewrite Nat.sub_0_r in H. exact H.
Qed.

Lemma Qle_bool_total (x y : Q) : Qle_bool x y = true \/ Qle_bool y x = true.
Proof.
  destruct (Qlt_le_dec y x) as [H | H].
  - right. apply Qle_bool_iff. apply Qlt_le_weak. exact H.
  - left. apply Qle_bool_iff. exact H.
Qed.

Lemma Qle_bool_trans (x y z : Q) :
  Qle_bool x y = true -> Qle_bool y z = true -> Qle_bool x z = true.
Proof.
  rewrite !Qle_bool_iff. apply Qle_trans.
Qed.

(** [argsort] lists the positions by ascending value. *)
Lemma argsort_sorted (vals : list Q) :
  StronglySorted (fun i j => (nth i vals 0 <= nth j vals 0)%Q)
                 (argsort Qle_bool vals).
Proof.
  unfold argsort.
  set (cmp := fun x y : nat * Q => Qle_bool (snd x) (snd y)).
  assert (Hs : StronglySorted (fun x y => cmp x y = true)
                 (sorted cmp (enumerate vals))).
  { apply sorted_sorted.
    - intros x y. apply Qle_bool_total.
    - intros x y z. apply Qle_bool_trans. }
  assert (Hin : forall p, In p (sorted cmp (enumerate vals)) ->
                          nth_error vals (fst p) = Some (snd p)).
  { intros [i x] Hp. apply enumerate_nth.
    apply (Permutation_in _ (sorted_perm _ cmp (enumerate vals))). exact Hp. }
  induction Hs as [| p l Hl IH Hp]; simpl.
  - constructor.
  - constructor.
    + apply IH. intros q Hq. apply Hin. right. exact Hq.
    + rewrite Forall_forall in *. intros j Hj.
      apply in_map_iff in Hj. destruct Hj as [q [<- Hq]].
      specialize (Hp q Hq). unfold cmp in Hp. apply Qle_bool_iff in Hp.
      rewrite (nth_error_nth _ _ _ (Hin p (or_introl eq_refl))).
      rewrite (nth_error_nth _ _ _ (Hin q (or_intror Hq))). exact Hp.
Qed.

(** The ranking computed from ordinal ranks lists the positions by
    ascending value: it is read off [argsort]. *)
Lemma ranking_index_sorted (vals : list Q) (ranking : list nat) :
  ranking_index (ranks_to_Q (rankdata_ordinal Qle_bool vals)) = Ok ranking ->
  StronglySorted (fun i j => (nth i vals 0 <= nth j vals 0)%Q) ranking.
Proof.
  intros H. unfold ranking_index in H. apply PyFacts.mapM_Forall2 in H.
  set (rq := ranks_to_Q (rankdata_ordinal Qle_bool vals)) in *.
  pose proof (sorted_sorted _ Qle_bool Qle_bool_total Qle_bool_trans rq) as Hs.
  pose proof (argsort_sorted vals) as Harg.
  pose proof (argsort_perm Qle_bool vals) as Hperm.
  refine (StronglySorted_Forall2 _ _ _ _ _ _ _ _ H Hs).
  intros r1 r2 i j Hr Hi Hj. cbv beta in Hr. apply Qle_bool_iff in Hr.
  destruct (list_index_nth _ _ _ Hi) as [x [Hx Ex]].
  destruct (list_index_nth _ _ _ Hj) as [y [Hy Ey]].
  apply Qeq_bool_iff in Ex. apply Qeq_bool_iff in Ey.
  rewrite <- Ex, <- Ey in Hr. clear Ex Ey Hi Hj r1 r2.
  unfold rq, ranks_to_Q, rankdata_ordinal in Hx, Hy.
  rewrite map_map in Hx, Hy.
  rewrite nth_error_map in Hx, Hy.
  destruct (nth_error (seq 0 (length vals)) i) as [i' |] eqn:Hi';
    [| discriminate Hx].
  destruct (nth_error (seq 0 (length vals)) j) as [j' |] eqn:Hj';
    [| discriminate Hy].
  simpl in Hx, Hy. injection Hx as <-. injection Hy as <-.
  assert (Hseq : forall n a b, nth_error (seq 0 n) a = Some b ->
                               (a < n)%nat /\ b = a).
  { intros n a b Hn.
    assert (a < length (seq 0 n))%nat as Hlt
      by (apply nth_error_Some; congruence).
    rewrite length_seq in Hlt.
    split; [exact Hlt |].
    apply (nth_error_nth _ _ 0%nat) in Hn. rewrite seq_nth in Hn by exact Hlt.
    simpl in Hn. congruence. }
  apply Hseq in Hi', Hj'.
  rename Hi' into Hi, Hj' into Hj.
  destruct Hi as [Hil ->]. destruct Hj as [Hjl ->].
  unfold Qle, inject_Z in Hr. simpl in Hr.
  assert (Hpos : (position i (argsort Qle_bool vals)
                  <= position j (argsort Qle_bool vals))%nat) by lia.
  clear Hr.
  assert (Hini : In i (argsort Qle_bool vals)).
  { apply (Permutation_in _ (Permutation_sym Hperm)). apply in_seq. lia. }
  assert (Hinj : In j (argsort Qle_bool vals)).
  { apply (Permutation_in _ (Permutation_sym Hperm)). apply in_seq. lia. }
  destruct (Nat.eq_dec (position i (argsort Qle_bool vals))
                       (position j (argsort Qle_bool vals))) as [E | N].
  - apply position_inj in E; [| assumption ..]. subst j. apply Qle_refl.
  - unfold position in *.
    destruct (find_index_In (Nat.eqb i) _ i Hini (Nat.eqb_refl i)) as [p Hp].
    destruct (find_index_In (Nat.eqb j) _ j Hinj (Nat.eqb_refl j)) as [q Hq].
    rewrite Hp, Hq in *.
    destruct (find_index_nth _ _ _ Hp) as [i0 [Hi0 Ei]].
    destruct (find_index_nth _ _ _ Hq) as [j0 [Hj0 Ej]].
    apply Nat.eqb_eq in Ei. apply Nat.eqb_eq in Ej. subst i0 j0.
    apply (StronglySorted_nth _ _ _ Harg p q i j); [lia | assumption ..].
Qed.

End OrderFacts.

(** ** [FilterFeatureSelection.fit] and the support mask *)

Module FitFacts.

Import PyStr Np Ranking FeatureSelection RankingFacts.
Open Scope string_scope.

Lemma sum_axis0_length (r : list Q) (R : list (list Q)) :
  length (sum_axis0 (r :: R)) = length r.
Proof. unfold sum_axis0. rewrite length_map. apply length_seq. Qed.

Section Filter.

Variable kruskal : list (list Q) -> result (Q * Q).
Variables auc_roc pearson_corr spearman_corr : array_fn.
Variable mi : option Z -> array_fn.
Variable skfeature_mrmr :
  nat -> list (list Q) -> option (ndarray label) -> nat -> result (list nat).
Variables np_exp np_sqrt : Q -> Q.
Variable resample : nat -> nat -> list nat.

Lemma as_array_returns_array (f : array_fn) : returns_array (as_array f).
Proof.
  intros n rows y out H. unfold as_array in H. bind_inv H.
  injection H as <-. eexists. reflexivity.
Qed.

(** Every built-in method returns a NumPy array. *)
Lemma builtin_returns_array (random_state : option Z) (name : string)
  (f : score_fn) :
  builtin kruskal auc_roc pearson_corr spearman_corr mi skfeature_mrmr
          random_state name = Ok f ->
  returns_array f.
Proof.
  unfold builtin. intros H.
  repeat match type of H with
         | (if ?c then _ else _) = _ => destruct c
         end;
    try discriminate H; injection H as <-;
    try apply as_array_returns_array;
    intros n rows y out Hout;
    unfold wlcx_score, mrmr in Hout; repeat bind_inv Hout;
    injection Hout as <-; eexists; reflexivity.
Qed.

(** What [_get_fs_func] resolves a method to: the user's callable as it
    is, with the instance unchanged, or a built-in method. *)
Lemma _get_fs_func_returned (s s2 : selector) (f : score_fn) :
  _get_fs_func kruskal auc_roc pearson_corr spearman_corr mi skfeature_mrmr s
    = Ok (s2, f) ->
  match method s with
  | MethodCallable g => f = g /\ s2 = s
  | _ => returns_array f
  end.
Proof.
  intros H. unfold _get_fs_func in H.
  destruct (method s) as [name | g |]; [| | discriminate H].
  - destruct (negb (mem (lower name) (scoring_names ++ ranking_methods)));
      [discriminate H |].
    bind_inv H. bind_inv H. injection H as _ <-.
    apply (builtin_returns_array _ _ _ Ha0).
  - injection H as <- <-. split; reflexivity.
Qed.

(** The external scorers return one score per feature, and the mRMR
    routine an ordering of the requested size. *)
Hypothesis auc_roc_scores : per_feature (as_array auc_roc).
Hypothesis pearson_corr_scores : per_feature (as_array pearson_corr).
Hypothesis spearman_corr_scores : per_feature (as_array spearman_corr).
Hypothesis mi_scores :
  forall random_state, per_feature (as_array (mi random_state)).
Hypothesis mrmr_ordering :
  forall n rows y k order,
    skfeature_mrmr n rows y k = Ok order -> length order = k.

Lemma wlcx_score_scores : per_feature (wlcx_score kruskal).
Proof.
  intros n rows y out H. unfold wlcx_score in H. bind_inv H.
  injection H as <-. cbn [values].
  apply PyFacts.mapM_length in Ha. rewrite Ha. apply length_seq.
Qed.

Lemma mrmr_scores : per_feature (mrmr skfeature_mrmr).
Proof.
  intros n rows y out H. unfold mrmr in H. bind_inv H.
  rename a into rank_index, Ha into Horder. bind_inv H.
  injection H as <-. cbn [values].
  apply PyFacts.mapM_length in Ha. rewrite Ha, length_seq.
  apply (mrmr_ordering _ _ _ _ _ Horder).
Qed.

(** The ranks [mrmr] computes are positions in one list, hence pairwise
    different. *)
Lemma mrmr_distinct : distinct_ranks (mrmr skfeature_mrmr).
Proof.
  intros n rows y out H. unfold mrmr in H. bind_inv H.
  rename a into rank_index, Ha into Horder. bind_inv H.
  rename a into ranks, Ha into Hranks.
  injection H as <-. cbn [values]. rename Hranks into H.
  apply PyFacts.mapM_Forall2 in H.
  apply (Forall2_map_r _ Qred) in H.
  apply (Forall2_NoDup _ (fun i : nat => i)) with (2 := H).
  - intros i j r [ri [Hi Eri]] [rj [Hj Erj]].
    destruct (find_index (Nat.eqb i) rank_index) as [p |] eqn:Ep;
      [| discriminate Hi].
    destruct (find_index (Nat.eqb j) rank_index) as [q |] eqn:Eq;
      [| discriminate Hj].
    inversion Hi; subst ri. inversion Hj; subst rj.
    rewrite Eri in Erj. unfold Qofnat in Erj.
    apply Qred_inject_Z_inj in Erj.
    assert (q = p) by lia. subst q.
    destruct (find_index_nth _ _ _ Ep) as [x [Hx Ex]].
    destruct (find_index_nth _ _ _ Eq) as [z [Hz Ez]].
    rewrite Hx in Hz. inversion Hz; subst z.
    apply Nat.eqb_eq in Ex. apply Nat.eqb_eq in Ez. congruence.
  - rewrite map_id. apply seq_NoDup.
Qed.

Lemma builtin_scores (random_state : option Z) (name : string) (f : score_fn) :
  builtin kruskal auc_roc pearson_corr spearman_corr mi skfeature_mrmr
          random_state name = Ok f ->
  per_feature f.
Proof.
  unfold builtin. intros H.
  repeat match type of H with
         | (if ?c then _ else _) = _ => destruct c
         end;
    inversion H; subst;
    auto using wlcx_score_scores, mrmr_scores.
Qed.

(** What [_get_fs_func] returns and what it leaves unchanged. *)
Lemma _get_fs_func_spec (s s2 : selector) (f : score_fn) :
  (forall g, method s = MethodCallable g -> per_feature g) ->
  _get_fs_func kruskal auc_roc pearson_corr spearman_corr mi skfeature_mrmr s
    = Ok (s2, f) ->
  per_feature f
  /\ bootstrap s2 = bootstrap s /\ n_bsamples s2 = n_bsamples s
  /\ n_selected_features s2 = n_selected_features s
  /\ ranking_aggregation s2 = ranking_aggregation s
  /\ n_features s2 = n_features s
  /\ (ranking_done s2 = true ->
      match method s with
      | MethodCallable g => ranking_done s = true /\ f = g
      | _ => f = mrmr skfeature_mrmr
      end).
Proof.
  intros Hcall H. unfold _get_fs_func in H.
  destruct (method s) as [name | g |] eqn:Em; [| | discriminate H].
  - destruct (negb (mem (lower name) (scoring_names ++ ranking_methods)));
      [discriminate H |].
    bind_inv H. rename a into s1, Ha into Hs1.
    bind_inv H. rename a into f1, Ha into Hf1.
    inversion H; subst s2 f; clear H.
    destruct (mem (lower name) ranking_methods) eqn:Er.
    + inversion Hs1; subst s1; clear Hs1.
      split; [apply (builtin_scores _ _ _ Hf1) |].
      repeat (split; [reflexivity |]).
      intros _. unfold ranking_methods, mem in Er. simpl in Er.
      rewrite orb_false_r in Er. apply String.eqb_eq in Er.
      rewrite Er in Hf1. vm_compute in Hf1. inversion Hf1. reflexivity.
    + destruct (mem (lower name) scoring_names); [| discriminate Hs1].
      destruct (PyStr.list_index name scoring_names); [| discriminate Hs1].
      inversion Hs1; subst s1; clear Hs1.
      split; [apply (builtin_scores _ _ _ Hf1) |].
      repeat (split; [reflexivity |]).
      simpl. discriminate.
  - inversion H; subst s2 f; clear H.
    split; [apply Hcall; reflexivity |].
    repeat (split; [reflexivity |]).
    intros Hd. split; [exact Hd | reflexivity].
Qed.

(** The loop of [_get_bsamples_index] ends with enough samples. *)
Lemma bsamples_loop_enough (s : selector) (y : option (ndarray label))
  (samples classes : nat) :
  forall fuel n acc out,
    bsamples_loop resample s y samples classes fuel n acc = Ok out ->
    (n_bsamples s <= Z.of_nat (length out))%Z.
Proof.
  induction fuel as [| fuel IH]; intros n acc out H; simpl in H.
  - destruct (Z.ltb_spec (Z.of_nat (length acc)) (n_bsamples s));
      [discriminate H |].
    inversion H; subst. assumption.
  - destruct (Z.ltb_spec (Z.of_nat (length acc)) (n_bsamples s)).
    + bind_inv H.
      destruct (length (unique a) =? classes)%nat; apply IH in H; exact H.
    + inversion H; subst. assumption.
Qed.

Lemma stability_count_length (r : list Q) (R : list (list Q)) (k : Z) :
  length (stability_count (r :: R) k) = length r.
Proof.
  unfold stability_count. cbn [map]. rewrite sum_axis0_length.
  apply length_map.
Qed.

Lemma borda_count_length (r : list Q) (R : list (list Q)) (b : list Q) :
  borda_count (r :: R) = Ok b -> length b = length r.
Proof.
  unfold borda_count. cbn [shape1 bind map]. intros H.
  injection H as <-. rewrite !length_map, length_seq. reflexivity.
Qed.

(** On a matrix with a first row, every aggregation yields one rank per
    column, all different. *)
Lemma aggregate_ranks (a : aggregator) (r : list Q) (R : list (list Q))
  (k : Z) (ranks : list nat) :
  aggregate np_exp np_sqrt a (r :: R) k = Ok ranks ->
  length ranks = length r /\ NoDup ranks.
Proof.
  intros H.
  assert (Hb : forall b, borda_count (r :: R) = Ok b -> length b = length r)
    by apply borda_count_length.
  pose proof (stability_count_length r R k) as Hs.
  destruct a; cbn [aggregate] in H;
    try (bind_inv H; apply Hb in Ha);
    injection H as <-;
    (split; [| apply rankdata_ordinal_NoDup]);
    rewrite rankdata_ordinal_length;
    rewrite ?length_map, ?length_combine, ?length_map, ?Hs, ?sum_axis0_length,
      ?length_seq, ?length_map, ?Nat.min_id;
    try assumption; try reflexivity.
  rewrite Ha. apply Nat.min_id.
Qed.

Lemma negate_unless_length (lower : bool) (score : list Q) :
  length (negate_unless lower score) = length score.
Proof.
  unfold negate_unless. destruct (negb lower); [apply length_map | reflexivity].
Qed.

Lemma rankdata_average_length (a : list Q) :
  length (rankdata_average a) = length a.
Proof. unfold rankdata_average. apply length_map. Qed.

(** Lines 420-431. *)
Lemma times_minus_one_length (score : returned) :
  (exists v, score = Array v) ->
  length (values (times_minus_one score)) = length (values score).
Proof. intros [v ->]. cbn [times_minus_one values]. apply length_map. Qed.

Lemma direct_ranking_distinct (s2 : selector) (f : score_fn) (n : nat)
  (rows : list (list Q)) (y : option (ndarray label)) (ranking : list nat) :
  per_feature f -> (ranking_done s2 = true -> distinct_ranks f) ->
  (ranking_done s2 = false -> score_indicator_lower s2 = Some false ->
   returns_array f) ->
  direct_ranking s2 f n rows y = Ok ranking ->
  NoDup ranking /\ length ranking = n
  /\ Forall (fun i => (i < n)%nat) ranking.
Proof.
  intros Hlen Hdist Harr H. unfold direct_ranking in H.
  bind_inv H. rename a into ranks, Ha into Hranks.
  assert (length ranks = n /\ NoDup (map Qred ranks)) as [Hn Hnd].
  { destruct (ranking_done s2).
    - bind_inv Hranks. injection Hranks as <-.
      split; [apply (Hlen _ _ _ _ Ha) | apply (Hdist eq_refl _ _ _ _ Ha)].
    - bind_inv Hranks. rename a into lower, Ha into Hlower.
      bind_inv Hranks. rename a into score, Ha into Hscore.
      injection Hranks as <-. split.
      + rewrite ranks_to_Q_length, rankdata_ordinal_length.
        destruct lower; cbn [negb].
        * apply (Hlen _ _ _ _ Hscore).
        * rewrite times_minus_one_length.
          -- apply (Hlen _ _ _ _ Hscore).
          -- apply (Harr eq_refl) with (n := n) (rows := rows) (y := y);
               [| exact Hscore].
             unfold lower_flag in Hlower.
             destruct (score_indicator_lower s2) as [b |];
               [| discriminate Hlower].
             injection Hlower as ->. reflexivity.
      + apply ranks_to_Q_NoDup. apply rankdata_ordinal_NoDup. }
  destruct (ranking_index_NoDup _ _ H Hnd) as [H1 [H2 H3]].
  rewrite Hn in H2, H3. auto.
Qed.

(** Lines 403-419, with at least one bootstrap sample. *)
Lemma bootstrap_ranking_distinct (s2 : selector) (f : score_fn)
  (aggregation_method : option aggregator) (n : nat) (rows : list (list Q))
  (y : option (ndarray label)) (k : Z) (fuel : nat) (ranking : list nat) :
  per_feature f -> (1 <= n_bsamples s2)%Z ->
  bootstrap_ranking np_exp np_sqrt resample s2 f aggregation_method n rows y
                    k fuel = Ok ranking ->
  NoDup ranking /\ length ranking = n
  /\ Forall (fun i => (i < n)%nat) ranking.
Proof.
  intros Hlen Hb H. unfold bootstrap_ranking in H.
  assert (H' :
    (bsamples_index <-
       _get_bsamples_index resample s2 y (length rows) (count_classes y) fuel ;;
     bootstrap_ranks <-
       (if ranking_done s2 then
          mapM (fun sample => Xb <- take rows sample ;;
                              yb <- take_labels y sample ;;
                              r <- f n Xb (Some yb) ;;
                              Ok (values r)) bsamples_index
        else
          lower <- lower_flag s2 ;;
          boostrap_scores <-
            mapM (fun sample => Xb <- take rows sample ;;
                                yb <- take_labels y sample ;;
                                r <- f n Xb (Some yb) ;;
                                Ok (values r)) bsamples_index ;;
          Ok (map (fun sc => rankdata_average (negate_unless lower sc))
                  boostrap_scores)) ;;
     aggregated <- call_aggregation np_exp np_sqrt aggregation_method
                                    bootstrap_ranks k ;;
     ranking_index (ranks_to_Q aggregated)) = Ok ranking).
  { destruct (ranking_aggregation s2); [discriminate H | exact H ..]. }
  clear H. bind_inv H'. rename a into bsamples_index, Ha into Hsamples.
  apply bsamples_loop_enough in Hsamples.
  destruct bsamples_index as [| b bs]; [simpl in Hsamples; lia |].
  clear Hsamples.
  bind_inv H'. rename a into R, Ha into HR.
  bind_inv H'. rename a into aggregated, Ha into Hagg.
  assert (exists r R', R = r :: R' /\ length r = n) as [r [R' [-> Hr]]].
  { assert (Hrow : forall sample out,
              (Xb <- take rows sample ;; yb <- take_labels y sample ;;
               r <- f n Xb (Some yb) ;; Ok (values r)) = Ok out ->
              length out = n).
    { intros sample out Hs. bind_inv Hs. bind_inv Hs. bind_inv Hs.
      injection Hs as <-. apply (Hlen _ _ _ _ Ha1). }
    destruct (ranking_done s2).
    - cbn [mapM] in HR. bind_inv HR. bind_inv HR. injection HR as <-.
      eexists _, _. split; [reflexivity | apply (Hrow _ _ Ha)].
    - bind_inv HR. bind_inv HR. injection HR as <-.
      cbn [mapM] in Ha0. bind_inv Ha0. bind_inv Ha0. injection Ha0 as <-.
      cbn [map]. eexists _, _. split; [reflexivity |].
      rewrite rankdata_average_length, negate_unless_length.
      apply (Hrow _ _ Ha1). }
  destruct aggregation_method as [agg |]; [| discriminate Hagg].
  cbn [call_aggregation] in Hagg.
  destruct (aggregate_ranks _ _ _ _ _ Hagg) as [Hn Hnd].
  apply ranks_to_Q_NoDup in Hnd.
  destruct (ranking_index_NoDup _ _ H' Hnd) as [H1 [H2 H3]].
  rewrite ranks_to_Q_length, Hn, Hr in H2, H3. auto.
Qed.

(** C10 (amended): after a successful [fit] with an integer
    [n_selected_features = k], [1 <= k <= n_features], the support mask has
    length [n_features] and exactly [k] true entries, provided that the
    method returns one value per feature, that a user ranking function used
    directly (a callable with [ranking_done=True] and no bootstrap) returns
    pairwise different ranks, that a user scoring function used directly
    with [score_indicator_lower=False] returns a NumPy array, and that a
    bootstrapped fit draws at least one sample.  Scores, the ranks of [mrmr]
    and every built-in aggregation go through positions or ordinal
    [rankdata] and are always pairwise different; a user ranking function is
    taken as it is.  Line 429 runs [score *= -1] on what a scoring function
    returned: that negates an array, as every built-in method returns, and
    empties a list or a tuple, after which no feature is retained. *)
Theorem fit_support_mask_count (s s' : selector) (X : arg (ndarray Q))
  (y : option (arg (ndarray label))) (fuel : nat) (k : Z) (n : nat) :
  (forall g, method s = MethodCallable g -> per_feature g) ->
  (forall g, method s = MethodCallable g -> ranking_done s = true ->
             bootstrap s = false -> distinct_ranks g) ->
  (forall g, method s = MethodCallable g -> ranking_done s = false ->
             bootstrap s = false -> score_indicator_lower s = Some false ->
             returns_array g) ->
  (bootstrap s = true -> (1 <= n_bsamples s)%Z) ->
  n_selected_features s = NSelInt k ->
  fit kruskal auc_roc pearson_corr spearman_corr mi skfeature_mrmr np_exp
      np_sqrt resample s X y fuel = Ok s' ->
  n_features s' = Some n ->
  (1 <= k <= Z.of_nat n)%Z ->
  exists mask,
    _get_support_mask s' = Ok mask /\ length mask = n
    /\ count_true mask = Z.to_nat k.
Proof.
  intros Hcall Hdist Harr Hboot Hk H Hn Hbound. unfold fit in H.
  bind_inv H. destruct a as [X' y'].
  destruct X' as [| | n_cols rows |]; try discriminate H.
  bind_inv H. destruct a as [s2 f]. rename Ha0 into Hfs.
  pose proof (_get_fs_func_returned _ _ _ Hfs) as Hret.
  cbn [method set_shape] in Hret.
  apply _get_fs_func_spec in Hfs; [| exact Hcall].
  destruct Hfs as [Hlen [Eb [Enb [Ens [Eagg [Enf Hd]]]]]].
  cbn [bootstrap n_bsamples n_selected_features ranking_aggregation
       n_features set_shape method ranking_done] in Eb, Enb, Ens, Eagg, Enf, Hd.
  bind_inv H. rename a into aggregation_method.
  bind_inv H. rename a into k0.
  rewrite Ens, Hk in Ha1. injection Ha1 as <-.
  bind_inv H. rename a into ranking, Ha1 into Hranking.
  injection H as <-.
  cbn [n_features set_accepted set_n_selected_features] in Hn.
  rewrite Enf in Hn. injection Hn as <-.
  assert (NoDup ranking /\ length ranking = n_cols
          /\ Forall (fun i => (i < n_cols)%nat) ranking) as [Hnd [Hl Hf]].
  { cbn [bootstrap set_n_selected_features] in Hranking. rewrite Eb in Hranking.
    destruct (bootstrap s) eqn:Ebs.
    - apply bootstrap_ranking_distinct in Hranking; [exact Hranking | exact Hlen |].
      cbn [n_bsamples set_n_selected_features]. rewrite Enb.
      apply Hboot. reflexivity.
    - apply direct_ranking_distinct in Hranking;
        [exact Hranking | exact Hlen | |].
      + cbn [ranking_done set_n_selected_features]. intros Hrd.
        specialize (Hd Hrd). destruct (method s) as [name | g |] eqn:Em.
        * subst f. apply mrmr_distinct.
        * destruct Hd as [Hrs ->]. apply (Hdist g eq_refl Hrs eq_refl).
        * subst f. apply mrmr_distinct.
      + cbn [ranking_done score_indicator_lower set_n_selected_features].
        intros Hrd Hlow. destruct (method s) as [name | g |] eqn:Em;
          [exact Hret | | exact Hret].
        destruct Hret as [-> ->].
        cbn [ranking_done score_indicator_lower set_shape] in Hrd, Hlow.
        apply (Harr g eq_refl Hrd eq_refl Hlow). }
  rewrite slice_to_firstn by lia.
  destruct (support_mask_count n_cols (firstn (Z.to_nat k) ranking))
    as [mask [Hm [Hml Hmc]]].
  - apply NoDup_firstn. exact Hnd.
  - apply Forall_firstn. exact Hf.
  - exists mask. split; [| split].
    + unfold _get_support_mask.
      cbn [n_features accepted_features_index_ set_accepted
           set_n_selected_features].
      rewrite Enf. exact Hm.
    + exact Hml.
    + rewrite Hmc, length_firstn, Hl. lia.
Qed.

(** *** A bootstrapped fit without aggregation method *)

Lemma _check_X_Y_invalid (X : arg (ndarray Q))
  (y : option (arg (ndarray label))) (e : exn) :
  _check_X_Y X y = Raise e -> InvalidInput e.
Proof.
  unfold _check_X_Y, check_X, check_y. intros H.
  destruct X as [a | a | a |]; cbn [bind] in H;
    try (injection H as <-; exact I);
    (destruct (negb (ndim a =? 2)%nat); cbn [bind] in H;
     [injection H as <-; exact I |]);
    (destruct y as [[b | b | b |] |]; cbn [bind] in H;
     try discriminate H; try (injection H as <-; exact I));
    (destruct (negb (ndim b =? 1)%nat);
     [destruct ((ndim b =? 2)%nat && (nth 1 (shape b) 0 =? 1)%nat)%bool |];
     cbn [bind] in H; try (injection H as <-; exact I);
     destruct (length (unique b) <=? 1)%nat; cbn [bind] in H;
     try discriminate H; injection H as <-; exact I).
Qed.

Lemma builtin_known (random_state : option Z) (name : string) :
  mem name (scoring_names ++ ranking_methods) = true ->
  exists f, builtin kruskal auc_roc pearson_corr spearman_corr mi
                    skfeature_mrmr random_state name = Ok f.
Proof.
  unfold mem, builtin.
  cbn [scoring_names ranking_methods app existsb].
  repeat match goal with
         | |- context [String.eqb name ?c] =>
             destruct (String.eqb name c);
             [intros _; eexists; reflexivity |]
         end.
  intros H. discriminate H.
Qed.

(** [_get_fs_func] fails with InvalidInput only, and touches neither
    [bootstrap] nor [ranking_aggregation]. *)
Lemma _get_fs_func_outcome (s : selector) :
  match _get_fs_func kruskal auc_roc pearson_corr spearman_corr mi
                     skfeature_mrmr s with
  | Ok (s2, _) => bootstrap s2 = bootstrap s
                  /\ ranking_aggregation s2 = ranking_aggregation s
  | Raise e => InvalidInput e
  end.
Proof.
  unfold _get_fs_func. destruct (method s) as [name | g |].
  - destruct (mem (lower name) (scoring_names ++ ranking_methods)) eqn:Em;
      cbn [negb]; [| exact I].
    destruct (builtin_known (random_state s) _ Em) as [f Hf].
    destruct (mem (lower name) ranking_methods).
    + cbn [bind]. rewrite Hf. cbn [bind]. split; reflexivity.
    + destruct (mem (lower name) scoring_names); [| exact I].
      destruct (PyStr.list_index name scoring_names); [| exact I].
      cbn [bind]. rewrite Hf. cbn [bind]. split; reflexivity.
  - split; reflexivity.
  - exact I.
Qed.

(** With [bootstrap=True] and [ranking_aggregation=None], [fit] fails
    with InvalidInput, on every input. *)
Theorem fit_bootstrap_without_aggregation (s : selector)
  (X : arg (ndarray Q)) (y : option (arg (ndarray label))) (fuel : nat) :
  bootstrap s = true -> ranking_aggregation s = AggNone ->
  exists e,
    fit kruskal auc_roc pearson_corr spearman_corr mi skfeature_mrmr np_exp
        np_sqrt resample s X y fuel = Raise e
    /\ InvalidInput e.
Proof.
  intros Hb Ha. unfold fit.
  destruct (_check_X_Y X y) as [[X' y'] | e] eqn:E; cbn [bind].
  - destruct X' as [| | n_cols rows |];
      try (eexists; split; [reflexivity | exact I]).
    pose proof (_get_fs_func_outcome
                  (set_shape s (length rows) n_cols (count_classes y')))
      as Hfs.
    destruct (_get_fs_func _ _ _ _ _ _ _) as [[s2 f] | e]; cbn [bind].
    + destruct Hfs as [Eb Eagg].
      cbn [bootstrap ranking_aggregation set_shape] in Eb, Eagg.
      rewrite Eagg, Ha. cbn [bind].
      destruct (n_selected_features s2); cbn [_check_n_selected_feature bind];
        try (eexists; split; [reflexivity | exact I]);
        cbn [bootstrap set_n_selected_features]; rewrite Eb, Hb;
        unfold bootstrap_ranking;
        cbn [ranking_aggregation set_n_selected_features];
        rewrite Eagg, Ha; cbn [bind];
        eexists; (split; [reflexivity | exact I]).
    + exists e. split; [reflexivity | exact Hfs].
  - exists e. split; [reflexivity |].
    apply (_check_X_Y_invalid _ _ _ E).
Qed.

End Filter.

(** A bootstrapped [wlcx_score] selection without aggregation method
    fails at [fit]. *)
Lemma fit_bootstrap_without_aggregation_witness :
  exists e,
    Examples.fit Examples.wlcx3_no_aggregation (Seq Examples.X10)
                 (Some (Seq Examples.y2)) 0 = Raise e
    /\ InvalidInput e.
Proof.
  apply (fit_bootstrap_without_aggregation Examples.kruskal_H
           Examples.not_called Examples.not_called Examples.not_called
           (fun _ => Examples.not_called) Examples.no_mrmr (fun q => q)
           (fun q => q) Examples.identity_sample);
    reflexivity.
Defined.

(** C10, the claim as stated fails: a user ranking function returning the
    tied ranks [1, 1, 2], used directly with [n_selected_features = 2] on
    three features, gives the accepted indices [0, 0] and a mask with a
    single true entry. *)
Lemma fit_tied_ranks_one_feature :
  (s <- Examples.fit Examples.tied_selector (Seq Examples.X3)
          (Some (Seq Examples.y01)) 0 ;;
   mask <- _get_support_mask s ;;
   Ok (n_features s, accepted_features_index_ s, mask, count_true mask))
  = Ok (Some 3%nat, Some [0; 0]%nat, [true; false; false], 1%nat).
Proof. vm_compute. reflexivity. Qed.

(** C10 (amended) on the bootstrapped selection of three of the ten
    features of [X10], and on the direct selection of two of the three
    features of [X3] by a user scoring function that returns an array and
    is used with [score_indicator_lower=False]. *)
Lemma fit_support_mask_count_witness :
  (exists mask,
     _get_support_mask Examples.wlcx3_bootstrap_fitted = Ok mask
     /\ length mask = 10%nat /\ count_true mask = Z.to_nat 3)
  /\ (exists mask,
        _get_support_mask Examples.index_selector_fitted = Ok mask
        /\ length mask = 3%nat /\ count_true mask = Z.to_nat 2).
Proof.
  split.
  - apply (fit_support_mask_count Examples.kruskal_H Examples.not_called
             Examples.not_called Examples.not_called
             (fun _ => Examples.not_called) Examples.no_mrmr (fun q => q)
             (fun q => q) Examples.identity_sample)
      with (s := Examples.wlcx3_bootstrap) (X := Seq Examples.X10)
           (y := Some (Seq Examples.y2)) (fuel := 5%nat).
    + intros n rows y out H. discriminate H.
    + intros n rows y out H. discriminate H.
    + intros n rows y out H. discriminate H.
    + intros random_state n rows y out H. discriminate H.
    + intros n rows y k order H. discriminate H.
    + intros g H. discriminate H.
    + intros g H. discriminate H.
    + intros g H. discriminate H.
    + intros _. vm_compute. discriminate.
    + reflexivity.
    + vm_compute. reflexivity.
    + vm_compute. reflexivity.
    + vm_compute. split; discriminate.
  - apply (fit_support_mask_count Examples.kruskal_H Examples.not_called
             Examples.not_called Examples.not_called
             (fun _ => Examples.not_called) Examples.no_mrmr (fun q => q)
             (fun q => q) Examples.identity_sample)
      with (s := Examples.index_selector) (X := Seq Examples.X3)
           (y := Some (Seq Examples.y01)) (fuel := 0%nat).
    + intros n rows y out H. discriminate H.
    + intros n rows y out H. discriminate H.
    + intros n rows y out H. discriminate H.
    + intros random_state n rows y out H. discriminate H.
    + intros n rows y k order H. discriminate H.
    + intros g H. injection H as <-. intros n rows y out Hout.
      injection Hout as <-. cbn [values].
      rewrite length_map. apply length_seq.
    + intros g _ H. discriminate H.
    + intros g H _ _ _. injection H as <-. intros n rows y out Hout.
      injection Hout as <-. eexists. reflexivity.
    + intros H. discriminate H.
    + reflexivity.
    + vm_compute. reflexivity.
    + vm_compute. reflexivity.
    + vm_compute. split; discriminate.
Defined.

End FitFacts.

(** ** What [fit] retains *)

Module SelectionFacts.

Import PyStr Np Ranking FeatureSelection RankingFacts OrderFacts.
Open Scope string_scope.

Lemma slice_to_prefix {A : Type} (l : list A) (k : Z) :
  exists m, slice_to l k = firstn m l.
Proof. unfold slice_to. destruct (0 <=? k)%Z; eexists; reflexivity. Qed.

Lemma slice_to_length {A : Type} (l : list A) (k : Z) :
  length (slice_to l k) = slice_length (length l) k.
Proof.
  unfold slice_to, slice_length.
  destruct (0 <=? k)%Z; rewrite length_firstn; lia.
Qed.

Lemma StronglySorted_weaken {A : Type} (R R' : A -> A -> Prop) (l : list A) :
  (forall x y, R x y -> R' x y) -> StronglySorted R l -> StronglySorted R' l.
Proof.
  intros H. induction 1 as [| a l Hl IH Ha]; constructor.
  - exact IH.
  - eapply Forall_impl; [| exact Ha]. intros y Hy. apply H. exact Hy.
Qed.

Lemma nth_map_Qopp (l : list Q) (i : nat) :
  nth i (map Qopp l) 0%Q = Qopp (nth i l 0%Q).
Proof. change 0%Q with (Qopp 0) at 1. apply map_nth. Qed.

(** A duplicate-free list of [n] positions below [n] holds every one of
    them. *)
Lemma positions_complete (n : nat) (l : list nat) :
  NoDup l -> length l = n -> Forall (fun i => (i < n)%nat) l ->
  forall j, (j < n)%nat -> In j l.
Proof.
  intros Hnd Hlen Hlt j Hj.
  apply (NoDup_length_incl Hnd (l' := seq 0 n)).
  - rewrite length_seq. lia.
  - intros i Hi. rewrite Forall_forall in Hlt. apply in_seq.
    specialize (Hlt i Hi). lia.
  - apply in_seq. lia.
Qed.

(** The ranking read off ordinal ranks of [vals]. *)
Lemma ranking_of_values (vals : list Q) (ranking : list nat) :
  ranking_index (ranks_to_Q (rankdata_ordinal Qle_bool vals)) = Ok ranking ->
  StronglySorted (fun i j => (nth i vals 0 <= nth j vals 0)%Q) ranking
  /\ NoDup ranking /\ length ranking = length vals
  /\ Forall (fun i => (i < length vals)%nat) ranking.
Proof.
  intros H. split; [apply ranking_index_sorted; exact H |].
  destruct (ranking_index_NoDup _ _ H) as [H1 [H2 H3]].
  - apply ranks_to_Q_NoDup. apply rankdata_ordinal_NoDup.
  - rewrite ranks_to_Q_length, rankdata_ordinal_length in H2, H3. auto.
Qed.

(** Lines 424-431: the positions listed from the best score to the
    worst; all of them, unless line 429 emptied a list or a tuple. *)
Lemma direct_ranking_order (s2 : selector) (f : score_fn) (n : nat)
  (rows : list (list Q)) (y : option (ndarray label)) (lower : bool)
  (score : returned) (ranking : list nat) :
  ranking_done s2 = false -> score_indicator_lower s2 = Some lower ->
  f n rows y = Ok score ->
  direct_ranking s2 f n rows y = Ok ranking ->
  StronglySorted
    (fun i j =>
       if lower then (nth i (values score) 0 <= nth j (values score) 0)%Q
       else (nth j (values score) 0 <= nth i (values score) 0)%Q) ranking
  /\ NoDup ranking
  /\ (ranking = [] \/ length ranking = length (values score))
  /\ Forall (fun i => (i < length (values score))%nat) ranking.
Proof.
  intros Hrd Hl Hf H. unfold direct_ranking, lower_flag in H.
  rewrite Hrd, Hl in H. cbn [bind] in H. rewrite Hf in H. cbn [bind] in H.
  destruct lower; cbn [negb] in H.
  - destruct (ranking_of_values _ _ H) as [H1 [H2 [H3 H4]]]. auto.
  - destruct score as [v | v]; cbn [times_minus_one values] in *.
    + destruct (ranking_of_values _ _ H) as [H1 [H2 [H3 H4]]].
      rewrite length_map in H3, H4.
      split; [| auto].
      refine (StronglySorted_weaken _ _ _ _ H1).
      intros i j Hij. cbv beta in Hij.
      rewrite !nth_map_Qopp in Hij. apply Qopp_le_compat in Hij.
      rewrite !Qopp_involutive in Hij. exact Hij.
    + cbn in H. injection H as <-.
      split; [constructor |]. split; [constructor |].
      split; [left; reflexivity | constructor].
Qed.

(** Ordinal ranks are the numbers 1 to [n], each once. *)
Lemma rankdata_ordinal_perm {A : Type} (leb : A -> A -> bool) (a : list A) :
  Permutation (rankdata_ordinal leb a) (seq 1 (length a)).
Proof.
  apply NoDup_Permutation_bis.
  - apply rankdata_ordinal_NoDup.
  - rewrite rankdata_ordinal_length, length_seq. lia.
  - intros r Hr. unfold rankdata_ordinal in Hr.
    apply in_map_iff in Hr. destruct Hr as [i [<- Hi]].
    apply in_seq in Hi.
    pose proof (argsort_perm leb a) as Hp.
    assert (Hin : In i (argsort leb a)).
    { apply (Permutation_in _ (Permutation_sym Hp)). apply in_seq. lia. }
    destruct (find_index_In (Nat.eqb i) _ i Hin (Nat.eqb_refl i)) as [p Hfi].
    unfold position. rewrite Hfi.
    destruct (find_index_nth _ _ _ Hfi) as [x [Hx _]].
    assert (p < length (argsort leb a))%nat as Hlt
      by (apply nth_error_Some; congruence).
    rewrite (Permutation_length Hp), length_seq in Hlt.
    apply in_seq. lia.
Qed.

Lemma nth_rankdata_ordinal {A : Type} (leb : A -> A -> bool) (a : list A)
  (i : nat) :
  (i < length a)%nat ->
  nth i (rankdata_ordinal leb a) 0%nat = S (position i (argsort leb a)).
Proof.
  intros Hi. unfold rankdata_ordinal.
  rewrite nth_indep with (d' := S (position 0 (argsort leb a)))
    by (rewrite length_map, length_seq; exact Hi).
  rewrite (map_nth (fun i => S (position i (argsort leb a)))).
  rewrite seq_nth by exact Hi. reflexivity.
Qed.

(** Ordinal ranks follow the values: a strictly smaller value has a
    strictly smaller rank. *)
Lemma rankdata_ordinal_lt (vals : list Q) (i j : nat) :
  (i < length vals)%nat -> (j < length vals)%nat ->
  (nth i vals 0 < nth j vals 0)%Q ->
  (nth i (rankdata_ordinal Qle_bool vals) 0
   < nth j (rankdata_ordinal Qle_bool vals) 0)%nat.
Proof.
  intros Hi Hj Hlt. rewrite !nth_rankdata_ordinal by assumption.
  pose proof (argsort_perm Qle_bool vals) as Hperm.
  assert (Hini : In i (argsort Qle_bool vals)).
  { apply (Permutation_in _ (Permutation_sym Hperm)). apply in_seq. lia. }
  assert (Hinj : In j (argsort Qle_bool vals)).
  { apply (Permutation_in _ (Permutation_sym Hperm)). apply in_seq. lia. }
  destruct (Nat.lt_trichotomy (position i (argsort Qle_bool vals))
                              (position j (argsort Qle_bool vals)))
    as [H | [H | H]]; [lia | |]; exfalso.
  - apply position_inj in H; [| assumption ..]. subst j.
    apply (Qlt_irrefl _ Hlt).
  - unfold position in H.
    destruct (find_index_In (Nat.eqb i) _ i Hini (Nat.eqb_refl i)) as [p Hp].
    destruct (find_index_In (Nat.eqb j) _ j Hinj (Nat.eqb_refl j)) as [q Hq].
    rewrite Hp, Hq in H.
    destruct (find_index_nth _ _ _ Hp) as [i0 [Hi0 Ei]].
    destruct (find_index_nth _ _ _ Hq) as [j0 [Hj0 Ej]].
    apply Nat.eqb_eq in Ei. apply Nat.eqb_eq in Ej. subst i0 j0.
    pose proof (StronglySorted_nth _ _ _ (argsort_sorted vals) q p j i H
                  Hj0 Hi0) as Hle.
    cbv beta in Hle. apply (Qlt_not_le _ _ Hlt Hle).
Qed.




Lemma Forall2_nth_error {A B : Type} (R : A -> B -> Prop) (l : list A)
  (l' : list B) :
  Forall2 R l l' ->
  forall i x y, nth_error l i = Some x -> nth_error l' i = Some y -> R x y.
Proof.
  induction 1 as [| a b l l' Hab _ IH]; intros i x y Hx Hy.
  - destruct i; discriminate Hx.
  - destruct i as [| i]; simpl in Hx, Hy.
    + injection Hx as <-. injection Hy as <-. exact Hab.
    + apply (IH i); assumption.
Qed.

Section Filter.

Variable kruskal : list (list Q) -> result (Q * Q).
Variables auc_roc pearson_corr spearman_corr : array_fn.
Variable mi : option Z -> array_fn.
Variable skfeature_mrmr :
  nat -> list (list Q) -> option (ndarray label) -> nat -> result (list nat).
Variables np_exp np_sqrt : Q -> Q.
Variable resample : nat -> nat -> list nat.

Local Abbreviation resolve s :=
  (_get_fs_func kruskal auc_roc pearson_corr spearman_corr mi skfeature_mrmr s).
Local Abbreviation run_fit s X y fuel :=
  (fit kruskal auc_roc pearson_corr spearman_corr mi skfeature_mrmr np_exp
       np_sqrt resample s X y fuel).

(** Without bootstrap and with a scoring method (built-in or a user's with
    [ranking_done=False]), the features [fit] retains are the best scored:
    no feature left out has a strictly better score than a retained one,
    better meaning lower when [score_indicator_lower] holds and higher
    otherwise; the retained positions are pairwise different columns.
    The scores compared are the values the method returned, in an array,
    a list or a tuple. *)
Theorem fit_keeps_best_scores (s s' s2 : selector) (f : score_fn)
  (X : arg (ndarray Q)) (y : option (arg (ndarray label))) (fuel n : nat)
  (rows : list (list Q)) (y' : option (ndarray label)) (lower : bool)
  (score : returned) (idx : list nat) :
  bootstrap s = false ->
  _check_X_Y X y = Ok (Mat n rows, y') ->
  resolve (set_shape s (length rows) n (count_classes y')) = Ok (s2, f) ->
  ranking_done s2 = false -> score_indicator_lower s2 = Some lower ->
  f n rows y' = Ok score ->
  run_fit s X y fuel = Ok s' ->
  accepted_features_index_ s' = Some idx ->
  NoDup idx
  /\ forall i, In i idx ->
       (i < length (values score))%nat
       /\ forall j, (j < length (values score))%nat -> ~ In j idx ->
            if lower
            then (nth i (values score) 0 <= nth j (values score) 0)%Q
            else (nth j (values score) 0 <= nth i (values score) 0)%Q.
Proof.
  intros Hb Hc Hfs Hrd Hl Hf Hfit Hidx. unfold fit in Hfit.
  rewrite Hc in Hfit. cbn [bind] in Hfit. rewrite Hfs in Hfit.
  cbn [bind] in Hfit.
  pose proof (FitFacts._get_fs_func_outcome kruskal auc_roc pearson_corr
                spearman_corr mi skfeature_mrmr
                (set_shape s (length rows) n (count_classes y'))) as Ho.
  rewrite Hfs in Ho. destruct Ho as [Eb _]. cbn [bootstrap set_shape] in Eb.
  bind_inv Hfit. rename a into aggregation_method, Ha into Hagg.
  bind_inv Hfit. rename a into k, Ha into Hk.
  bind_inv Hfit. rename a into ranking, Ha into Hranking.
  injection Hfit as <-.
  cbn [accepted_features_index_ set_accepted] in Hidx. injection Hidx as <-.
  cbn [bootstrap set_n_selected_features] in Hranking.
  rewrite Eb, Hb in Hranking.
  apply (direct_ranking_order _ _ _ _ _ lower score) in Hranking;
    [| exact Hrd | exact Hl | exact Hf].
  destruct Hranking as [Hs [Hnd [Hlen Hlt]]].
  destruct (slice_to_prefix ranking k) as [m ->].
  split; [apply NoDup_firstn; exact Hnd |].
  intros i Hi. split.
  - pose proof (Forall_firstn _ m _ Hlt) as Hlt'.
    rewrite Forall_forall in Hlt'. apply Hlt'. exact Hi.
  - intros j Hj Hnj.
    destruct Hlen as [-> | Hlen];
      [rewrite firstn_nil in Hi; destruct Hi |].
    pose proof (positions_complete _ _ Hnd Hlen Hlt j Hj) as Hin.
    rewrite <- (firstn_skipn m ranking) in Hin, Hs.
    apply in_app_or in Hin. destruct Hin as [Hin | Hin]; [contradiction |].
    apply (StronglySorted_app _ _ _ _ Hs i j Hi Hin).
Qed.

(** [_get_fs_func] tests the lower-cased name against the catalogue but
    looks the direction of the score up with the name as given
    ([.index(self.method)], line 196): once the lower-cased name is in the
    catalogue, the method resolves exactly when it is ['mrmr'] in any
    letter-casing, or a scoring method spelled in lower case. *)
Theorem _get_fs_func_letter_case (s : selector) (name : string) :
  method s = MethodName name ->
  mem (lower name) (scoring_names ++ ranking_methods) = true ->
  is_ok (resolve s)
  = (String.eqb (lower name) "mrmr" || mem name scoring_names)%bool.
Proof.
  intros Hm Hmem. unfold _get_fs_func. rewrite Hm, Hmem. cbn [negb].
  destruct (FitFacts.builtin_known kruskal auc_roc pearson_corr spearman_corr
              mi skfeature_mrmr (random_state s) _ Hmem) as [f Hf].
  rewrite Hf.
  assert (Hr : mem (lower name) ranking_methods
               = String.eqb (lower name) "mrmr").
  { unfold mem, ranking_methods. cbn [existsb].
    apply orb_false_r. }
  rewrite Hr. destruct (String.eqb (lower name) "mrmr") eqn:E; [reflexivity |].
  assert (Hs : mem (lower name) scoring_names = true).
  { unfold mem in *. rewrite existsb_app in Hmem.
    apply orb_prop in Hmem. destruct Hmem as [H | H]; [exact H |].
    rewrite Hr in H. congruence. }
  rewrite Hs. cbn [orb].
  assert (Hi : forall l, PyStr.list_index name l = None <-> mem name l = false).
  { unfold mem. induction l as [| x l IH]; cbn [PyStr.list_index existsb].
    - split; reflexivity.
    - rewrite (String.eqb_sym name x).
      destruct (String.eqb x name); cbn [orb].
      + split; discriminate.
      + rewrite <- IH. destruct (PyStr.list_index name l); cbn [option_map];
          split; congruence. }
  destruct (PyStr.list_index name scoring_names) as [i |] eqn:Ei.
  - destruct (mem name scoring_names) eqn:Em; [reflexivity |].
    apply Hi in Em. congruence.
  - apply Hi in Ei. rewrite Ei. reflexivity.
Qed.

(** A callable [ranking_aggregation] is accepted by
    [_get_aggregation_method], which returns nothing for it (lines 205-215),
    and line 417 then calls [None]: a bootstrapped [fit] configured with a
    callable aggregation never succeeds. *)
Theorem fit_callable_aggregation_fails (s : selector) (X : arg (ndarray Q))
  (y : option (arg (ndarray label))) (fuel : nat) :
  bootstrap s = true -> ranking_aggregation s = AggCallable ->
  is_ok (run_fit s X y fuel) = false.
Proof.
  intros Hb Ha.
  destruct (fit _ _ _ _ _ _ _ _ _ s X y fuel) as [s' | e] eqn:Hfit;
    [exfalso | reflexivity].
  unfold fit in Hfit. bind_inv Hfit. destruct a as [X' y'].
  destruct X' as [| | n rows |]; try discriminate Hfit.
  bind_inv Hfit. destruct a as [s2 f]. rename Ha1 into Hfs.
  pose proof (FitFacts._get_fs_func_outcome kruskal auc_roc pearson_corr
                spearman_corr mi skfeature_mrmr
                (set_shape s (length rows) n (count_classes y'))) as Ho.
  rewrite Hfs in Ho. destruct Ho as [Eb Eagg].
  cbn [bootstrap ranking_aggregation set_shape] in Eb, Eagg.
  rewrite Eagg, Ha in Hfit. unfold _get_aggregation_method in Hfit.
  rewrite Eagg, Ha in Hfit. cbn [bind] in Hfit.
  bind_inv Hfit. rename a into k.
  bind_inv Hfit. rename a into ranking, Ha2 into Hranking.
  cbn [bootstrap set_n_selected_features] in Hranking.
  rewrite Eb, Hb in Hranking. unfold bootstrap_ranking in Hranking.
  cbn [ranking_aggregation set_n_selected_features] in Hranking.
  rewrite Eagg, Ha in Hranking.
  bind_inv Hranking. bind_inv Hranking. bind_inv Hranking.
  discriminate Ha4.
Qed.

(** [check_y] returns the array it was given: the [y.reshape(-1)] of line
    45 is dropped. *)
Lemma check_y_2d (ya : arg (ndarray label)) (c : nat)
  (yrows : list (list label)) :
  check_y ya = Ok (Mat c yrows) ->
  c = 1%nat /\ (2 <= length (unique (Mat c yrows)))%nat
  /\ (ya = Seq (Mat c yrows) \/ ya = Pandas (Mat c yrows)).
Proof.
  unfold check_y. intros H. bind_inv H. bind_inv H.
  destruct (Nat.leb_spec (length (unique a)) 1); [discriminate H |].
  injection H as ->.
  cbn [ndim shape length Nat.eqb negb andb nth] in Ha0.
  destruct (Nat.eqb_spec c 1); [| discriminate Ha0].
  split; [assumption |]. split; [lia |].
  destruct ya; inversion Ha; auto.
Qed.

(** Labels given as a column vector (shape [(n_samples, 1)]) pass
    [_check_X_Y], which computes their flattening and drops it; the
    Kruskal-Wallis scoring then indexes a feature column with a 2-d mask
    ([X[:, i][y == _]], line 252): without bootstrap, [fit] with
    ['wlcx_score'] raises [IndexError] on every such input with at least one
    feature. *)
Theorem fit_wlcx_column_labels (s : selector) (X : arg (ndarray Q))
  (ya : arg (ndarray label)) (fuel n c : nat) (rows : list (list Q))
  (yrows : list (list label)) :
  method s = MethodName "wlcx_score" -> bootstrap s = false ->
  ranking_aggregation s = AggNone -> n_selected_features s <> NSelOther ->
  check_X X = Ok (Mat (S n) rows) ->
  check_y ya = Ok (Mat c yrows) ->
  run_fit s X (Some ya) fuel = Raise (IndexError "too many indices for array").
Proof.
  intros Hm Hb Hagg Hk HX Hy.
  destruct (check_y_2d _ _ _ Hy) as [_ [Hu _]].
  unfold fit, _check_X_Y. rewrite HX. cbn [bind]. rewrite Hy. cbn [bind].
  assert (Hfs : resolve (set_shape s (length rows) (S n)
                           (count_classes (Some (Mat c yrows))))
                = Ok (set_ranking
                        (set_shape s (length rows) (S n)
                           (count_classes (Some (Mat c yrows))))
                        false (Some false), wlcx_score kruskal)).
  { unfold _get_fs_func. cbn [method set_shape]. rewrite Hm. reflexivity. }
  rewrite Hfs. cbn [bind ranking_aggregation set_ranking set_shape].
  rewrite Hagg. cbn [bind n_selected_features set_ranking set_shape].
  destruct (n_selected_features s) as [| k |]; [| | contradiction];
    cbn [_check_n_selected_feature bind bootstrap set_n_selected_features
         set_ranking set_shape];
    rewrite Hb; unfold direct_ranking, lower_flag;
    cbn [ranking_done score_indicator_lower set_n_selected_features
         set_ranking set_shape bind];
    unfold wlcx_score; cbn [seq mapM];
    (destruct (unique (Mat c yrows)) as [| l ls];
     [simpl in Hu; lia | reflexivity]).
Qed.

(** [_get_bsamples_index]: when the loop ends within [fuel] draws it has
    kept exactly [n_bsamples] samples (none when that number is not
    positive), each one the draw of a seed below the number of draws made,
    on which every class is present. *)
Theorem _get_bsamples_index_samples (s : selector)
  (y : option (ndarray label)) (samples classes fuel : nat)
  (bsamples_index : list (list nat)) :
  _get_bsamples_index resample s y samples classes fuel = Ok bsamples_index ->
  Z.of_nat (length bsamples_index) = Z.max 0 (n_bsamples s)
  /\ Forall (fun sample =>
               exists seed drawn,
                 (seed < fuel)%nat /\ sample = resample samples seed
                 /\ take_labels y sample = Ok drawn
                 /\ length (unique drawn) = classes) bsamples_index.
Proof.
  unfold _get_bsamples_index.
  set (kept := fun bound sample =>
         exists seed drawn,
           (seed < bound)%nat /\ sample = resample samples seed
           /\ take_labels y sample = Ok drawn
           /\ length (unique drawn) = classes).
  assert (Hmono : forall b b' l, (b <= b')%nat ->
                    Forall (kept b) l -> Forall (kept b') l).
  { intros b b' l Hbb. apply Forall_impl.
    intros sample [seed [drawn [Hs H]]]. exists seed, drawn.
    split; [lia | exact H]. }
  assert (Hloop : forall fuel n acc out,
            bsamples_loop resample s y samples classes fuel n acc = Ok out ->
            (Z.of_nat (length acc) <= Z.max 0 (n_bsamples s))%Z ->
            Forall (kept n) acc ->
            Z.of_nat (length out) = Z.max 0 (n_bsamples s)
            /\ Forall (kept (n + fuel)%nat) out).
  { clear fuel bsamples_index.
    induction fuel as [| fuel IH]; intros n acc out H Hle Hacc;
      cbn [bsamples_loop] in H;
      destruct (Z.ltb_spec (Z.of_nat (length acc)) (n_bsamples s)) as [Hlt | Hge];
      try discriminate H;
      try (injection H as <-; split;
           [lia | apply (Hmono n); [lia | exact Hacc]]).
    bind_inv H. rename a into drawn, Ha into Hdrawn.
    destruct (Nat.eqb_spec (length (unique drawn)) classes) as [Hc | Hc];
      apply IH in H.
    - replace (n + S fuel)%nat with (n + 1 + fuel)%nat by lia. exact H.
    - rewrite length_app. cbn [length]. lia.
    - apply Forall_app. split.
      + apply (Hmono n); [lia | exact Hacc].
      + constructor; [| constructor]. exists n, drawn.
        split; [lia |]. auto.
    - replace (n + S fuel)%nat with (n + 1 + fuel)%nat by lia. exact H.
    - exact Hle.
    - apply (Hmono n); [lia | exact Hacc]. }
  intros H. apply Hloop in H; [exact H | cbn [length]; lia | constructor].
Qed.

(** Each of the six built-in aggregation methods, applied to at least one
    bootstrap ranking, returns every rank from 1 to the number of features
    exactly once, whatever ties the bootstrap rankings contain. *)
Theorem aggregate_permutation (a : aggregator) (r : list Q)
  (R : list (list Q)) (k : Z) (ranks : list nat) :
  aggregate np_exp np_sqrt a (r :: R) k = Ok ranks ->
  Permutation ranks (seq 1 (length r)).
Proof.
  intros H.
  assert (Hp : forall (A : Type) (leb : A -> A -> bool) (vals : list A),
            length vals = length r ->
            Permutation (rankdata_ordinal leb vals) (seq 1 (length r))).
  { intros A leb vals <-. apply rankdata_ordinal_perm. }
  assert (Hb : forall b, borda_count (r :: R) = Ok b -> length b = length r)
    by apply FitFacts.borda_count_length.
  pose proof (FitFacts.stability_count_length r R k) as Hs.
  destruct a; cbn [aggregate] in H;
    try (bind_inv H; apply Hb in Ha);
    injection H as <-; apply Hp;
    rewrite ?length_map, ?length_combine, ?length_map, ?Hs,
      ?FitFacts.sum_axis0_length, ?length_seq, ?length_map, ?Nat.min_id;
    try assumption; try reflexivity.
  rewrite Ha. apply Nat.min_id.
Qed.


(** [stability_selection_aggregation] orders the features by the number of
    bootstrap rankings that place them within the first
    [n_selected_features]: a feature counted strictly more often gets the
    strictly better aggregated rank. *)
Theorem aggregate_stability_order (r : list Q) (R : list (list Q)) (k : Z)
  (ranks : list nat) (i j : nat) :
  aggregate np_exp np_sqrt StabilitySelection (r :: R) k = Ok ranks ->
  (i < length r)%nat -> (j < length r)%nat ->
  (nth j (stability_count (r :: R) k) 0
   < nth i (stability_count (r :: R) k) 0)%Q ->
  (nth i ranks 0 < nth j ranks 0)%nat.
Proof.
  intros H Hi Hj Hlt. cbn [aggregate] in H. injection H as <-.
  apply rankdata_ordinal_lt;
    rewrite ?length_map, ?FitFacts.stability_count_length; try assumption.
  rewrite !nth_map_Qopp. apply Qopp_lt_compat. exact Hlt.
Qed.

(** [mrmr] turns the ordering of the external routine into ranks: when
    the ordering is a permutation of the feature indices, the feature at
    position [p] of the ordering gets the rank [p + 1]. *)
Theorem mrmr_inverts_ordering (n : nat) (rows : list (list Q))
  (y : option (ndarray label)) (order : list nat) :
  skfeature_mrmr n rows y n = Ok order ->
  Permutation order (seq 0 (length order)) ->
  exists ranks,
    mrmr skfeature_mrmr n rows y = Ok (Array ranks)
    /\ length ranks = length order
    /\ forall p i, nth_error order p = Some i ->
         nth_error ranks i = Some (Qofnat (p + 1)).
Proof.
  intros Ho Hperm. unfold mrmr. rewrite Ho. cbn [bind].
  assert (Hnd : NoDup order).
  { apply (Permutation_NoDup (Permutation_sym Hperm)). apply seq_NoDup. }
  set (rank := fun i => match find_index (Nat.eqb i) order with
                        | Some p => Ok (Qofnat (p + 1))
                        | None => Raise (ValueError "value is not in list")
                        end).
  assert (Hrank : forall p i, nth_error order p = Some i ->
                    rank i = Ok (Qofnat (p + 1))).
  { intros p i Hp. unfold rank.
    destruct (find_index_In (Nat.eqb i) order i (nth_error_In _ _ Hp)
                (Nat.eqb_refl i)) as [q Hq].
    rewrite Hq. destruct (find_index_nth _ _ _ Hq) as [x [Hx Ex]].
    apply Nat.eqb_eq in Ex. subst x.
    assert (q = p); [| subst q; reflexivity].
    apply (proj1 (NoDup_nth_error order) Hnd q p);
      [apply nth_error_Some | ]; congruence. }
  assert (Hall : forall l, (forall i, In i l -> In i order) ->
            exists out, mapM rank l = Ok out
              /\ Forall2 (fun i r => rank i = Ok r) l out).
  { induction l as [| i l IH]; intros Hl.
    - exists []. split; [reflexivity | constructor].
    - destruct IH as [out [Hout HF]]; [intros j Hj; apply Hl; right; exact Hj |].
      destruct (In_nth_error order i (Hl i (or_introl eq_refl))) as [p Hp].
      pose proof (Hrank p i Hp) as Hr.
      exists (Qofnat (p + 1) :: out). split.
      + cbn [mapM]. rewrite Hr. cbn [bind]. rewrite Hout. reflexivity.
      + constructor; assumption. }
  destruct (Hall (seq 0 (length order))) as [ranks [Hranks HF]].
  { intros i Hi. apply (Permutation_in _ (Permutation_sym Hperm)). exact Hi. }
  exists ranks. split; [rewrite Hranks; reflexivity |].
  pose proof (Forall2_length HF) as Hlen. rewrite length_seq in Hlen.
  split; [symmetry; exact Hlen |].
  intros p i Hp.
  assert (Hi : (i < length order)%nat).
  { pose proof (Permutation_in _ Hperm (nth_error_In _ _ Hp)) as Hin.
    apply in_seq in Hin. lia. }
  destruct (nth_error ranks i) as [r |] eqn:Er.
  - assert (Hsi : nth_error (seq 0 (length order)) i = Some i).
    { rewrite nth_error_nth' with (d := 0%nat) by (rewrite length_seq; exact Hi).
      rewrite seq_nth by exact Hi. reflexivity. }
    pose proof (Forall2_nth_error _ _ _ HF _ _ _ Hsi Er) as Hri.
    cbv beta in Hri. rewrite (Hrank p i Hp) in Hri. congruence.
  - apply nth_error_None in Er. lia.
Qed.

(** A user scoring function that returns a Python list or tuple, used
    without bootstrap and with [score_indicator_lower=False]: line 429 runs
    [score *= -1], which leaves the list empty, so that a [fit] that returns
    has retained no feature, whatever [n_selected_features] asks for, and
    its support mask has no true entry. *)
Theorem fit_sequence_scores_retain_nothing (s s' : selector) (g : score_fn)
  (X : arg (ndarray Q)) (y : option (arg (ndarray label))) (fuel n : nat)
  (rows : list (list Q)) (y' : option (ndarray label)) (v : list Q) :
  method s = MethodCallable g -> bootstrap s = false ->
  ranking_done s = false -> score_indicator_lower s = Some false ->
  _check_X_Y X y = Ok (Mat n rows, y') ->
  g n rows y' = Ok (Sequence v) ->
  run_fit s X y fuel = Ok s' ->
  accepted_features_index_ s' = Some []
  /\ exists mask, _get_support_mask s' = Ok mask /\ length mask = n
                  /\ count_true mask = 0%nat.
Proof.
  intros Hm Hb Hrd Hl Hc Hg Hfit. unfold fit in Hfit.
  rewrite Hc in Hfit. cbn [bind] in Hfit.
  unfold _get_fs_func in Hfit. cbn [method set_shape] in Hfit.
  rewrite Hm in Hfit. cbn [bind] in Hfit.
  bind_inv Hfit. rename a into aggregation_method.
  bind_inv Hfit. rename a into k.
  bind_inv Hfit. rename a into ranking, Ha1 into Hranking.
  injection Hfit as <-.
  cbn [bootstrap set_n_selected_features set_shape] in Hranking.
  rewrite Hb in Hranking. unfold direct_ranking, lower_flag in Hranking.
  cbn [ranking_done score_indicator_lower set_n_selected_features set_shape]
    in Hranking.
  rewrite Hrd, Hl in Hranking. cbn [bind] in Hranking.
  rewrite Hg in Hranking. cbn in Hranking. injection Hranking as <-.
  assert (Hslice : slice_to (@nil nat) k = []).
  { destruct (slice_to_prefix (@nil nat) k) as [m ->]. apply firstn_nil. }
  cbn [accepted_features_index_ set_accepted]. rewrite Hslice.
  split; [reflexivity |].
  destruct (support_mask_count n []) as [mask [Hmask [Hlen Hcount]]];
    [constructor | constructor |].
  exists mask. split; [| split; [exact Hlen | exact Hcount]].
  unfold _get_support_mask.
  cbn [n_features accepted_features_index_ set_accepted
       set_n_selected_features set_shape].
  exact Hmask.
Qed.

(** The external scorers return one score per feature, and the mRMR
    routine an ordering of the requested size. *)
Hypothesis auc_roc_scores : per_feature (as_array auc_roc).
Hypothesis pearson_corr_scores : per_feature (as_array pearson_corr).
Hypothesis spearman_corr_scores : per_feature (as_array spearman_corr).
Hypothesis mi_scores :
  forall random_state, per_feature (as_array (mi random_state)).
Hypothesis mrmr_ordering :
  forall n rows y k order,
    skfeature_mrmr n rows y k = Ok order -> length order = k.

(** After a successful [fit], [n_selected_features] holds an integer [k]:
    the one given, or the number of columns when [None] was given; the
    support mask has one entry per column and as many true entries as the
    slice [ranking_index[:k]] has elements: all the columns when [k] is
    [None] or exceeds their number, none when [k = 0], and all but the last
    [-k] when [k] is negative.  The conditions are those under which the
    ranking is a permutation of the columns: one value per feature,
    pairwise different ranks from a user ranking function used directly, a
    NumPy array from a user scoring function used directly with
    [score_indicator_lower=False] (line 429 empties a list or a tuple), and
    at least one sample in a bootstrapped fit. *)
Theorem fit_support_mask_slice (s s' : selector) (X : arg (ndarray Q))
  (y : option (arg (ndarray label))) (fuel : nat) (n : nat) :
  (forall g, method s = MethodCallable g -> per_feature g) ->
  (forall g, method s = MethodCallable g -> ranking_done s = true ->
             bootstrap s = false -> distinct_ranks g) ->
  (forall g, method s = MethodCallable g -> ranking_done s = false ->
             bootstrap s = false -> score_indicator_lower s = Some false ->
             returns_array g) ->
  (bootstrap s = true -> (1 <= n_bsamples s)%Z) ->
  run_fit s X y fuel = Ok s' ->
  n_features s' = Some n ->
  exists k mask,
    n_selected_features s' = NSelInt k
    /\ k = match n_selected_features s with
           | NSelInt k0 => k0
           | _ => Z.of_nat n
           end
    /\ _get_support_mask s' = Ok mask /\ length mask = n
    /\ count_true mask = slice_length n k.
Proof.
  intros Hcall Hdist Harr Hboot H Hn. unfold fit in H.
  bind_inv H. destruct a as [X' y'].
  destruct X' as [| | n_cols rows |]; try discriminate H.
  bind_inv H. destruct a as [s2 f]. rename Ha0 into Hfs.
  pose proof (FitFacts._get_fs_func_returned kruskal auc_roc pearson_corr
                spearman_corr mi skfeature_mrmr _ _ _ Hfs) as Hret.
  cbn [method set_shape] in Hret.
  apply (FitFacts._get_fs_func_spec kruskal auc_roc pearson_corr spearman_corr
           mi skfeature_mrmr auc_roc_scores pearson_corr_scores
           spearman_corr_scores mi_scores mrmr_ordering) in Hfs;
    [| exact Hcall].
  destruct Hfs as [Hlen [Eb [Enb [Ens [Eagg [Enf Hd]]]]]].
  cbn [bootstrap n_bsamples n_selected_features ranking_aggregation
       n_features set_shape method ranking_done] in Eb, Enb, Ens, Eagg, Enf, Hd.
  bind_inv H. rename a into aggregation_method.
  bind_inv H. rename a into k, Ha1 into Hk.
  bind_inv H. rename a into ranking, Ha1 into Hranking.
  injection H as <-.
  cbn [n_features set_accepted set_n_selected_features] in Hn.
  rewrite Enf in Hn. injection Hn as <-.
  assert (NoDup ranking /\ length ranking = n_cols
          /\ Forall (fun i => (i < n_cols)%nat) ranking) as [Hnd [Hl Hf]].
  { cbn [bootstrap set_n_selected_features] in Hranking. rewrite Eb in Hranking.
    destruct (bootstrap s) eqn:Ebs.
    - apply (FitFacts.bootstrap_ranking_distinct np_exp np_sqrt resample)
        in Hranking; [exact Hranking | exact Hlen |].
      cbn [n_bsamples set_n_selected_features]. rewrite Enb.
      apply Hboot. reflexivity.
    - apply FitFacts.direct_ranking_distinct in Hranking;
        [exact Hranking | exact Hlen | |].
      + cbn [ranking_done set_n_selected_features]. intros Hrd.
        specialize (Hd Hrd). destruct (method s) as [name | g |] eqn:Em.
        * subst f. apply FitFacts.mrmr_distinct.
        * destruct Hd as [Hrs ->]. apply (Hdist g eq_refl Hrs eq_refl).
        * subst f. apply FitFacts.mrmr_distinct.
      + cbn [ranking_done score_indicator_lower set_n_selected_features].
        intros Hrd Hlow. destruct (method s) as [name | g |] eqn:Em;
          [exact Hret | | exact Hret].
        destruct Hret as [-> ->].
        cbn [ranking_done score_indicator_lower set_shape] in Hrd, Hlow.
        apply (Harr g eq_refl Hrd eq_refl Hlow). }
  destruct (slice_to_prefix ranking k) as [m Hm].
  destruct (support_mask_count n_cols (slice_to ranking k))
    as [mask [Hmask [Hml Hmc]]].
  - rewrite Hm. apply NoDup_firstn. exact Hnd.
  - rewrite Hm. apply Forall_firstn. exact Hf.
  - exists k, mask. split; [reflexivity |]. split; [| split; [| split]].
    + rewrite Ens in Hk. unfold _check_n_selected_feature in Hk.
      destruct (n_selected_features s); inversion Hk; reflexivity.
    + unfold _get_support_mask.
      cbn [n_features accepted_features_index_ set_accepted
           set_n_selected_features].
      rewrite Enf. exact Hmask.
    + exact Hml.
    + rewrite Hmc, slice_to_length, Hl. reflexivity.
Qed.

End Filter.

(** The three features retained on [X10] are the three with the highest
    statistic, [27 # 7]. *)
Lemma fit_keeps_best_scores_witness :
  NoDup [2; 5; 7]%nat
  /\ forall i, In i [2; 5; 7]%nat ->
       (i < length Examples.X10_scores)%nat
       /\ forall j, (j < length Examples.X10_scores)%nat ->
            ~ In j [2; 5; 7]%nat ->
            (nth j Examples.X10_scores 0 <= nth i Examples.X10_scores 0)%Q.
Proof.
  apply (fit_keeps_best_scores Examples.kruskal_H Examples.not_called
           Examples.not_called Examples.not_called
           (fun _ => Examples.not_called) Examples.no_mrmr (fun q => q)
           (fun q => q) Examples.identity_sample
           Examples.wlcx3 Examples.wlcx3_fitted
           (set_ranking (set_shape Examples.wlcx3 6 10 2) false (Some false))
           (wlcx_score Examples.kruskal_H)
           (Seq Examples.X10) (Some (Seq Examples.y2)) 0%nat 10%nat
           (match Examples.X10 with Mat _ rows => rows | _ => [] end)
           (Some Examples.y2) false (Array Examples.X10_scores)
           [2; 5; 7]%nat);
    try reflexivity; vm_compute; reflexivity.
Defined.

(** ['WLCX_SCORE'] does not resolve. *)
Lemma _get_fs_func_letter_case_witness :
  is_ok (_get_fs_func Examples.kruskal_H Examples.not_called
           Examples.not_called Examples.not_called
           (fun _ => Examples.not_called) Examples.no_mrmr
           Examples.wlcx3_upper) = false.
Proof.
  exact (_get_fs_func_letter_case Examples.kruskal_H Examples.not_called
           Examples.not_called Examples.not_called
           (fun _ => Examples.not_called) Examples.no_mrmr
           Examples.wlcx3_upper "WLCX_SCORE" eq_refl eq_refl).
Defined.

Lemma fit_callable_aggregation_fails_witness :
  is_ok (Examples.fit Examples.wlcx3_callable_aggregation (Seq Examples.X10)
           (Some (Seq Examples.y2)) 5) = false.
Proof.
  apply (fit_callable_aggregation_fails Examples.kruskal_H Examples.not_called
           Examples.not_called Examples.not_called
           (fun _ => Examples.not_called) Examples.no_mrmr (fun q => q)
           (fun q => q) Examples.identity_sample);
    reflexivity.
Defined.

Lemma fit_wlcx_column_labels_witness :
  Examples.fit Examples.wlcx3 (Seq Examples.X10)
               (Some (Seq Examples.y2_column)) 0
  = Raise (IndexError "too many indices for array").
Proof.
  apply (fit_wlcx_column_labels Examples.kruskal_H Examples.not_called
           Examples.not_called Examples.not_called
           (fun _ => Examples.not_called) Examples.no_mrmr (fun q => q)
           (fun q => q) Examples.identity_sample
           Examples.wlcx3 (Seq Examples.X10) (Seq Examples.y2_column)
           0%nat 9%nat 1%nat
           (match Examples.X10 with Mat _ rows => rows | _ => [] end)
           (match Examples.y2_column with Mat _ rows => rows | _ => [] end));
    try reflexivity.
  discriminate.
Defined.

Lemma _get_bsamples_index_samples_witness :
  Z.of_nat (length [seq 0 6; seq 0 6]) = Z.max 0 2
  /\ Forall (fun sample =>
               exists seed drawn,
                 (seed < 5)%nat /\ sample = Examples.identity_sample 6 seed
                 /\ take_labels (Some Examples.y2) sample = Ok drawn
                 /\ length (unique drawn) = 2%nat) [seq 0 6; seq 0 6].
Proof.
  apply (_get_bsamples_index_samples Examples.identity_sample
           Examples.wlcx3_bootstrap (Some Examples.y2) 6 2 5
           [seq 0 6; seq 0 6]).
  reflexivity.
Defined.

Lemma aggregate_permutation_witness :
  Permutation [2; 1; 3]%nat (seq 1 (length [1; 2; 3]%Q)).
Proof.
  apply (aggregate_permutation (fun q => q) (fun q => q) StabilitySelection
           [1; 2; 3]%Q [[3; 1; 2]%Q] 2 [2; 1; 3]%nat).
  vm_compute. reflexivity.
Defined.


Lemma aggregate_stability_order_witness :
  (nth 1 [2; 1; 3]%nat 0 < nth 0 [2; 1; 3]%nat 0)%nat.
Proof.
  apply (aggregate_stability_order (fun q => q) (fun q => q)
           [1; 2; 3]%Q [[3; 1; 2]%Q] 2 [2; 1; 3]%nat 1%nat 0%nat).
  - vm_compute. reflexivity.
  - simpl. lia.
  - simpl. lia.
  - vm_compute. reflexivity.
Defined.

Lemma mrmr_inverts_ordering_witness :
  exists ranks,
    mrmr Examples.mrmr_201 3%nat [] None = Ok (Array ranks)
    /\ length ranks = 3%nat
    /\ forall p i, nth_error [2; 0; 1]%nat p = Some i ->
         nth_error ranks i = Some (Qofnat (p + 1)).
Proof.
  apply (mrmr_inverts_ordering Examples.mrmr_201 3%nat [] None [2; 0; 1]%nat).
  - reflexivity.
  - apply perm_trans with (l' := [0; 2; 1]%nat);
      [apply perm_swap | apply perm_skip; apply perm_swap].
Defined.

(** Three scores in a list, two features asked for: none is retained. *)
Lemma fit_sequence_scores_retain_nothing_witness :
  accepted_features_index_
    (Examples.fitted_or Examples.list_selector
       (Examples.fit Examples.list_selector (Seq Examples.X3)
          (Some (Seq Examples.y01)) 0)) = Some []
  /\ exists mask,
       _get_support_mask
         (Examples.fitted_or Examples.list_selector
            (Examples.fit Examples.list_selector (Seq Examples.X3)
               (Some (Seq Examples.y01)) 0)) = Ok mask
       /\ length mask = 3%nat /\ count_true mask = 0%nat.
Proof.
  apply (fit_sequence_scores_retain_nothing Examples.kruskal_H
           Examples.not_called Examples.not_called Examples.not_called
           (fun _ => Examples.not_called) Examples.no_mrmr (fun q => q)
           (fun q => q) Examples.identity_sample
           Examples.list_selector _ Examples.list_scores (Seq Examples.X3)
           (Some (Seq Examples.y01)) 0%nat 3%nat
           (match Examples.X3 with Mat _ rows => rows | _ => [] end)
           (Some Examples.y01) [3; 1; 2]%Q);
    reflexivity.
Defined.

(** With [n_selected_features = -4] on ten features, six are retained;
    with a user scoring function that returns an array and is used with
    [score_indicator_lower=False], two of three. *)
Lemma fit_support_mask_slice_witness :
  (exists k mask,
     n_selected_features Examples.wlcx_minus4_fitted = NSelInt k
     /\ k = (-4)%Z
     /\ _get_support_mask Examples.wlcx_minus4_fitted = Ok mask
     /\ length mask = 10%nat
     /\ count_true mask = slice_length 10 k)
  /\ (exists k mask,
        n_selected_features Examples.index_selector_fitted = NSelInt k
        /\ k = 2%Z
        /\ _get_support_mask Examples.index_selector_fitted = Ok mask
        /\ length mask = 3%nat
        /\ count_true mask = slice_length 3 k).
Proof.
  split.
  - apply (fit_support_mask_slice Examples.kruskal_H Examples.not_called
             Examples.not_called Examples.not_called
             (fun _ => Examples.not_called) Examples.no_mrmr (fun q => q)
             (fun q => q) Examples.identity_sample)
      with (s := Examples.wlcx_minus4) (X := Seq Examples.X10)
           (y := Some (Seq Examples.y2)) (fuel := 0%nat).
    + intros n rows y out H. discriminate H.
    + intros n rows y out H. discriminate H.
    + intros n rows y out H. discriminate H.
    + intros random_state n rows y out H. discriminate H.
    + intros n rows y k order H. discriminate H.
    + intros g H. discriminate H.
    + intros g H. discriminate H.
    + intros g H. discriminate H.
    + intros H. discriminate H.
    + vm_compute. reflexivity.
    + vm_compute. reflexivity.
  - apply (fit_support_mask_slice Examples.kruskal_H Examples.not_called
             Examples.not_called Examples.not_called
             (fun _ => Examples.not_called) Examples.no_mrmr (fun q => q)
             (fun q => q) Examples.identity_sample)
      with (s := Examples.index_selector) (X := Seq Examples.X3)
           (y := Some (Seq Examples.y01)) (fuel := 0%nat).
    + intros n rows y out H. discriminate H.
    + intros n rows y out H. discriminate H.
    + intros n rows y out H. discriminate H.
    + intros random_state n rows y out H. discriminate H.
    + intros n rows y k order H. discriminate H.
    + intros g H. injection H as <-. intros n rows y out Hout.
      injection Hout as <-. cbn [values].
      rewrite length_map. apply length_seq.
    + intros g _ H. discriminate H.
    + intros g H _ _ _. injection H as <-. intros n rows y out Hout.
      injection Hout as <-. eexists. reflexivity.
    + intros H. discriminate H.
    + vm_compute. reflexivity.
    + vm_compute. reflexivity.
Defined.

End SelectionFacts.

(** ** [before_after_comparison]: what a call needs and which test it runs *)

Module ComparisonFacts.

Import PyStr Np Harmonization.
Open Scope string_scope.

Lemma mapM_ext {A B : Type} (f g : A -> result B) (l : list A) :
  (forall x, In x l -> f x = g x) -> mapM f l = mapM g l.
Proof.
  induction l as [| x l IH]; intros H; cbn [mapM].
  - reflexivity.
  - rewrite (H x (or_introl eq_refl)), IH; [reflexivity |].
    intros z Hz. apply H. right. exact Hz.
Qed.

(** [check_batch] returns the array it was given, with at least two
    distinct values. *)
Lemma check_batch_ok (batch : arg (ndarray label)) (b : ndarray label) :
  check_batch batch = Ok b ->
  (2 <= length (unique b))%nat /\ (batch = Seq b \/ batch = Pandas b).
Proof.
  unfold check_batch. intros H. bind_inv H. bind_inv H.
  destruct (Nat.leb_spec (length (unique a)) 1); [discriminate H |].
  injection H as ->. split; [lia |].
  destruct batch; inversion Ha; auto.
Qed.

Section BeforeAfter.

Variable mannwhitneyu : list Q -> list Q -> result (Q * Q).
Variable kruskal : list (list Q) -> result (Q * Q).

Lemma table_pvalues_length (a : ndarray Q) (b : ndarray label)
  (pvalues : list Q) :
  table_pvalues mannwhitneyu kruskal a b = Ok pvalues ->
  exists n rows, a = Mat n rows /\ length pvalues = n.
Proof.
  unfold table_pvalues. destruct a as [| | n rows |]; try discriminate.
  intros H. apply PyFacts.mapM_length in H. rewrite length_seq in H.
  exists n, rows. auto.
Qed.

(** When [before_after_comparison] returns, both tables are matrices with
    the same number of features, the batch vector has at least two distinct
    values, and each of the two columns of p-values has one entry per
    feature. *)
Theorem before_after_comparison_shape (X_before X_after : arg (ndarray Q))
  (batch : arg (ndarray label)) (pvalue_before pvalue_after : list Q) :
  before_after_comparison mannwhitneyu kruskal X_before X_after batch
    = Ok (pvalue_before, pvalue_after) ->
  exists n rows_before rows_after b,
    check_table "before" X_before = Ok (Mat n rows_before)
    /\ check_table "after" X_after = Ok (Mat n rows_after)
    /\ check_batch batch = Ok b /\ (2 <= length (unique b))%nat
    /\ length pvalue_before = n /\ length pvalue_after = n.
Proof.
  unfold before_after_comparison. intros H.
  bind_inv H. rename a into before, Ha into Hbefore.
  bind_inv H. rename a into after, Ha into Hafter.
  bind_inv H. rename a into b, Ha into Hb.
  bind_inv H. rename a into pb, Ha into Hpb.
  bind_inv H. rename a into pa, Ha into Hpa.
  destruct (Nat.eqb_spec (length pb) (length pa)) as [E |]; [| discriminate H].
  injection H as <- <-.
  destruct (table_pvalues_length _ _ _ Hpb) as [n [rows_b [-> Hn]]].
  destruct (table_pvalues_length _ _ _ Hpa) as [m [rows_a [-> Hm]]].
  assert (Hmn : m = n) by congruence. rewrite Hmn in Hafter, Hm.
  exists n, rows_b, rows_a, b.
  destruct (check_batch_ok _ _ Hb) as [Hu _].
  split; [exact Hbefore |]. split; [exact Hafter |]. split; [exact Hb |].
  split; [exact Hu |]. split; [exact Hn | exact Hm].
Qed.

(** A batch vector given as a column (shape [(n, 1)]) passes the check,
    which computes its flattening and drops it (line 124); cutting a feature
    column with the 2-d mask [batch == label] then raises [IndexError]: no
    comparison is made on such a batch as soon as the first table has a
    feature. *)
Theorem before_after_comparison_column_batch
  (X_before X_after : arg (ndarray Q)) (batch : arg (ndarray label))
  (n m c : nat) (rows_before rows_after : list (list Q))
  (brows : list (list label)) :
  check_table "before" X_before = Ok (Mat (S n) rows_before) ->
  check_table "after" X_after = Ok (Mat m rows_after) ->
  check_batch batch = Ok (Mat c brows) ->
  before_after_comparison mannwhitneyu kruskal X_before X_after batch
    = Raise (IndexError "too many indices for array").
Proof.
  intros Hb Ha Hbatch. unfold before_after_comparison.
  rewrite Hb, Ha. cbn [bind]. rewrite Hbatch. cbn [bind].
  destruct (check_batch_ok _ _ Hbatch) as [Hu _].
  unfold table_pvalues. cbn [seq mapM]. unfold feature_pvalue at 1.
  destruct (unique (Mat c brows)) as [| l0 [| l1 [| l2 ls]]];
    cbn [length] in Hu; try lia; reflexivity.
Qed.

(** The test is chosen by the number of distinct batch values: with
    exactly two the outcome does not depend on the Kruskal-Wallis routine,
    which is not called, and with any other number it does not depend on the
    Mann-Whitney routine. *)
Theorem before_after_comparison_test_choice
  (X_before X_after : arg (ndarray Q)) (batch : arg (ndarray label))
  (b : ndarray label) :
  check_batch batch = Ok b ->
  (length (unique b) = 2%nat ->
   forall kruskal',
     before_after_comparison mannwhitneyu kruskal X_before X_after batch
     = before_after_comparison mannwhitneyu kruskal' X_before X_after batch)
  /\ (length (unique b) <> 2%nat ->
      forall mannwhitneyu',
        before_after_comparison mannwhitneyu kruskal X_before X_after batch
        = before_after_comparison mannwhitneyu' kruskal X_before X_after
            batch).
Proof.
  intros Hb.
  assert (Htwo : length (unique b) = 2%nat ->
            forall kruskal' a,
              table_pvalues mannwhitneyu kruskal a b
              = table_pvalues mannwhitneyu kruskal' a b).
  { intros H2 kruskal' a. unfold table_pvalues.
    destruct a as [| | n rows |]; try reflexivity.
    apply mapM_ext. intros i _. unfold feature_pvalue.
    destruct (unique b) as [| l0 [| l1 [| l2 ls]]]; cbn [length] in H2;
      try lia. reflexivity. }
  assert (Hother : length (unique b) <> 2%nat ->
            forall mannwhitneyu' a,
              table_pvalues mannwhitneyu kruskal a b
              = table_pvalues mannwhitneyu' kruskal a b).
  { intros H2 mannwhitneyu' a. unfold table_pvalues.
    destruct a as [| | n rows |]; try reflexivity.
    apply mapM_ext. intros i _. unfold feature_pvalue.
    destruct (unique b) as [| l0 [| l1 [| l2 ls]]]; cbn [length] in H2;
      try lia; reflexivity. }
  unfold before_after_comparison.
  split; intros H2 other;
    destruct (check_table "before" X_before) as [before |]; cbn [bind];
    try reflexivity;
    destruct (check_table "after" X_after) as [after |]; cbn [bind];
    try reflexivity;
    rewrite Hb; cbn [bind].
  - rewrite (Htwo H2 other before), (Htwo H2 other after). reflexivity.
  - rewrite (Hother H2 other before), (Hother H2 other after). reflexivity.
Qed.

End BeforeAfter.

(** One feature over two scanners: one p-value in each column. *)
Lemma before_after_comparison_shape_witness :
  exists n rows_before rows_after b,
    check_table "before" (Seq Examples.one_feature) = Ok (Mat n rows_before)
    /\ check_table "after" (Seq Examples.one_feature) = Ok (Mat n rows_after)
    /\ check_batch (Seq Examples.two_batches) = Ok b
    /\ (2 <= length (unique b))%nat
    /\ length [1 # 2]%Q = n /\ length [1 # 2]%Q = n.
Proof.
  apply (before_after_comparison_shape Examples.mannwhitneyu_half
           Examples.kruskal_none (Seq Examples.one_feature)
           (Seq Examples.one_feature) (Seq Examples.two_batches)).
  reflexivity.
Defined.

(** The two scanners given as a column vector. *)
Lemma before_after_comparison_column_batch_witness :
  before_after_comparison Examples.mannwhitneyu_half Examples.kruskal_none
    (Seq Examples.one_feature) (Seq Examples.one_feature)
    (Seq Examples.y2_column)
  = Raise (IndexError "too many indices for array").
Proof.
  apply (before_after_comparison_column_batch Examples.mannwhitneyu_half
           Examples.kruskal_none (Seq Examples.one_feature)
           (Seq Examples.one_feature) (Seq Examples.y2_column) 0%nat 1%nat
           1%nat
           (match Examples.one_feature with Mat _ rows => rows | _ => [] end)
           (match Examples.one_feature with Mat _ rows => rows | _ => [] end)
           (match Examples.y2_column with Mat _ rows => rows | _ => [] end));
    reflexivity.
Defined.

Lemma before_after_comparison_test_choice_witness :
  (length (unique Examples.two_batches) = 2%nat ->
   forall kruskal',
     before_after_comparison Examples.mannwhitneyu_half Examples.kruskal_none
       (Seq Examples.one_feature) (Seq Examples.one_feature)
       (Seq Examples.two_batches)
     = before_after_comparison Examples.mannwhitneyu_half kruskal'
         (Seq Examples.one_feature) (Seq Examples.one_feature)
         (Seq Examples.two_batches))
  /\ (length (unique Examples.two_batches) <> 2%nat ->
      forall mannwhitneyu',
        before_after_comparison Examples.mannwhitneyu_half
          Examples.kruskal_none (Seq Examples.one_feature)
          (Seq Examples.one_feature) (Seq Examples.two_batches)
        = before_after_comparison mannwhitneyu' Examples.kruskal_none
            (Seq Examples.one_feature) (Seq Examples.one_feature)
            (Seq Examples.two_batches)).
Proof.
  apply (before_after_comparison_test_choice Examples.mannwhitneyu_half
           Examples.kruskal_none (Seq Examples.one_feature)
           (Seq Examples.one_feature) (Seq Examples.two_batches)
           Examples.two_batches).
  reflexivity.
Defined.

End ComparisonFacts.

(** ** Mappings: [d[k] = v] and [d.update] *)

Module DictFacts.

Import PyStr Pipeline.
Open Scope string_scope.

Lemma keys_setitem {V : Type} (d : dict V) (k : string) (v : V) (k' : string) :
  In k' (keys (setitem d k v)) <-> k' = k \/ In k' (keys d).
Proof.
  unfold keys. induction d as [| [k1 v1] d IH]; cbn [setitem map fst In].
  - intuition.
  - destruct (String.eqb_spec k1 k) as [-> | Hne]; cbn [map fst In].
    + intuition.
    + rewrite IH. intuition.
Qed.

Lemma NoDup_setitem {V : Type} (d : dict V) (k : string) (v : V) :
  NoDup (keys d) -> NoDup (keys (setitem d k v)).
Proof.
  induction d as [| [k1 v1] d IH]; cbn [setitem]; intros H.
  - repeat constructor. intros [].
  - destruct (String.eqb_spec k1 k) as [-> | Hne].
    + exact H.
    + unfold keys in *. cbn [map fst] in *.
      apply NoDup_cons_iff in H. destruct H as [Hin Hnd].
      constructor; [| apply IH; exact Hnd].
      intros Hk. apply (keys_setitem d k v k1) in Hk.
      destruct Hk as [-> | Hk]; [apply Hne; reflexivity | apply Hin; exact Hk].
Qed.

Lemma lookup_setitem {V : Type} (d : dict V) (k : string) (v : V)
  (q : string) :
  lookup q (setitem d k v) = if String.eqb k q then Some v else lookup q d.
Proof.
  induction d as [| [k1 v1] d IH]; cbn [setitem lookup].
  - reflexivity.
  - destruct (String.eqb_spec k1 k) as [-> | Hne]; cbn [lookup].
    + destruct (String.eqb k q); reflexivity.
    + rewrite IH. destruct (String.eqb_spec k1 q) as [-> | Hq];
        [| reflexivity].
      destruct (String.eqb_spec k q) as [-> | _];
        [exfalso; apply Hne; reflexivity | reflexivity].
Qed.

Lemma lookup_keys {V : Type} (d : dict V) (k : string) :
  lookup k d <> None <-> In k (keys d).
Proof.
  unfold keys. induction d as [| [k1 v1] d IH]; cbn [lookup map fst In].
  - intuition.
  - destruct (String.eqb_spec k1 k) as [-> | Hne].
    + split; [auto | discriminate].
    + rewrite IH. intuition.
Qed.

End DictFacts.

(** ** [get_features_dic] *)

Module FeaturesDicFacts.

Import PyStr Pipeline DictFacts.
Open Scope string_scope.

Section GetDataset.

Variable frame : Type.
Variable batch_t covariates_t : Type.
Variable read_excel : string -> result frame.
Variable MComBat : frame -> batch_t -> string -> covariates_t -> result frame.
Variable ComBat : frame -> batch_t -> covariates_t -> result frame.
Variable concat_columns : frame -> frame -> frame.

Variable dataset_dic : dict string.
Variable batch : batch_t.
Variable harmonization : string.
Variable covariates : covariates_t.

Local Abbreviation run dataset :=
  (get_dataset read_excel MComBat ComBat concat_columns dataset dataset_dic
               batch harmonization covariates).
Local Abbreviation run_loop l acc :=
  (features_loop read_excel MComBat ComBat concat_columns l dataset_dic
                 batch harmonization covariates acc).
Local Abbreviation run_all dataset_list :=
  (get_features_dic read_excel MComBat ComBat concat_columns dataset_list
                    dataset_dic batch harmonization covariates).

(** What [get_dataset] returns is a single entry under the id it was
    given, one of the four of the dispatch. *)
Lemma get_dataset_entry (dataset : string) (d : dict frame) :
  run dataset = Ok d ->
  In dataset dispatched_ids /\ exists t, d = [(dataset, t)].
Proof.
  unfold get_dataset, dispatched_ids. intros H.
  destruct (String.eqb_spec dataset "S+D") as [-> |].
  { repeat bind_inv H. injection H as <-. split; [simpl; auto | eauto]. }
  destruct (String.eqb_spec dataset "S+D+OR") as [-> |].
  { repeat bind_inv H. injection H as <-. split; [simpl; auto | eauto]. }
  destruct (String.eqb_spec dataset "S") as [-> |].
  { repeat bind_inv H. injection H as <-. split; [simpl; auto | eauto]. }
  destruct (String.eqb_spec dataset "S+OR") as [-> |].
  { repeat bind_inv H. injection H as <-. split; [simpl; auto | eauto]. }
  discriminate H.
Qed.

Lemma features_loop_spec (l : list string) :
  forall acc d,
    run_loop l acc = Ok d ->
    NoDup (keys acc) ->
    (forall k t, lookup k acc = Some t -> run k = Ok [(k, t)]) ->
    Forall (fun dataset => In dataset dispatched_ids) l
    /\ NoDup (keys d)
    /\ (forall k, In k (keys d) <-> In k (keys acc) \/ In k l)
    /\ (forall k t, lookup k d = Some t -> run k = Ok [(k, t)]).
Proof.
  induction l as [| dataset l IH]; intros acc d H Hnd Hacc; cbn [features_loop] in H.
  - injection H as <-. split; [constructor |]. split; [exact Hnd |].
    split; [| exact Hacc]. intros k. cbn [In]. intuition.
  - bind_inv H. rename a into entry, Ha into Hentry.
    destruct (get_dataset_entry _ _ Hentry) as [Hin [t ->]].
    change (update acc [(dataset, t)]) with (setitem acc dataset t) in H.
    apply IH in H.
    + destruct H as [Hall [Hnd' [Hkeys Hlook]]].
      split; [constructor; assumption |]. split; [exact Hnd' |].
      split; [| exact Hlook].
      intros k. rewrite Hkeys, keys_setitem. cbn [In]. intuition.
    + apply NoDup_setitem. exact Hnd.
    + intros k t'. rewrite lookup_setitem.
      destruct (String.eqb_spec dataset k) as [<- | _].
      * intros E. injection E as <-. exact Hentry.
      * apply Hacc.
Qed.

(** When [get_features_dic] returns, every id asked for is one of the four
    of the dispatch, the mapping has exactly the ids asked for as keys, each
    once, and each key is bound to the table [get_dataset] returns for it.
    A single id given as a string counts as a list of one id. *)
Theorem get_features_dic_keys (dataset_list : dataset_list_arg)
  (features_dic : dict frame) :
  run_all dataset_list = Ok features_dic ->
  Forall (fun dataset => In dataset dispatched_ids)
         (as_dataset_list dataset_list)
  /\ NoDup (keys features_dic)
  /\ (forall k, In k (keys features_dic)
                <-> In k (as_dataset_list dataset_list))
  /\ (forall k t, lookup k features_dic = Some t -> run k = Ok [(k, t)]).
Proof.
  unfold get_features_dic. intros H.
  apply features_loop_spec in H.
  - destruct H as [H1 [H2 [H3 H4]]]. split; [exact H1 |].
    split; [exact H2 |]. split; [| exact H4].
    intros k. rewrite H3. cbn [keys map In]. intuition.
  - constructor.
  - intros k t E. discriminate E.
Qed.

(** The three tables load and the harmonisation goes through. *)
Hypothesis tables_load :
  forall key, In key ["S"; "D"; "OR"] ->
    exists t, load read_excel dataset_dic key = Ok t.
Hypothesis harmonization_succeeds :
  forall t, exists t',
    harmonize MComBat ComBat harmonization t batch covariates = Ok t'.

Lemma features_loop_outcome (l : list string) :
  forall acc,
    (Forall (fun dataset => In dataset dispatched_ids) l ->
     exists d, run_loop l acc = Ok d)
    /\ (~ Forall (fun dataset => In dataset dispatched_ids) l ->
        run_loop l acc = Raise (ValueError "")).
Proof.
  induction l as [| dataset l IH]; intros acc; cbn [features_loop].
  - split; [intros _; eexists; reflexivity |].
    intros H. exfalso. apply H. constructor.
  - destruct (in_dec string_dec dataset dispatched_ids) as [Hin | Hout].
    + destruct (GetDatasetFacts.get_dataset_known frame batch_t covariates_t
                  read_excel MComBat ComBat concat_columns dataset_dic batch
                  harmonization covariates tables_load harmonization_succeeds
                  dataset Hin) as [t Ht].
      rewrite Ht. cbn [bind]. destruct (IH (update acc [(dataset, t)])) as [Hok Hbad].
      split.
      * intros H. apply Hok. apply Forall_inv_tail in H. exact H.
      * intros H. apply Hbad. intros Hl. apply H. constructor; assumption.
    + rewrite (GetDatasetFacts.get_dataset_unknown frame batch_t covariates_t
                 read_excel MComBat ComBat concat_columns dataset_dic batch
                 harmonization covariates dataset Hout).
      cbn [bind]. split; [| reflexivity].
      intros H. exfalso. apply Hout. apply Forall_inv in H. exact H.
Qed.

(** When the tables load and the harmonisation succeeds,
    [get_features_dic] returns exactly when every id asked for is one of the
    four of the dispatch, and raises the bare [ValueError] of [get_dataset]
    otherwise: one id outside the four loses the whole mapping. *)
Theorem get_features_dic_outcome (dataset_list : dataset_list_arg) :
  (Forall (fun dataset => In dataset dispatched_ids)
          (as_dataset_list dataset_list) ->
   exists features_dic, run_all dataset_list = Ok features_dic)
  /\ (~ Forall (fun dataset => In dataset dispatched_ids)
               (as_dataset_list dataset_list) ->
      run_all dataset_list = Raise (ValueError "")).
Proof. apply features_loop_outcome. Qed.

End GetDataset.

(** The ids ['S'], ['S+D'], ['S'] give the two keys ['S'] and ['S+D']. *)
Lemma get_features_dic_keys_witness :
  Forall (fun dataset => In dataset dispatched_ids) ["S"; "S+D"; "S"]
  /\ NoDup (keys [("S", ["S.xlsx"]); ("S+D", ["S.xlsx"; "D.xlsx"])])
  /\ (forall k, In k (keys [("S", ["S.xlsx"]); ("S+D", ["S.xlsx"; "D.xlsx"])])
                <-> In k ["S"; "S+D"; "S"])
  /\ (forall k t,
        lookup k [("S", ["S.xlsx"]); ("S+D", ["S.xlsx"; "D.xlsx"])] = Some t ->
        demo_get_dataset k = Ok [(k, t)]).
Proof.
  apply (get_features_dic_keys (list string) unit unit demo_read_excel
           demo_MComBat demo_ComBat (@app string) demo_dataset_dic tt
           "MComBat" tt (Datasets ["S"; "S+D"; "S"])).
  reflexivity.
Defined.

(** On a file system where every table loads: ['S+D+OR'] as a string, and
    a list with the id ['D']. *)
Lemma get_features_dic_outcome_witness :
  (exists features_dic,
     demo_get_features_dic (OneDataset "S+D+OR") = Ok features_dic)
  /\ demo_get_features_dic (Datasets ["S"; "D"]) = Raise (ValueError "").
Proof.
  assert (Hload : forall key, In key ["S"; "D"; "OR"] ->
            exists t, load demo_read_excel demo_dataset_dic key = Ok t).
  { intros key [<- | [<- | [<- | []]]]; eexists; reflexivity. }
  assert (Hharm : forall t : list string, exists t',
            harmonize demo_MComBat demo_ComBat "MComBat" t tt tt = Ok t').
  { intros t. exists t. reflexivity. }
  split.
  - apply (get_features_dic_outcome (list string) unit unit demo_read_excel
             demo_MComBat demo_ComBat (@app string) demo_dataset_dic tt
             "MComBat" tt Hload Hharm (OneDataset "S+D+OR")).
    constructor; [simpl; auto | constructor].
  - apply (get_features_dic_outcome (list string) unit unit demo_read_excel
             demo_MComBat demo_ComBat (@app string) demo_dataset_dic tt
             "MComBat" tt Hload Hharm (Datasets ["S"; "D"])).
    intros H. apply Forall_inv_tail in H. apply Forall_inv in H.
    simpl in H. destruct H as [H | [H | [H | [H | []]]]]; discriminate H.
Defined.

End FeaturesDicFacts.

(** ** [save_results]: the flattened inner search trace *)

Module InnerResultsFacts.

Import PyStr Np Pipeline DictFacts.
Open Scope string_scope.

Lemma foldM_app {A S : Type} (f : S -> A -> result S) (l1 l2 : list A)
  (s : S) :
  foldM f (l1 ++ l2) s = (s' <- foldM f l1 s ;; foldM f l2 s').
Proof.
  revert s. induction l1 as [| x l1 IH]; intros s; cbn [foldM app bind].
  - reflexivity.
  - destruct (f s x); cbn [bind]; [apply IH | reflexivity].
Qed.

Section InnerResults.

Variable V : Type.

(** [table'] is [table] with [extra k] appended to each column [k]. *)
Local Abbreviation extends table table' extra :=
  (forall k : string,
     match lookup k table with
     | Some column => lookup k table' = Some (column ++ extra k)%list
     | None => lookup k table' = None
     end).

Lemma extends_refl (t : dict (list (entry V)))
  (extra : string -> list (entry V)) :
  (forall k, extra k = []) -> extends t t extra.
Proof.
  intros H k. destruct (lookup k t) eqn:E; [| reflexivity].
  rewrite H, app_nil_r. reflexivity.
Qed.

Lemma extends_trans (t1 t2 t3 : dict (list (entry V)))
  (e1 e2 e3 : string -> list (entry V)) :
  extends t1 t2 e1 -> extends t2 t3 e2 ->
  (forall k, e3 k = (e1 k ++ e2 k)%list) ->
  extends t1 t3 e3.
Proof.
  intros H1 H2 H3 k. specialize (H1 k). specialize (H2 k).
  destruct (lookup k t1).
  - rewrite H1 in H2. rewrite H2, H3, app_assoc. reflexivity.
  - rewrite H1 in H2. exact H2.
Qed.

Lemma append_extends (t t' : dict (list (entry V))) (key : string)
  (x : entry V) :
  append t key x = Ok t' ->
  lookup key t <> None
  /\ extends t t' (fun k => if String.eqb key k then [x] else []).
Proof.
  unfold append, getitem. intros H.
  destruct (lookup key t) as [column |] eqn:E; [| discriminate H].
  cbn [bind] in H. injection H as <-. split; [discriminate |].
  intros k. rewrite lookup_setitem.
  destruct (String.eqb_spec key k) as [<- | Hne].
  - rewrite E. reflexivity.
  - destruct (lookup k t); [rewrite app_nil_r |]; reflexivity.
Qed.

(** What candidate [j] of a fold adds to the column [k]. *)
Local Abbreviation cell fold_results j k :=
  (match lookup k fold_results with
   | Some column =>
       match nth_error column j with
       | Some v => [Recorded v]
       | None => []
       end
   | None => []
   end).

Lemma candidate_value_cell (fold_results : dict (list V)) (key : string)
  (j : nat) (v : V) :
  candidate_value fold_results key j = Ok v ->
  cell fold_results j key = [Recorded v]
  /\ exists column, lookup key fold_results = Some column
                    /\ (j < length column)%nat.
Proof.
  unfold candidate_value, getitem. intros H.
  destruct (lookup key fold_results) as [column |]; [| discriminate H].
  cbn [bind] in H.
  destruct (nth_error column j) as [x |] eqn:E; [| discriminate H].
  injection H as ->. split; [reflexivity |].
  exists column. split; [reflexivity |].
  apply nth_error_Some. congruence.
Qed.

(** Line 65-66: the loop over the keys of a fold. *)
Lemma keys_loop_extends (fold_results : dict (list V)) (j : nat) :
  forall (ks : list string) (t t' : dict (list (entry V))),
    foldM (fun table key =>
             v <- candidate_value fold_results key j ;;
             append table key (Recorded v)) ks t = Ok t' ->
    NoDup ks ->
    extends t t' (fun k => if mem k ks then cell fold_results j k else [])
    /\ forall k, In k ks ->
         lookup k t <> None
         /\ exists column, lookup k fold_results = Some column
                           /\ (j < length column)%nat.
Proof.
  induction ks as [| key ks IH]; intros t t' H Hnd; cbn [foldM] in H.
  - injection H as <-. split; [| intros k []].
    apply extends_refl. reflexivity.
  - bind_inv H. rename a into t1, Ha into H1.
    bind_inv H1. rename a into v, Ha into Hv.
    apply NoDup_cons_iff in Hnd. destruct Hnd as [Hkey Hnd].
    destruct (candidate_value_cell _ _ _ _ Hv) as [Hcell Hcol].
    destruct (append_extends _ _ _ _ H1) as [Hin Hext1].
    destruct (IH _ _ H Hnd) as [Hext2 Hks].
    split.
    + refine (extends_trans _ _ _ _ _ _ Hext1 Hext2 _).
      intros k. unfold mem. cbn [existsb].
      rewrite (String.eqb_sym k key).
      destruct (String.eqb_spec key k) as [<- | Hne]; cbn [orb].
      * assert (existsb (String.eqb key) ks = false) as ->.
        { destruct (existsb (String.eqb key) ks) eqn:E; [| reflexivity].
          exfalso. apply Hkey. apply (LocalIntensityFacts.mem_In key ks).
          exact E. }
        rewrite Hcell. reflexivity.
      * reflexivity.
    + intros k [<- | Hk]; [split; assumption |].
      destruct (Hks k Hk) as [Hk1 Hk2]. split; [| exact Hk2].
      specialize (Hext1 k). destruct (lookup k t); [discriminate |].
      congruence.
Qed.

(** Lines 64-66: the row of one candidate. *)
Lemma append_candidate_extends (i : nat) (fold_results : dict (list V))
  (t t' : dict (list (entry V))) (j : nat) :
  NoDup (keys fold_results) -> ~ In "inner_Fold" (keys fold_results) ->
  append_candidate i fold_results t j = Ok t' ->
  extends t t' (fun k => if String.eqb "inner_Fold" k then [Fold i]
                         else cell fold_results j k)
  /\ forall k, In k (keys fold_results) ->
       lookup k t <> None
       /\ exists column, lookup k fold_results = Some column
                         /\ (j < length column)%nat.
Proof.
  intros Hnd Hno H. unfold append_candidate in H.
  bind_inv H. rename a into t1, Ha into H1.
  destruct (append_extends _ _ _ _ H1) as [_ Hext1].
  destruct (keys_loop_extends _ _ _ _ _ H Hnd) as [Hext2 Hks].
  split.
  - refine (extends_trans _ _ _ _ _ _ Hext1 Hext2 _).
    intros k. destruct (String.eqb_spec "inner_Fold" k) as [<- | Hne].
    + assert (mem "inner_Fold" (keys fold_results) = false) as ->;
        [| reflexivity].
      destruct (mem "inner_Fold" (keys fold_results)) eqn:E; [| reflexivity].
      exfalso. apply Hno. apply LocalIntensityFacts.mem_In. exact E.
    + cbn [app]. destruct (mem k (keys fold_results)) eqn:E; [reflexivity |].
      assert (lookup k fold_results = None) as ->; [| reflexivity].
      destruct (lookup k fold_results) eqn:El; [| reflexivity].
      exfalso. assert (In k (keys fold_results)) as Hin
        by (apply lookup_keys; congruence).
      apply LocalIntensityFacts.mem_In in Hin. congruence.
  - intros k Hk. destruct (Hks k Hk) as [Hk1 Hk2]. split; [| exact Hk2].
    specialize (Hext1 k). destruct (lookup k t); [discriminate |].
    congruence.
Qed.

Lemma skipn_nth_error {A : Type} (l : list A) :
  forall a v, nth_error l a = Some v -> skipn a l = v :: skipn (S a) l.
Proof.
  induction l as [| x l IH]; intros a v H.
  - destruct a; discriminate H.
  - destruct a as [| a]; cbn [nth_error] in H.
    + injection H as <-. reflexivity.
    + cbn [skipn]. rewrite (IH a v H). reflexivity.
Qed.

(** Lines 63-66: the rows of the candidates [a], ..., [a + m - 1]. *)
Lemma candidates_loop_extends (i : nat) (fold_results : dict (list V)) :
  NoDup (keys fold_results) -> ~ In "inner_Fold" (keys fold_results) ->
  forall (m a : nat) (t t' : dict (list (entry V))),
    foldM (append_candidate i fold_results) (seq a m) t = Ok t' ->
    extends t t'
      (fun k => if String.eqb "inner_Fold" k then repeat (Fold i) m
                else match lookup k fold_results with
                     | Some column => map Recorded (firstn m (skipn a column))
                     | None => []
                     end)
    /\ (m <> 0%nat -> forall k, In k (keys fold_results) -> lookup k t <> None).
Proof.
  intros Hnd Hno. induction m as [| m IH]; intros a t t' H; cbn [seq foldM] in H.
  - injection H as <-. split; [| intros E; contradiction].
    apply extends_refl. intros k.
    destruct (String.eqb "inner_Fold" k); [reflexivity |].
    destruct (lookup k fold_results); reflexivity.
  - bind_inv H. rename a0 into t1, Ha into H1.
    destruct (append_candidate_extends _ _ _ _ _ Hnd Hno H1) as [Hext1 Hks].
    destruct (IH _ _ _ H) as [Hext2 _].
    split; [| intros _ k Hk; apply (Hks k Hk)].
    refine (extends_trans _ _ _ _ _ _ Hext1 Hext2 _).
    intros k. destruct (String.eqb "inner_Fold" k); [reflexivity |].
    destruct (lookup k fold_results) as [column |] eqn:El; [| reflexivity].
    assert (Hk : In k (keys fold_results)) by (apply lookup_keys; congruence).
    destruct (Hks k Hk) as [_ [column' [El' Hlt]]].
    rewrite El in El'. injection El' as <-.
    destruct (nth_error column a) as [v |] eqn:Ev.
    + rewrite (skipn_nth_error _ _ _ Ev). reflexivity.
    + apply nth_error_None in Ev. lia.
Qed.

(** Lines 62-66, for the folds numbered from [a] on. *)
Lemma folds_loop_extends :
  forall (folds : list (dict (list V))) (a : nat)
         (t t' : dict (list (entry V))),
    Forall (fun fold => NoDup (keys fold) /\ ~ In "inner_Fold" (keys fold))
           folds ->
    foldM (append_fold (V := V)) (combine (seq a (length folds)) folds) t
      = Ok t' ->
    extends t t'
      (fun k => if String.eqb "inner_Fold" k
                then flat_map (fun f => repeat (Fold (fst f))
                                          (length (candidates (snd f))))
                              (combine (seq a (length folds)) folds)
                else flat_map (fun fold => recorded fold k) folds)
    /\ Forall (fun fold => candidates fold <> [] ->
                           forall k, In k (keys fold) -> lookup k t <> None)
              folds.
Proof.
  induction folds as [| fold folds IH]; intros a t t' Hwf H;
    cbn [length seq combine foldM] in H.
  - injection H as <-. split; [| constructor].
    apply extends_refl. intros k.
    destruct (String.eqb "inner_Fold" k); reflexivity.
  - apply Forall_cons_iff in Hwf. destruct Hwf as [[Hnd Hno] Hwf].
    bind_inv H. rename a0 into t1, Ha into H1.
    cbn [append_fold] in H1. bind_inv H1. rename a0 into cands, Ha into Hc.
    apply BestIndexFacts.getitem_lookup in Hc.
    assert (Ec : candidates fold = cands) by (unfold candidates; rewrite Hc; reflexivity).
    destruct (candidates_loop_extends _ _ Hnd Hno _ _ _ _ H1) as [Hext1 Hdom1].
    destruct (IH _ _ _ Hwf H) as [Hext2 Hdom2].
    split.
    + refine (extends_trans _ _ _ _ _ _ Hext1 Hext2 _).
      intros k. cbn [length seq combine flat_map fst snd].
      destruct (String.eqb "inner_Fold" k); [rewrite Ec; reflexivity |].
      unfold recorded at 1. rewrite Ec. cbn [skipn]. reflexivity.
    + constructor.
      * intros Hne. apply Hdom1. rewrite <- Ec.
        destruct (candidates fold); [contradiction | discriminate].
      * eapply Forall_impl; [| exact Hdom2].
        intros f Hf Hne k Hk. specialize (Hf Hne k Hk).
        specialize (Hext1 k). destruct (lookup k t); [discriminate |].
        congruence.
Qed.

Lemma lookup_inner_results_empty (k : string) :
  lookup k (inner_results_empty V)
  = if mem k inner_columns then Some [] else None.
Proof.
  unfold inner_results_empty, mem.
  induction inner_columns as [| c l IH]; cbn [map lookup existsb].
  - reflexivity.
  - rewrite (String.eqb_sym k c). destruct (String.eqb c k); cbn [orb].
    + reflexivity.
    + exact IH.
Qed.

(** The flattened inner search trace, when every fold is a mapping without
    the key ['inner_Fold']: the column ['inner_Fold'] holds the index of each
    fold once per candidate of the fold, every other column holds, fold
    after fold, the values the fold records under that key for its
    candidates, and a fold with a candidate has no key outside the six
    columns of line 60 (a further key stops the loop with [KeyError]). *)
Theorem reformat_inner_results_columns
  (inner_results : list (dict (list V))) (table : dict (list (entry V))) :
  Forall (fun fold => NoDup (keys fold) /\ ~ In "inner_Fold" (keys fold))
         inner_results ->
  reformat_inner_results inner_results = Ok table ->
  lookup "inner_Fold" table
  = Some (flat_map (fun f => repeat (Fold (fst f))
                                (length (candidates (snd f))))
                   (combine (seq 0 (length inner_results)) inner_results))
  /\ (forall key, In key inner_columns -> key <> "inner_Fold" ->
        lookup key table
        = Some (flat_map (fun fold => recorded fold key) inner_results))
  /\ Forall (fun fold => candidates fold <> [] ->
                         incl (keys fold) inner_columns) inner_results.
Proof.
  intros Hwf H. unfold reformat_inner_results in H.
  destruct (folds_loop_extends _ _ _ _ Hwf H) as [Hext Hdom].
  split; [| split].
  - specialize (Hext "inner_Fold").
    rewrite lookup_inner_results_empty in Hext. exact Hext.
  - intros key Hin Hne. specialize (Hext key).
    rewrite lookup_inner_results_empty in Hext.
    apply LocalIntensityFacts.mem_In in Hin. rewrite Hin in Hext.
    destruct (String.eqb_spec "inner_Fold" key) as [E | _];
      [exfalso; apply Hne; symmetry; exact E | exact Hext].
  - eapply Forall_impl; [| exact Hdom].
    intros fold Hf Hne k Hk. specialize (Hf Hne k Hk).
    rewrite lookup_inner_results_empty in Hf.
    destruct (mem k inner_columns) eqn:E; [| contradiction].
    apply LocalIntensityFacts.mem_In. exact E.
Qed.

End InnerResults.

(** Two folds, with two candidates and with one. *)
Lemma reformat_inner_results_columns_witness :
  lookup "inner_Fold"
    [("inner_Fold", [Fold 0; Fold 0; Fold 1]);
     ("params", [Recorded 1; Recorded 2; Recorded 5]%Q);
     ("mean_test_score", [Recorded 3; Recorded 4; Recorded 6]%Q);
     ("std_test_score", []); ("mean_train_score", []);
     ("std_train_score", [])]
  = Some (flat_map (fun f => repeat (Fold (fst f))
                                (length (candidates (snd f))))
            (combine (seq 0 (length Examples.inner_trace))
                     Examples.inner_trace))
  /\ (forall key, In key inner_columns -> key <> "inner_Fold" ->
        lookup key
          [("inner_Fold", [Fold 0; Fold 0; Fold 1]);
           ("params", [Recorded 1; Recorded 2; Recorded 5]%Q);
           ("mean_test_score", [Recorded 3; Recorded 4; Recorded 6]%Q);
           ("std_test_score", []); ("mean_train_score", []);
           ("std_train_score", [])]
        = Some (flat_map (fun fold => recorded fold key)
                         Examples.inner_trace))
  /\ Forall (fun fold => candidates fold <> [] ->
                         incl (keys fold) inner_columns)
            Examples.inner_trace.
Proof.
  apply (reformat_inner_results_columns Q Examples.inner_trace).
  - repeat constructor; simpl; intuition discriminate.
  - reflexivity.
Defined.

End InnerResultsFacts.

(** ** [get_best_index]: the rank and the classifier hyperparameter *)

Module BestRankFacts.

Import PyStr Np Pipeline BestIndexFacts.
Open Scope string_scope.











End BestRankFacts.

(** ** [BorutaShapFeatureSelection] *)

Module BorutaFacts.

Import Np FeatureSelection.

(** [BorutaShapFeatureSelection.fit] has no [return self]: the inherited
    [fit_transform], which calls [transform] on what [fit] returns, raises
    on every input, after the selection has run when the inputs pass the
    checks. *)
Theorem boruta_fit_transform_never_returns (settings : Type)
  (BorutaShap_accepted :
     settings -> nat -> list (list Q) -> option (ndarray label) ->
     result (list string))
  (int_of_name : string -> result Z) (s : boruta_selector settings)
  (X : arg (ndarray Q)) (y : option (arg (ndarray label))) :
  is_ok (boruta_fit_transform BorutaShap_accepted int_of_name s X y) = false.
Proof.
  unfold boruta_fit_transform.
  destruct (boruta_fit BorutaShap_accepted int_of_name s X y); reflexivity.
Qed.

End BorutaFacts.
